(** * spark-expectations: the [with_expectations] decorator

    A shallow embedding of [SparkExpectations.with_expectations]
    (spark_expectations/core/expectations.py): the notification settings
    computed by [_except], and the [wrapper] that drives the five data
    quality stages over the dataframe returned by the decorated function.

    The wrapper is stateful (it writes the run context), it can raise, and
    the order of its calls matters; it is modelled in a small monad with
    state (the context and a clock), exceptions and a trace of the calls made
    to the collaborators. *)

From Stdlib Require Import ZArith QArith String List Bool Lia.
From stdpp Require Import base gmap strings list pretty.

Open Scope string_scope.
Open Scope list_scope.

(** ** Exceptions *)

Inductive exn_class :=
  | SparkExpectationsMiscException
  | SparkExpectationsDataframeNotReturnedException
  | AttributeError
  | KeyError
  | TypeError
  | ZeroDivisionError
  | OtherException.

(** An exception value: its class and [str(e)]. *)
Record exn := Exn { exn_type : exn_class; exn_str : string }.

Inductive result (A : Type) :=
  | Ok (a : A)
  | Raised (e : exn).
Arguments Ok {A} a.
Arguments Raised {A} e.

Definition is_ok {A} (r : result A) : bool :=
  match r with Ok _ => true | Raised _ => false end.

#[global] Instance exn_class_eq_dec : EqDecision exn_class.
Proof. solve_decision. Defined.

(** ** Python values found in [spark_conf] *)

Inductive pyvalue :=
  | PyNone
  | PyBool (b : bool)
  | PyInt (n : Z)
  | PyStr (s : string).

(** [isinstance(v, bool)] *)
Definition isinstance_bool (v : pyvalue) : bool :=
  match v with PyBool _ => true | _ => false end.

(** [isinstance(v, int)]: [bool] is a subclass of [int]. *)
Definition isinstance_int (v : pyvalue) : bool :=
  match v with PyBool _ | PyInt _ => true | _ => false end.

(** [bool(v)] *)
Definition py_bool (v : pyvalue) : bool :=
  match v with
  | PyNone => false
  | PyBool b => b
  | PyInt n => negb (n =? 0)%Z
  | PyStr s => negb (String.eqb s "")
  end.

(** [int(v)] on the values for which [isinstance(v, int)] holds; the other
    values never reach the call. *)
Definition py_int (v : pyvalue) : Z :=
  match v with
  | PyBool true => 1
  | PyInt n => n
  | _ => 0
  end.

(** Truth value of a string and of an optional string. *)
Definition str_truthy (s : string) : bool := negb (String.eqb s "").

Definition opt_str_truthy (o : option string) : bool :=
  match o with Some s => str_truthy s | None => false end.

(** ** The keys of the notification settings

    [user_config.Constants] is outside the sources at hand: its key names are
    taken as parameters, pairwise distinct. *)
Class UserConfig := {
  se_notifications_on_start : string;
  se_notifications_on_completion : string;
  se_notifications_on_fail : string;
  se_notifications_on_error_drop_exceeds_threshold_breach : string;
  se_notifications_on_error_drop_threshold : string;
  user_config_keys_distinct :
    NoDup [se_notifications_on_start;
           se_notifications_on_completion;
           se_notifications_on_fail;
           se_notifications_on_error_drop_exceeds_threshold_breach;
           se_notifications_on_error_drop_threshold]
}.

(** ** Stages and the run context *)

Inductive stage := source_agg | source_query | row | final_agg | final_query.

#[global] Instance stage_eq_dec : EqDecision stage.
Proof. solve_decision. Defined.

(** Update of one stage's entry in a per-stage attribute. *)
Definition stage_upd {A} (s : stage) (v : A) (f : stage → A) : stage → A :=
  λ s', if decide (s' = s) then v else f s'.

(** The attributes of [SparkExpectationsContext] that [wrapper] writes. The
    five [_<stage>_dq_status], [_<stage>_dq_start_time],
    [_<stage>_dq_end_time] and result attributes are grouped by stage. *)
Record context := MkContext {
  dq_run_status : string;
  dq_status : stage → string;
  dq_start_time : stage → option nat;
  dq_end_time : stage → option nat;
  dq_result : stage → option (list (string * string));
  input_count : Z;
  error_count : Z;
  output_count : Z;
  error_drop_threshold : Z;
  table_name : string;
  notification_on_start : bool;
  notification_on_completion : bool;
  notification_on_fail : bool
}.

(** Modelled from the spec: the default argument of the stage status setters
    of [SparkExpectationsContext] (context.py is not among the sources). A
    stage that does not run reports [Skipped]. *)
Definition default_dq_status : string := "Skipped".

(** Modelled from the spec: the default argument of [set_dq_run_status];
    the run status is pessimistic until the statistics are collected. *)
Definition default_dq_run_status : string := "Failed".

Definition set_dq_run_status (v : string) (c : context) : context :=
  MkContext v (dq_status c) (dq_start_time c) (dq_end_time c) (dq_result c)
    (input_count c) (error_count c) (output_count c) (error_drop_threshold c)
    (table_name c) (notification_on_start c) (notification_on_completion c)
    (notification_on_fail c).

Definition set_dq_status (s : stage) (v : string) (c : context) : context :=
  MkContext (dq_run_status c) (stage_upd s v (dq_status c)) (dq_start_time c)
    (dq_end_time c) (dq_result c) (input_count c) (error_count c)
    (output_count c) (error_drop_threshold c) (table_name c)
    (notification_on_start c) (notification_on_completion c)
    (notification_on_fail c).

Definition set_dq_start_time (s : stage) (t : option nat) (c : context) : context :=
  MkContext (dq_run_status c) (dq_status c) (stage_upd s t (dq_start_time c))
    (dq_end_time c) (dq_result c) (input_count c) (error_count c)
    (output_count c) (error_drop_threshold c) (table_name c)
    (notification_on_start c) (notification_on_completion c)
    (notification_on_fail c).

Definition set_dq_end_time (s : stage) (t : option nat) (c : context) : context :=
  MkContext (dq_run_status c) (dq_status c) (dq_start_time c)
    (stage_upd s t (dq_end_time c)) (dq_result c) (input_count c)
    (error_count c) (output_count c) (error_drop_threshold c) (table_name c)
    (notification_on_start c) (notification_on_completion c)
    (notification_on_fail c).

Definition set_dq_result (s : stage) (r : option (list (string * string)))
    (c : context) : context :=
  MkContext (dq_run_status c) (dq_status c) (dq_start_time c) (dq_end_time c)
    (stage_upd s r (dq_result c)) (input_count c) (error_count c)
    (output_count c) (error_drop_threshold c) (table_name c)
    (notification_on_start c) (notification_on_completion c)
    (notification_on_fail c).

Definition set_input_count (n : Z) (c : context) : context :=
  MkContext (dq_run_status c) (dq_status c) (dq_start_time c) (dq_end_time c)
    (dq_result c) n (error_count c) (output_count c) (error_drop_threshold c)
    (table_name c) (notification_on_start c) (notification_on_completion c)
    (notification_on_fail c).

Definition set_error_count (n : Z) (c : context) : context :=
  MkContext (dq_run_status c) (dq_status c) (dq_start_time c) (dq_end_time c)
    (dq_result c) (input_count c) n (output_count c) (error_drop_threshold c)
    (table_name c) (notification_on_start c) (notification_on_completion c)
    (notification_on_fail c).

Definition set_output_count (n : Z) (c : context) : context :=
  MkContext (dq_run_status c) (dq_status c) (dq_start_time c) (dq_end_time c)
    (dq_result c) (input_count c) (error_count c) n (error_drop_threshold c)
    (table_name c) (notification_on_start c) (notification_on_completion c)
    (notification_on_fail c).

Definition set_error_drop_threshold (n : Z) (c : context) : context :=
  MkContext (dq_run_status c) (dq_status c) (dq_start_time c) (dq_end_time c)
    (dq_result c) (input_count c) (error_count c) (output_count c) n
    (table_name c) (notification_on_start c) (notification_on_completion c)
    (notification_on_fail c).

Definition set_table_name (t : string) (c : context) : context :=
  MkContext (dq_run_status c) (dq_status c) (dq_start_time c) (dq_end_time c)
    (dq_result c) (input_count c) (error_count c) (output_count c)
    (error_drop_threshold c) t (notification_on_start c)
    (notification_on_completion c) (notification_on_fail c).

Definition set_notification_on_start (b : bool) (c : context) : context :=
  MkContext (dq_run_status c) (dq_status c) (dq_start_time c) (dq_end_time c)
    (dq_result c) (input_count c) (error_count c) (output_count c)
    (error_drop_threshold c) (table_name c) b (notification_on_completion c)
    (notification_on_fail c).

Definition set_notification_on_completion (b : bool) (c : context) : context :=
  MkContext (dq_run_status c) (dq_status c) (dq_start_time c) (dq_end_time c)
    (dq_result c) (input_count c) (error_count c) (output_count c)
    (error_drop_threshold c) (table_name c) (notification_on_start c) b
    (notification_on_fail c).

Definition set_notification_on_fail (b : bool) (c : context) : context :=
  MkContext (dq_run_status c) (dq_status c) (dq_start_time c) (dq_end_time c)
    (dq_result c) (input_count c) (error_count c) (output_count c)
    (error_drop_threshold c) (table_name c) (notification_on_start c)
    (notification_on_completion c) b.

(** The getters and setters of the context under their source names. *)
Definition get_source_agg_dq_status (c : context) := dq_status c source_agg.
Definition get_source_query_dq_status (c : context) := dq_status c source_query.
Definition get_row_dq_status (c : context) := dq_status c row.
Definition get_final_agg_dq_status (c : context) := dq_status c final_agg.
Definition get_final_query_dq_status (c : context) := dq_status c final_query.

Definition set_source_agg_dq_status := set_dq_status source_agg.
Definition set_source_query_dq_status := set_dq_status source_query.
Definition set_row_dq_status := set_dq_status row.
Definition set_final_agg_dq_status := set_dq_status final_agg.
Definition set_final_query_dq_status := set_dq_status final_query.

(** ** Arguments of the decorator and the settings derived by [_except] *)

Record arguments := MkArguments {
  target_table : string;
  write_to_table : bool;
  write_to_temp_table : bool;
  spark_conf : option (gmap string pyvalue);
  target_table_view : option string
}.

Record settings := MkSettings {
  _row_dq : bool;
  _agg_dq : bool;
  _source_agg_dq : bool;
  _target_agg_dq : bool;
  _query_dq : bool;
  _source_query_dq : bool;
  _target_query_dq : bool;
  _target_table_view : string;
  _notification_on_start : bool;
  _notification_on_completion : bool;
  _notification_on_fail : bool;
  _notification_on_error_drop_exceeds_threshold_breach : bool;
  _error_drop_threshold : Z
}.

(** [d.get(k, False)] on the rules execution settings. *)
Definition get_flag (d : gmap string bool) (k : string) : bool :=
  default false (d !! k).

(** Truth value of a dictionary: empty dictionaries are false. *)
Definition dict_truthy {V} (d : gmap string V) : bool :=
  negb (bool_decide (d = ∅)).

Section NotificationSettings.
Context `{UserConfig}.

Definition _default_notification_dict : gmap string pyvalue :=
  <[se_notifications_on_error_drop_threshold := PyInt 100]>
  (<[se_notifications_on_error_drop_exceeds_threshold_breach := PyBool false]>
  (<[se_notifications_on_fail := PyBool true]>
  (<[se_notifications_on_completion := PyBool false]>
  (<[se_notifications_on_start := PyBool false]> ∅)))).

(** [{**_default_notification_dict, **spark_conf} if spark_conf else
    _default_notification_dict]: the entries of [spark_conf] win. *)
Definition _notification_dict (conf : option (gmap string pyvalue))
    : gmap string pyvalue :=
  match conf with
  | Some c => if dict_truthy c then c ∪ _default_notification_dict
              else _default_notification_dict
  | None => _default_notification_dict
  end.

(** [bool(d[k]) if isinstance(d[k], bool) else False]. Every key read is a
    key of the defaults, so the lookup cannot fail; a missing key is given
    the value [None] to keep the function total. *)
Definition notification_flag (d : gmap string pyvalue) (k : string) : bool :=
  let v := default PyNone (d !! k) in
  if isinstance_bool v then py_bool v else false.

(** [int(d[k]) if isinstance(d[k], int) else 100] *)
Definition notification_threshold (d : gmap string pyvalue) (k : string) : Z :=
  let v := default PyNone (d !! k) in
  if isinstance_int v then py_int v else 100%Z.

(** The local variables computed by [_except] before [wrapper] is built. *)
Definition _except (a : arguments) (rules_execution_settings : gmap string bool)
    : settings :=
  let d := _notification_dict (spark_conf a) in
  {| _row_dq := get_flag rules_execution_settings "row_dq";
     _agg_dq := get_flag rules_execution_settings "agg_dq";
     _source_agg_dq := get_flag rules_execution_settings "source_agg_dq";
     _target_agg_dq := get_flag rules_execution_settings "target_agg_dq";
     _query_dq := get_flag rules_execution_settings "query_dq";
     _source_query_dq := get_flag rules_execution_settings "source_query_dq";
     _target_query_dq := get_flag rules_execution_settings "target_query_dq";
     _target_table_view :=
       if opt_str_truthy (target_table_view a)
       then default "" (target_table_view a)
       else target_table a +:+ "_view";
     _notification_on_start :=
       notification_flag d se_notifications_on_start;
     _notification_on_completion :=
       notification_flag d se_notifications_on_completion;
     _notification_on_fail :=
       notification_flag d se_notifications_on_fail;
     _notification_on_error_drop_exceeds_threshold_breach :=
       notification_flag d
         se_notifications_on_error_drop_exceeds_threshold_breach;
     _error_drop_threshold :=
       notification_threshold d se_notifications_on_error_drop_threshold |}.

(** The context writes [_except] performs after computing the settings. *)
Definition _except_context (s : settings) (c : context) : context :=
  set_notification_on_fail (_notification_on_fail s)
    (set_notification_on_completion (_notification_on_completion s)
      (set_notification_on_start (_notification_on_start s) c)).
End NotificationSettings.

(** ** The collaborators of the wrapper

    The decorated function's dataframe, the stage evaluator returned by
    [SparkExpectationsRegulateFlow.execute_dq_process], the writer, the Spark
    session and the percentage property of the context live outside the
    sources at hand. They are an interface: every property below holds for
    all its implementations. The stage evaluator, the writer, the
    notification and the percentage may raise; the queries sent to the
    Spark session, [count()] on a dataframe, [createOrReplaceTempView] and
    [clearCache] are taken to succeed, and the collaborators are taken to
    leave alone the attributes of the context that [wrapper] writes. *)

(** What a stage evaluation returns: the dataframe, the aggregated results,
    the error count and the status. *)
Definition process_out (DataFrame : Type) : Type :=
  (option DataFrame * list (string * string) * Z * string)%type.

Class Collaborators (DataFrame : Type) := {
  (** [DataFrame.count()] *)
  df_count : DataFrame → Z;
  (** the dataframe of [spark.sql(query)] *)
  spark_sql : string → DataFrame;
  (** [self._writer.write_df_to_table(df, table, ...)] *)
  write_df_to_table : option DataFrame → string → context → result unit;
  (** [func_process(df, rule_type, <stage>_flag=True, ...)]: the stage, the
      dataframe, the [error_count] and [output_count] keyword arguments when
      they are passed, and the context the evaluator reads. *)
  func_process : stage → option DataFrame → option (Z * Z) → context →
                 result (process_out DataFrame);
  (** [self._context.get_output_percentage], a property derived from the
      input and output counts of the context (output_count / input_count *
      100); its rounding and what it does on an empty input are those of
      context.py *)
  output_percentage : Z → Z → result Q;
  (** [self._notification.notify_on_exceeds_of_error_threshold()], which
      reads the context *)
  notify_on_exceeds_of_error_threshold : context → result unit
}.

Definition get_output_percentage `{Collaborators DataFrame} (c : context)
    : result Q :=
  output_percentage (input_count c) (output_count c).

(** What the decorated function may return. *)
Inductive returned (DataFrame : Type) :=
  | RDataFrame (d : DataFrame)
  | RNone
  | RInt (n : Z)
  (** an object that is not a dataframe and has a [count()] method *)
  | RCountable (n : Z).
Arguments RDataFrame {DataFrame} d.
Arguments RNone {DataFrame}.
Arguments RInt {DataFrame} n.
Arguments RCountable {DataFrame} n.

(** The calls whose order the wrapper fixes. *)
Inductive event (DataFrame : Type) :=
  | SetStatus (s : stage) (v : string)
  | SetStartTime (s : stage) (t : nat)
  | SetEndTime (s : stage) (t : nat)
  | Process (s : stage) (input : option DataFrame) (counts : option (Z * Z))
            (out : result (process_out DataFrame))
  | CreateOrReplaceTempView (d : DataFrame) (name : string)
  | NotifyOnExceedsOfErrorThreshold (out : result unit)
  | SparkSql (query : string)
  | WriteDfToTable (d : option DataFrame) (table : string) (out : result unit)
  | ClearCache.
Arguments SetStatus {DataFrame} s v.
Arguments SetStartTime {DataFrame} s t.
Arguments SetEndTime {DataFrame} s t.
Arguments Process {DataFrame} s input counts out.
Arguments CreateOrReplaceTempView {DataFrame} d name.
Arguments NotifyOnExceedsOfErrorThreshold {DataFrame} out.
Arguments SparkSql {DataFrame} query.
Arguments WriteDfToTable {DataFrame} d table out.
Arguments ClearCache {DataFrame}.

(** ** The monad: state, exceptions and a trace *)

Record state := MkState { ctx : context; clock : nat }.

Record outcome (DataFrame A : Type) := MkOutcome {
  res : result A;
  final : state;
  trace : list (event DataFrame)
}.
Arguments MkOutcome {DataFrame A} res final trace.
Arguments res {DataFrame A} o.
Arguments final {DataFrame A} o.
Arguments trace {DataFrame A} o.

Definition M (DataFrame A : Type) : Type := state → outcome DataFrame A.

Section Monad.
Context {DataFrame : Type}.

Definition ret {A} (a : A) : M DataFrame A :=
  λ st, MkOutcome (Ok a) st [].

Definition raise {A} (e : exn) : M DataFrame A :=
  λ st, MkOutcome (Raised e) st [].

(** A raised exception skips the continuation; the state written so far
    and the calls made so far stay. *)
Definition bind {A B} (m : M DataFrame A) (f : A → M DataFrame B)
    : M DataFrame B :=
  λ st,
    let o := m st in
    match res o with
    | Ok a =>
        let o' := f a (final o) in
        MkOutcome (res o') (final o') (trace o ++ trace o')
    | Raised e => MkOutcome (Raised e) (final o) (trace o)
    end.

(** [try: m except Exception as e: h e] *)
Definition try_except {A} (m : M DataFrame A) (h : exn → M DataFrame A)
    : M DataFrame A :=
  λ st,
    let o := m st in
    match res o with
    | Ok a => o
    | Raised e =>
        let o' := h e (final o) in
        MkOutcome (res o') (final o') (trace o ++ trace o')
    end.

Definition lift {A} (r : result A) : M DataFrame A :=
  match r with Ok a => ret a | Raised e => raise e end.

Definition gets {A} (f : context → A) : M DataFrame A :=
  λ st, MkOutcome (Ok (f (ctx st))) st [].

Definition modify (f : context → context) : M DataFrame unit :=
  λ st, MkOutcome (Ok tt) (MkState (f (ctx st)) (clock st)) [].

Definition emit (e : event DataFrame) : M DataFrame unit :=
  λ st, MkOutcome (Ok tt) st [e].

(** [datetime.now()]: the clock advances at every reading. *)
Definition now : M DataFrame nat :=
  λ st, MkOutcome (Ok (clock st)) (MkState (ctx st) (S (clock st))) [].
End Monad.

#[global] Instance M_ret {DataFrame} : MRet (M DataFrame) := @ret DataFrame.
#[global] Instance M_bind {DataFrame} : MBind (M DataFrame) :=
  λ A B f m, bind m f.

(** ** The wrapper *)

Section Wrapper.
Context {DataFrame : Type} `{!Collaborators DataFrame}.

Local Abbreviation M := (M DataFrame).

(** The context setters the wrapper calls; status and time setters are
    recorded in the trace. *)
Definition set_status (s : stage) (v : string) : M unit :=
  modify (set_dq_status s v);; emit (SetStatus s v).

Definition set_start_time (s : stage) : M unit :=
  t ← now; modify (set_dq_start_time s (Some t));; emit (SetStartTime s t).

Definition set_end_time (s : stage) : M unit :=
  t ← now; modify (set_dq_end_time s (Some t));; emit (SetEndTime s t).

(** A call of the stage evaluator. *)
Definition call_func_process (s : stage) (d : option DataFrame)
    (counts : option (Z * Z)) : M (process_out DataFrame) :=
  c ← gets id;
  let out := func_process s d counts c in
  emit (Process s d counts out);; lift out.

(** A call of the writer. *)
Definition call_write_df_to_table (d : option DataFrame) (table : string)
    : M unit :=
  c ← gets id;
  let out := write_df_to_table d table c in
  emit (WriteDfToTable d table out);; lift out.

(** [_df.count()] on whatever the decorated function returned. *)
Definition py_count (v : returned DataFrame) : result Z :=
  match v with
  | RDataFrame d => Ok (df_count d)
  | RNone =>
      Raised (Exn AttributeError "'NoneType' object has no attribute 'count'")
  | RInt _ =>
      Raised (Exn AttributeError "'int' object has no attribute 'count'")
  | RCountable n => Ok n
  end.

(** The local variables of [wrapper] that the stages read and write. The
    dataframes [_source_dq_df], [_source_query_dq_df], [_final_dq_df],
    [_final_query_dq_df] and the result dictionaries are assigned and
    never read: they are left out. *)
Record locals := MkLocals {
  _df : DataFrame;
  _row_dq_df : option DataFrame;
  _error_count : Z;
  _output_count : Z
}.

Variable a : arguments.
Variable s : settings.

(** [if write_to_temp_table: ...] *)
Definition temp_table_block (table_name : string) (d : DataFrame)
    : M DataFrame :=
  if write_to_temp_table a then
    emit (SparkSql ("drop table if exists " +:+ table_name +:+ "_temp"));;
    call_write_df_to_table (Some d) (table_name +:+ "_temp");;
    emit (SparkSql ("select * from " +:+ table_name +:+ "_temp"));;
    mret (spark_sql ("select * from " +:+ table_name +:+ "_temp"))
  else mret d.

(** [if _agg_dq is True and _source_agg_dq is True: ...] *)
Definition source_agg_dq_block (l : locals) : M locals :=
  if _agg_dq s && _source_agg_dq s then
    set_status source_agg "Failed";;
    set_start_time source_agg;;
    '(_, _, _, status) ← call_func_process source_agg (Some (_df l)) None;
    set_status source_agg status;;
    set_end_time source_agg;;
    mret l
  else mret l.

(** [if _query_dq is True and _source_query_dq is True: ...] *)
Definition source_query_dq_block (l : locals) : M locals :=
  if _query_dq s && _source_query_dq s then
    set_status source_query "Failed";;
    set_start_time source_query;;
    '(_, _, _, status) ← call_func_process source_query (Some (_df l)) None;
    set_status source_query status;;
    set_end_time source_query;;
    mret l
  else mret l.

(** The threshold check that closes the row stage. *)
Definition error_threshold_check : M unit :=
  if _notification_on_error_drop_exceeds_threshold_breach s then
    c ← gets id;
    p ← lift (get_output_percentage c);
    if Qle_bool (inject_Z (_error_drop_threshold s)) (100 - p)
    then
      let out := notify_on_exceeds_of_error_threshold c in
      emit (NotifyOnExceedsOfErrorThreshold out);; lift out
    else mret tt
  else mret tt.

(** [if _row_dq is True: ...] *)
Definition row_dq_block (l : locals) : M locals :=
  if _row_dq s then
    set_status row "Failed";;
    set_start_time row;;
    '(row_dq_df, _, error_count, status) ←
      call_func_process row (Some (_df l)) None;
    modify (set_error_count error_count);;
    (if str_truthy (_target_table_view s) then
       match row_dq_df with
       | Some d => emit (CreateOrReplaceTempView d (_target_table_view s))
       | None => mret tt
       end
     else mret tt);;
    let output_count :=
      match row_dq_df with Some d => df_count d | None => 0%Z end in
    modify (set_output_count output_count);;
    set_status row status;;
    set_end_time row;;
    error_threshold_check;;
    mret (MkLocals (_df l) row_dq_df error_count output_count)
  else mret l.

(** [if _row_dq is True and _agg_dq is True and _target_agg_dq is True: ...] *)
Definition final_agg_dq_block (l : locals) : M locals :=
  if _row_dq s && _agg_dq s && _target_agg_dq s then
    set_status final_agg "Failed";;
    set_start_time final_agg;;
    '(_, _, _, status) ←
      call_func_process final_agg (_row_dq_df l)
        (Some (_error_count l, _output_count l));
    set_status final_agg status;;
    set_end_time final_agg;;
    mret l
  else mret l.

(** [if _row_dq is True and _query_dq is True and _target_query_dq is True: ...] *)
Definition final_query_dq_block (l : locals) : M locals :=
  if _row_dq s && _query_dq s && _target_query_dq s then
    set_status final_query "Failed";;
    set_start_time final_query;;
    match str_truthy (_target_table_view s), _row_dq_df l with
    | true, Some d => emit (CreateOrReplaceTempView d (_target_table_view s))
    | _, _ =>
        raise (Exn SparkExpectationsMiscException
                 "final table view name is not supplied to run query dq")
    end;;
    '(_, _, _, status) ←
      call_func_process final_query (_row_dq_df l)
        (Some (_error_count l, _output_count l));
    set_status final_query status;;
    set_end_time final_query;;
    mret l
  else mret l.

(** [if _row_dq and write_to_table: ...] *)
Definition write_block (table_name : string) (l : locals) : M unit :=
  if _row_dq s && write_to_table a then
    call_write_df_to_table (_row_dq_df l) table_name
  else mret tt.

(** The assignments that open the [try] block: the context is put back to
    its default values before any stage runs. *)
Definition reset_context (input_count : Z) : M unit :=
  modify (set_dq_run_status default_dq_run_status);;
  set_status source_agg default_dq_status;;
  set_status source_query default_dq_status;;
  set_status row default_dq_status;;
  set_status final_agg default_dq_status;;
  set_status final_query default_dq_status;;
  modify (set_input_count 0);;
  modify (set_error_count 0);;
  modify (set_output_count 0);;
  modify (set_dq_result source_agg None);;
  modify (set_dq_result final_agg None);;
  modify (set_dq_result source_query None);;
  modify (set_dq_result final_query None);;
  modify (set_dq_result row None);;
  modify (set_dq_start_time source_agg None);;
  modify (set_dq_start_time final_agg None);;
  modify (set_dq_start_time source_query None);;
  modify (set_dq_start_time final_query None);;
  modify (set_dq_start_time row None);;
  modify (set_dq_end_time source_agg None);;
  modify (set_dq_end_time final_agg None);;
  modify (set_dq_end_time source_query None);;
  modify (set_dq_end_time final_query None);;
  modify (set_dq_end_time row None);;
  modify (set_input_count input_count);;
  modify (set_error_drop_threshold (_error_drop_threshold s)).

(** The five stages and the final write, on a value that is a dataframe. *)
Definition dq_stages (table_name : string) (d : DataFrame)
    : M (option DataFrame) :=
  modify (set_table_name table_name);;
  d ← temp_table_block table_name d;
  l ← source_agg_dq_block (MkLocals d None 0 0);
  l ← source_query_dq_block l;
  l ← row_dq_block l;
  l ← final_agg_dq_block l;
  l ← final_query_dq_block l;
  write_block table_name l;;
  mret (_row_dq_df l).

(** The [try] block from the reset of the context on: the stages when the
    value is a dataframe, the dedicated exception otherwise. *)
Definition run_checks (table_name : string) (input_count : Z)
    (df : returned DataFrame) : M (option DataFrame) :=
  reset_context input_count;;
  row_dq_df ←
    match df with
    | RDataFrame d => dq_stages table_name d
    | _ =>
        raise (Exn SparkExpectationsDataframeNotReturnedException
                 ("error occurred while processing spark " +:+
                  "expectations due to given dataframe is not type of dataframe"))
    end;
  emit ClearCache;;
  mret row_dq_df.

(** The body of the [try] block; [func] is what calling the decorated
    function gave. *)
Definition wrapper_try (func : result (returned DataFrame))
    : M (option DataFrame) :=
  df ← lift func;
  table_name ← gets table_name;
  input_count ← lift (py_count df);
  run_checks table_name input_count df.

(** [wrapper]: every exception of the body is replaced by a
    [SparkExpectationsMiscException] that quotes it. *)
Definition wrapper (func : result (returned DataFrame))
    : M (option DataFrame) :=
  try_except (wrapper_try func)
    (λ e, raise (Exn SparkExpectationsMiscException
                   ("error occurred while processing spark expectations "
                    +:+ exn_str e))).
End Wrapper.

Arguments locals : clear implicits.

(** ** Reading a trace *)

Section Traces.
Context {DataFrame : Type} `{!Collaborators DataFrame}.

(** The stage evaluations of a trace, in order, each with the dataframe it
    received. *)
Definition evaluation (e : event DataFrame)
    : option (stage * option DataFrame) :=
  match e with Process stg i _ _ => Some (stg, i) | _ => None end.

Definition evaluations (t : list (event DataFrame))
    : list (stage * option DataFrame) :=
  omap evaluation t.

(** The stage an event belongs to: the writes of the stage's status and
    times, and its evaluation. *)
Definition event_stage (e : event DataFrame) : option stage :=
  match e with
  | SetStatus stg _ | SetStartTime stg _ | SetEndTime stg _
  | Process stg _ _ _ => Some stg
  | _ => None
  end.

Definition stage_events (stg : stage) (t : list (event DataFrame))
    : list (event DataFrame) :=
  filter (λ e, event_stage e = Some stg) t.

Definition is_notification (e : event DataFrame) : bool :=
  match e with NotifyOnExceedsOfErrorThreshold _ => true | _ => false end.

(** A trace with its threshold notifications taken out. *)
Definition without_notifications (t : list (event DataFrame))
    : list (event DataFrame) :=
  filter (λ e, is_notification e = false) t.

(** The flag conjunction that guards each stage. *)
Definition stage_enabled (s : settings) (stg : stage) : bool :=
  match stg with
  | source_agg => _agg_dq s && _source_agg_dq s
  | source_query => _query_dq s && _source_query_dq s
  | row => _row_dq s
  | final_agg => _row_dq s && _agg_dq s && _target_agg_dq s
  | final_query => _row_dq s && _query_dq s && _target_query_dq s
  end.

(** The evaluations of a run that completes: the enabled stages in their
    fixed order, the first three on the raw dataframe and the last two on
    the dataframe of the row stage. *)
Definition expected_evaluations (s : settings) (raw : DataFrame)
    (row_df : option DataFrame) : list (stage * option DataFrame) :=
  (if stage_enabled s source_agg then [(source_agg, Some raw)] else []) ++
  (if stage_enabled s source_query then [(source_query, Some raw)] else []) ++
  (if stage_enabled s row then [(row, Some raw)] else []) ++
  (if stage_enabled s final_agg then [(final_agg, row_df)] else []) ++
  (if stage_enabled s final_query then [(final_query, row_df)] else []).

(** The dataframe the stages receive as raw dataset: the one returned by
    the decorated function, read back from the temporary table when
    [write_to_temp_table] is set. *)
Definition raw_dataset (a : arguments) (table_name : string) (d : DataFrame)
    : DataFrame :=
  if write_to_temp_table a
  then spark_sql ("select * from " +:+ table_name +:+ "_temp")
  else d.

(** What the context says of one stage. *)
Definition stage_view (stg : stage) (c : context)
    : string * option nat * option nat :=
  (dq_status c stg, dq_start_time c stg, dq_end_time c stg).

(** [_row_dq_df.count() if _row_dq_df else 0] *)
Definition row_output_count (row_df : option DataFrame) : Z :=
  match row_df with Some d => df_count d | None => 0%Z end.

(** The dataframe a completed evaluation of the row stage produced. *)
Definition row_result (e : event DataFrame) : option (option DataFrame) :=
  match e with
  | Process row _ _ (Ok (d, _, _, _)) => Some d
  | _ => None
  end.

(** The row-filtered dataset of a trace: what the row stage produced, if
    it ran to its end. *)
Definition row_output (t : list (event DataFrame)) : option DataFrame :=
  match omap row_result t with
  | d :: _ => d
  | [] => None
  end.

(** The evaluation one stage contributes: one when its flags hold. *)
Definition block_evals (s : settings) (stg : stage) (i : option DataFrame)
    : list (stage * option DataFrame) :=
  if stage_enabled s stg then [(stg, i)] else [].

(** What holds of the evaluations of a run at its end: they are the
    first ones of the expected list, and all of it when the run returns;
    the value returned is the dataframe of the row stage. *)
Definition evaluations_post (s : settings) (raw : DataFrame)
    : result (option DataFrame) → state → list (event DataFrame) → Prop :=
  λ r _ t',
    evaluations t' `prefix_of` expected_evaluations s raw (row_output t') ∧
    ∀ v, r = Ok v →
         row_output t' = v ∧ evaluations t' = expected_evaluations s raw v.
End Traces.

(** The settings with the notification on a threshold breach switched off. *)
Definition without_breach_notification (s : settings) : settings :=
  MkSettings (_row_dq s) (_agg_dq s) (_source_agg_dq s) (_target_agg_dq s)
    (_query_dq s) (_source_query_dq s) (_target_query_dq s)
    (_target_table_view s) (_notification_on_start s)
    (_notification_on_completion s) (_notification_on_fail s) false
    (_error_drop_threshold s).

Definition processing_error_prefix : string :=
  "error occurred while processing spark expectations ".

(** ** The rules that exceed their threshold

    [SparkExpectationsWriter.generate_rules_exceeds_threshold] is exercised
    by tests/sinks/utils/test_writer.py; writer.py itself is not among the
    sources. *)

Module Writer.

(** A row rule as the tests pass it in [dq_rules["row_dq_rules"]]. *)
Record row_rule := MkRowRule {
  rule : string;
  enable_error_drop_alert : bool;
  action_if_failed : string;
  description : string;
  rule_type : string;
  error_drop_threshold : string
}.

(** An entry of [summarised_row_dq_res]: a dictionary that may lack the
    keys [rule] and [failed_row_count]. *)
Record summary_entry := MkSummaryEntry {
  summary_rule : option string;
  failed_row_count : option Z
}.

(** An entry of [rules_exceeds_threshold]. *)
Record threshold_entry := MkThresholdEntry {
  out_rule_name : string;
  out_action_if_failed : string;
  out_description : string;
  out_rule_type : string;
  out_error_drop_threshold : string;
  out_error_drop_percentage : string
}.

(** Modelled from the spec: the failed row counts of the summary, by rule;
    an entry without its rule or its count is an error. *)
Fixpoint failed_counts (summary : list summary_entry)
    : result (gmap string Z) :=
  match summary with
  | [] => Ok ∅
  | e :: rest =>
      match summary_rule e, failed_row_count e with
      | Some r, Some n =>
          match failed_counts rest with
          | Ok m => Ok (<[r := n]> m)
          | Raised x => Raised x
          end
      | None, _ => Raised (Exn KeyError "'rule'")
      | _, None => Raised (Exn KeyError "'failed_row_count'")
      end
  end.

(** Modelled from the spec: [failed_count / input_count * 100] to one
    decimal place, as a number of tenths (the nearest one, halves up). *)
Definition percentage_tenths (failed_count input_count : Z) : Z :=
  ((2000 * failed_count + input_count) / (2 * input_count))%Z.

(** A number of tenths written with one decimal place. *)
Definition render_tenths (t : Z) : string :=
  pretty (t / 10)%Z +:+ "." +:+ pretty (t mod 10)%Z.

(** Modelled from the spec: the percentage of one rule; an [input_count]
    of zero is a hard error. *)
Definition error_drop_percentage (failed_count input_count : Z)
    : result string :=
  if (input_count =? 0)%Z
  then Raised (Exn ZeroDivisionError "division by zero")
  else Ok (render_tenths (percentage_tenths failed_count input_count)).

(** Modelled from the spec: every rule with [enable_error_drop_alert] whose
    percentage is present is included, whatever its own
    [error_drop_threshold]. *)
Fixpoint threshold_entries (input_count : Z) (counts : gmap string Z)
    (rules : list row_rule) : result (list threshold_entry) :=
  match rules with
  | [] => Ok []
  | r :: rest =>
      if enable_error_drop_alert r then
        match counts !! rule r with
        | Some n =>
            match error_drop_percentage n input_count with
            | Ok p =>
                match threshold_entries input_count counts rest with
                | Ok out =>
                    Ok (MkThresholdEntry (rule r) (action_if_failed r)
                          (description r) (rule_type r)
                          (error_drop_threshold r) p :: out)
                | Raised x => Raised x
                end
            | Raised x => Raised x
            end
        | None => threshold_entries input_count counts rest
        end
      else threshold_entries input_count counts rest
  end.

Definition threshold_list_error (cause : exn) : exn :=
  Exn SparkExpectationsMiscException
    ("An error occurred while creating error threshold list : "
     +:+ exn_str cause).

(** Modelled from the spec: [generate_rules_exceeds_threshold(rules)] for
    a context with the given [input_count] and [summarised_row_dq_res];
    the result is what [get_rules_exceeds_threshold] gives afterwards. With
    no summary at all nothing is computed (the last case of
    [test_generate_rules_exceeds_threshold]); every error is raised as a
    [SparkExpectationsMiscException]
    ([test_generate_rules_exceeds_threshold_exception]). *)
Definition generate_rules_exceeds_threshold (input_count : Z)
    (summarised_row_dq_res : option (list summary_entry))
    (rules : option (list row_rule))
    : result (option (list threshold_entry)) :=
  match summarised_row_dq_res with
  | None => Ok None
  | Some summary =>
      match failed_counts summary with
      | Raised x => Raised (threshold_list_error x)
      | Ok counts =>
          match rules with
          | None =>
              Raised (threshold_list_error
                        (Exn TypeError
                           "'NoneType' object is not subscriptable"))
          | Some rs =>
              match threshold_entries input_count counts rs with
              | Ok out => Ok (Some out)
              | Raised x => Raised (threshold_list_error x)
              end
          end
      end
  end.

(** The rules, summaries and expected results of
    [test_generate_rules_exceeds_threshold]. *)
Definition test_rule (name action desc : string) : row_rule :=
  MkRowRule name true action desc "row_dq" "10".

Definition test_entry (name action desc pct : string) : threshold_entry :=
  MkThresholdEntry name action desc "row_dq" "10" pct.

Definition test_summary (name : string) (n : Z) : summary_entry :=
  MkSummaryEntry (Some name) (Some n).

(** Modelled from the spec: the rules that get an entry, those whose alert
    is enabled and for which the summary has an entry. *)
Definition alerted (summary : list summary_entry) (r : row_rule) : Prop :=
  enable_error_drop_alert r = true ∧
  Some (rule r) ∈ summary_rule <$> summary.

#[global] Instance alerted_dec summary r : Decision (alerted summary r) :=
  and_dec _ _.

(** Modelled from the spec: the failed row count the summary gives for a
    rule, the one of its first entry for it. *)
Definition summarised (summary : list summary_entry) (name : string) (n : Z)
    : Prop :=
  ∃ pre post,
    summary = pre ++ MkSummaryEntry (Some name) (Some n) :: post ∧
    Some name ∉ summary_rule <$> pre.

(** Modelled from the spec: [t] tenths is [failed_count / input_count * 100]
    to one decimal place, that is, the nearest number of tenths. *)
Definition one_decimal_place (failed_count input_count t : Z) : Prop :=
  (2 * Z.abs (t * input_count - 1000 * failed_count) ≤ Z.abs input_count)%Z.

(** Modelled from the spec: [e] is the entry of the rule [r]: the fields of
    the rule, and its percentage written with one decimal place. *)
Definition is_entry_of (input_count : Z) (summary : list summary_entry)
    (r : row_rule) (e : threshold_entry) : Prop :=
  out_rule_name e = rule r ∧
  out_action_if_failed e = action_if_failed r ∧
  out_description e = description r ∧
  out_rule_type e = rule_type r ∧
  out_error_drop_threshold e = error_drop_threshold r ∧
  ∃ n t, summarised summary (rule r) n ∧
         one_decimal_place n input_count t ∧
         out_error_drop_percentage e
         = pretty (t / 10)%Z +:+ "." +:+ pretty (t mod 10)%Z.

(** A summary entry with its rule and its count. *)
Definition complete (e : summary_entry) : Prop :=
  is_Some (summary_rule e) ∧ is_Some (failed_row_count e).

(** The message of the error the computation raises. *)
Definition threshold_list_message (cause : string) : string :=
  "An error occurred while creating error threshold list : " +:+ cause.
End Writer.

(** The value [spark_conf] supplies for a key, if any. *)
Definition supplied (conf : option (gmap string pyvalue)) (k : string)
    : option pyvalue :=
  match conf with Some c => c !! k | None => None end.

(** What a notification flag becomes: a supplied [bool] is kept, any other
    supplied value gives [False], no supplied value gives the default. *)
Definition effective_flag (v : option pyvalue) (dflt : bool) : bool :=
  match v with
  | Some (PyBool b) => b
  | Some _ => false
  | None => dflt
  end.

(** What the threshold becomes: a supplied [int] ([bool] included, as 0 or 1)
    is kept, any other supplied value gives 100, as does no value. *)
Definition effective_threshold (v : option pyvalue) : Z :=
  match v with
  | Some (PyInt n) => n
  | Some (PyBool b) => if b then 1 else 0
  | Some _ => 100
  | None => 100
  end.

(** ** Judgements on computations

    The properties of the wrapper are read off its text: each judgement
    below holds of the primitive operations and is kept by sequencing. *)

Section Judgements.
Context {DataFrame : Type}.

(** The exception a collaborator answered a call with. *)
Definition event_error (ev : event DataFrame) : option exn :=
  match ev with
  | Process _ _ _ (Raised e) => Some e
  | WriteDfToTable _ _ (Raised e) => Some e
  | NotifyOnExceedsOfErrorThreshold (Raised e) => Some e
  | _ => None
  end.

(** A collaborator's exception ends the computation at that call and is
    the exception of the computation. *)
Definition faithful {A} (m : M DataFrame A) : Prop :=
  ∀ st ev e,
    event_error ev = Some e →
    ev ∈ trace (m st) →
    res (m st) = Raised e ∧ last (trace (m st)) = Some ev.

(** All the calls of the computation satisfy [P]. *)
Definition quiet (P : event DataFrame → Prop) {A} (m : M DataFrame A)
    : Prop :=
  ∀ st, Forall P (trace (m st)).

(** The computation keeps the invariant [I] of the context, whether it
    returns or raises. *)
Definition keeps (I : context → Prop) {A} (m : M DataFrame A) : Prop :=
  ∀ st, I (ctx st) → I (ctx (final (m st))).

(** What the computation returns, when it returns, satisfies [Q]. *)
Definition returns {A} (Q : A → Prop) (m : M DataFrame A) : Prop :=
  ∀ st x, res (m st) = Ok x → Q x.

(** The computation does not raise. *)
Definition total {A} (m : M DataFrame A) : Prop :=
  ∀ st, ∃ x, res (m st) = Ok x.

(** The computation raises nothing of its own: an exception it raises is
    the answer of a collaborator to one of its calls. *)
Definition blames {A} (m : M DataFrame A) : Prop :=
  ∀ st e, res (m st) = Raised e →
          ∃ ev, ev ∈ trace (m st) ∧ event_error ev = Some e.

(** [wp m Φ st t]: run from the state [st] after the calls [t], the
    computation ends with a result, a state and calls that satisfy [Φ]. *)
Definition wp {A} (m : M DataFrame A)
    (Φ : result A → state → list (event DataFrame) → Prop)
    (st : state) (t : list (event DataFrame)) : Prop :=
  Φ (res (m st)) (final (m st)) (t ++ trace (m st)).
End Judgements.

(** ** Predicates on events and contexts *)

Section EventPredicates.
Context {DataFrame : Type}.

(** The only stages evaluated, started or ended are the source stages, and
    no other stage is given a status but [Skipped]. *)
Definition source_only (ev : event DataFrame) : Prop :=
  match ev with
  | Process stg _ _ _ | SetStartTime stg _ | SetEndTime stg _ =>
      stg = source_agg ∨ stg = source_query
  | SetStatus stg v =>
      stg = source_agg ∨ stg = source_query ∨ v = "Skipped"
  | _ => True
  end.

(** The event is not a stage evaluation. *)
Definition no_evaluation (ev : event DataFrame) : Prop :=
  evaluation ev = None.

(** The only table written is the temporary one. *)
Definition temp_only (table : string) (ev : event DataFrame) : Prop :=
  match ev with
  | WriteDfToTable _ t _ => t = table +:+ "_temp"
  | _ => True
  end.
End EventPredicates.

(** The configuration error of the final query stage. *)
Definition view_error : exn :=
  Exn SparkExpectationsMiscException
    "final table view name is not supplied to run query dq".

(** The exception [wrapper] raises in place of [e]. *)
Definition processing_error (e : exn) : exn :=
  Exn SparkExpectationsMiscException (processing_error_prefix +:+ exn_str e).

(** The exception a result carries, if any. *)
Definition raised_exn {A} (r : result A) : option exn :=
  match r with Ok _ => None | Raised e => Some e end.

(** ** The life of a stage

    What a run leaves of one stage, after the reset of the context: its
    events, in order, and what the context says of it at the end. The first
    index is the exception the run ended with, if any. *)
Inductive stage_protocol {DataFrame : Type} (stg : stage)
    : option exn → list (event DataFrame) →
      string * option nat * option nat → Prop :=
  (** the stage did not run *)
  | stage_not_run r : stage_protocol stg r [] ("Skipped", None, None)
  (** the stage ran to its end *)
  | stage_completed r t0 t1 i c d rs n status :
      t0 < t1 →
      stage_protocol stg r
        [SetStatus stg "Failed"; SetStartTime stg t0;
         Process stg i c (Ok (d, rs, n, status));
         SetStatus stg status; SetEndTime stg t1]
        (status, Some t0, Some t1)
  (** the evaluation raised: the run ends with its exception *)
  | stage_evaluation_raised t0 i c e :
      stage_protocol stg (Some e)
        [SetStatus stg "Failed"; SetStartTime stg t0;
         Process stg i c (Raised e)]
        ("Failed", Some t0, None)
  (** the final query stage found no view to run on *)
  | stage_not_evaluated t0 :
      stg = final_query →
      stage_protocol stg (Some view_error)
        [SetStatus stg "Failed"; SetStartTime stg t0]
        ("Failed", Some t0, None).

Section StageJudgements.
Context {DataFrame : Type} `{!Collaborators DataFrame}.

(** The computation leaves the stage alone: none of its events, and its
    entries of the context unchanged. *)
Definition frame (stg : stage) {A} (m : M DataFrame A) : Prop :=
  ∀ st, stage_events stg (trace (m st)) = [] ∧
        stage_view stg (ctx (final (m st))) = stage_view stg (ctx st).

(** From a context in which the stage is [Skipped], the computation runs
    the stage as [stage_protocol] says, or not at all. *)
Definition protocol (stg : stage) {A} (m : M DataFrame A) : Prop :=
  ∀ st, stage_view stg (ctx st) = ("Skipped", None, None) →
        stage_protocol stg (raised_exn (res (m st)))
          (stage_events stg (trace (m st)))
          (stage_view stg (ctx (final (m st)))).

(** What holds of a stage at the end of a run: nothing happened to it (the
    run ended before the reset of the context), or it was reset to
    [Skipped] and then followed the protocol. *)
Definition stage_post (stg : stage)
    : result (option DataFrame) → state → list (event DataFrame) → Prop :=
  λ r st' t',
    stage_events stg t' = [] ∨
    ∃ evs, stage_events stg t' = SetStatus stg "Skipped" :: evs ∧
           stage_protocol stg (raised_exn r) evs (stage_view stg (ctx st')).
End StageJudgements.

(** ** The threshold check *)

Section ThresholdJudgements.
Context {DataFrame : Type} `{!Collaborators DataFrame}.

(** The end of the row stage and the notification of a breach. *)
Definition breach_event (ev : event DataFrame) : bool :=
  match ev with
  | SetEndTime row _ | NotifyOnExceedsOfErrorThreshold _ => true
  | _ => false
  end.

Definition breach_events (t : list (event DataFrame))
    : list (event DataFrame) :=
  filter (λ ev, breach_event ev = true) t.

Definition no_breach_event (ev : event DataFrame) : Prop :=
  breach_event ev = false.

(** The condition of the threshold check, read in a context:
    [_notification_on_error_drop_exceeds_threshold_breach is True and
    (100 - get_output_percentage) >= _error_drop_threshold]. *)
Definition breach_check (s : settings) (c : context) : bool :=
  _notification_on_error_drop_exceeds_threshold_breach s &&
  match get_output_percentage c with
  | Ok p => Qle_bool (inject_Z (_error_drop_threshold s)) (100 - p)
  | Raised _ => false
  end.

(** The counts [get_output_percentage] is computed from. *)
Definition counts (c : context) : Z * Z := (input_count c, output_count c).

(** The end of the row stage at [t1], followed by one notification when
    [b] holds and by none otherwise. *)
Definition breach_shape (b : bool) (t1 : nat) (t : list (event DataFrame))
    : Prop :=
  if b
  then ∃ out, t = [SetEndTime row t1; NotifyOnExceedsOfErrorThreshold out]
  else t = [SetEndTime row t1].

(** What holds of the threshold check at the end of a run: the row stage
    did not end, or it ended and was followed by a notification exactly
    when the check holds. *)
Definition threshold_post (s : settings) {A}
    : result A → state → list (event DataFrame) → Prop :=
  λ _ st t,
    breach_events t = [] ∨
    ∃ t1, breach_shape (breach_check s (ctx st)) t1 (breach_events t).

(** What follows the row stage in [dq_stages]. *)
Definition after_row (a : arguments) (s : settings) (tn : string)
    (l : locals DataFrame) : M DataFrame (option DataFrame) :=
  l ← final_agg_dq_block s l;
  l ← final_query_dq_block s l;
  write_block a s tn l;;
  mret (_row_dq_df l).

Definition not_notification (ev : event DataFrame) : Prop :=
  is_notification ev = false.

(** Two runs agree up to the notifications of the first. *)
Definition agree {A} (o o' : outcome DataFrame A) : Prop :=
  res o = res o' ∧ final o = final o' ∧
  without_notifications (trace o) = trace o'.

(** [m'] does what [m] does, notifications apart, in every run of [m] in
    which a notification was sent and returned. *)
Definition sim {A} (m m' : M DataFrame A) : Prop :=
  ∀ st, agree (m st) (m' st) ∨
        (is_ok (res (m st)) = false ∧
         ∀ u, NotifyOnExceedsOfErrorThreshold (Ok u) ∉ trace (m st)).
End ThresholdJudgements.

(** [isinstance(_df, DataFrame)] *)
Definition is_dataframe {DataFrame} (v : returned DataFrame) : bool :=
  match v with RDataFrame _ => true | _ => false end.

(** The exception of the [else] branch of [isinstance(_df, DataFrame)]. *)
Definition not_returned_error : exn :=
  Exn SparkExpectationsDataframeNotReturnedException
    ("error occurred while processing spark " +:+
     "expectations due to given dataframe is not type of dataframe").

(** The final query stage is evaluated only on a dataframe, under a view
    name. *)
Definition final_query_guarded {DataFrame} (s : settings)
    (ev : event DataFrame) : Prop :=
  match ev with
  | Process final_query i _ _ =>
      str_truthy (_target_table_view s) = true ∧ is_Some i
  | _ => True
  end.

(** ** What makes a run raise *)

Section RaiseCause.
Context {DataFrame : Type} `{!Collaborators DataFrame}.

(** Why the stages of a run raised [e], given the context [c] and the trace
    [t] the run ended with: the final query stage had been started and found
    no view to run on; or a collaborator answered a call with [e]; or,
    breach notifications being enabled, the output percentage could not be
    computed. *)
Definition raise_cause (s : settings) (e : exn) (c : context)
    (t : list (event DataFrame)) : Prop :=
  (e = view_error ∧ ∃ t0, last t = Some (SetStartTime final_query t0)) ∨
  (∃ ev, ev ∈ t ∧ event_error ev = Some e) ∨
  (_notification_on_error_drop_exceeds_threshold_breach s = true ∧
   get_output_percentage c = Raised e).

(** Every exception has its cause. *)
Definition explained (s : settings) {A}
    : result A → state → list (event DataFrame) → Prop :=
  λ r st t, ∀ e, raised_exn r = Some e → raise_cause s e (ctx st) t.
End RaiseCause.

(** Both final stages report [Skipped]. *)
Definition final_skipped (c : context) : Prop :=
  get_final_agg_dq_status c = "Skipped" ∧
  get_final_query_dq_status c = "Skipped".

(** ** A sample of collaborators

    Dataframes are lists of integers. The row stage keeps the non-negative
    ones, or produces no dataframe at all; the other stages produce
    none. *)
Definition sample_process (row_df : bool) (stg : stage) (d : option (list Z))
    (counts : option (Z * Z)) (c : context)
    : result (process_out (list Z)) :=
  match stg with
  | row =>
      let kept := filter (λ x, (0 ≤ x)%Z) (default [] d) in
      Ok (if row_df then Some kept else None, [],
          (Z.of_nat (length (default [] d)) - Z.of_nat (length kept))%Z,
          "Passed")
  | _ => Ok (None, [], 0%Z, "Passed")
  end.

Definition sample_percentage (i o : Z) : result Q :=
  if (i =? 0)%Z then Ok 0%Q else Ok (o * 100 # Z.to_pos i).

Definition sample_collaborators (row_df : bool) : Collaborators (list Z) :=
  {| df_count := λ d, Z.of_nat (length d);
     spark_sql := λ _, [];
     write_df_to_table := λ _ _ _, Ok tt;
     func_process := sample_process row_df;
     output_percentage := sample_percentage;
     notify_on_exceeds_of_error_threshold := λ _, Ok tt |}.

Definition sample_state : state :=
  MkState
    (MkContext "" (λ _, "") (λ _, None) (λ _, None) (λ _, None) 0 0 0 0
       "orders" false false false)
    0.

Definition sample_arguments : arguments :=
  MkArguments "orders" true false None None.

Definition sample_settings (row_dq : bool) : settings :=
  MkSettings row_dq true true true true true true "orders_view"
    false false true true 10.

(** A run of the wrapper on the sample: [row_dq] is the flag of the row
    stage, [row_df] tells whether the row stage produces a dataframe. *)
Definition sample_run (row_dq row_df : bool)
    (func : result (returned (list Z)))
    : outcome (list Z) (option (list Z)) :=
  @wrapper (list Z) (sample_collaborators row_df) sample_arguments
    (sample_settings row_dq) func sample_state.

(** The state an earlier run that passed leaves behind: every stage reports
    [Passed]. *)
Definition stale_state : state :=
  MkState
    (MkContext "Passed" (λ _, "Passed") (λ _, Some 1%nat) (λ _, Some 2%nat)
       (λ _, None) 3 0 3 0 "orders" false false false)
    3.

(** Collaborators whose breach notification cannot be delivered. *)
Definition failing_notifier_collaborators : Collaborators (list Z) :=
  {| df_count := λ d, Z.of_nat (length d);
     spark_sql := λ _, [];
     write_df_to_table := λ _ _ _, Ok tt;
     func_process := sample_process true;
     output_percentage := sample_percentage;
     notify_on_exceeds_of_error_threshold :=
       λ _, Raised (Exn OtherException "notification failed") |}.

(** Collaborators whose row stage produces no dataframe and whose final
    aggregation stage cannot be evaluated. *)
Definition failing_final_agg_collaborators : Collaborators (list Z) :=
  {| df_count := λ d, Z.of_nat (length d);
     spark_sql := λ _, [];
     write_df_to_table := λ _ _ _, Ok tt;
     func_process := λ stg d counts c,
       match stg with
       | final_agg => Raised (Exn OtherException "aggregation failed")
       | _ => sample_process false stg d counts c
       end;
     output_percentage := sample_percentage;
     notify_on_exceeds_of_error_threshold := λ _, Ok tt |}.

(** ** Further observations of a run *)

(** The keys of the rules execution settings a stage is guarded by. *)
Definition stage_keys (stg : stage) : list string :=
  match stg with
  | source_agg => ["agg_dq"; "source_agg_dq"]
  | source_query => ["query_dq"; "source_query_dq"]
  | row => ["row_dq"]
  | final_agg => ["row_dq"; "agg_dq"; "target_agg_dq"]
  | final_query => ["row_dq"; "query_dq"; "target_query_dq"]
  end.

(** What a run is to leave alone: the table name and the notification
    flags [_except] wrote. *)
Definition untouched (tn : string) (b1 b2 b3 : bool) (c : context) : Prop :=
  table_name c = tn ∧ notification_on_start c = b1 ∧
  notification_on_completion c = b2 ∧ notification_on_fail c = b3.

(** The input count and the threshold the reset of the context records. *)
Definition recorded (n thr : Z) (c : context) : Prop :=
  input_count c = n ∧ error_drop_threshold c = thr.

Definition not_clear_cache {DataFrame} (ev : event DataFrame) : Prop :=
  ev ≠ ClearCache.

Section Ledger.
Context {DataFrame : Type} `{!Collaborators DataFrame}.

(** The error count a completed evaluation of the row stage returned. *)
Definition row_errors (e : event DataFrame) : option Z :=
  match e with
  | Process row _ _ (Ok (_, _, n, _)) => Some n
  | _ => None
  end.

(** [_error_count] as a trace shows it: what the row stage returned, or
    the initial 0. *)
Definition row_error_count (t : list (event DataFrame)) : Z :=
  match omap row_errors t with
  | n :: _ => n
  | [] => 0%Z
  end.

(** The writes of a trace to the table [tn]: the dataframe written and the
    writer's answer. *)
Definition final_write (tn : string) (e : event DataFrame)
    : option (option DataFrame * result unit) :=
  match e with
  | WriteDfToTable d t out =>
      if bool_decide (t = tn) then Some (d, out) else None
  | _ => None
  end.

Definition final_writes (tn : string) (t : list (event DataFrame))
    : list (option DataFrame * result unit) :=
  omap (final_write tn) t.

(** The calls made before the row stage: evaluations of the source stages
    without counts, no view, no write to the table [tn]. *)
Definition early (tn : string) (ev : event DataFrame) : Prop :=
  match ev with
  | Process stg _ c _ => (stg = source_agg ∨ stg = source_query) ∧ c = None
  | CreateOrReplaceTempView _ _ => False
  | WriteDfToTable _ t _ => t ≠ tn
  | _ => True
  end.

(** What every call of a run satisfies, given the dataframe [row_df] of the
    row stage, its error count [ec] and its output count [oc]: the final
    stages are handed the two counts and the other stages none; a view is
    registered under the configured name, which is not empty, over the
    dataframe of the row stage; the table [tn] is written with that
    dataframe, when [row_dq] and [write_to_table] are set. *)
Definition audited (a : arguments) (s : settings) (tn : string)
    (row_df : option DataFrame) (ec oc : Z) (ev : event DataFrame) : Prop :=
  match ev with
  | Process stg _ c _ =>
      c = match stg with
          | final_agg | final_query => Some (ec, oc)
          | _ => None
          end
  | CreateOrReplaceTempView d name =>
      name = _target_table_view s ∧ str_truthy name = true ∧ row_df = Some d
  | WriteDfToTable d t _ =>
      t = tn → d = row_df ∧ _row_dq s = true ∧ write_to_table a = true
  | _ => True
  end.

(** The calls made after the row stage: audited, and neither an evaluation
    of the row stage nor a write to the table [tn]. *)
Definition late (a : arguments) (s : settings) (tn : string)
    (row_df : option DataFrame) (ec oc : Z) (ev : event DataFrame) : Prop :=
  audited a s tn row_df ec oc ev ∧
  row_result ev = None ∧ row_errors ev = None ∧ final_write tn ev = None.

(** The audit of a whole trace, against what the trace itself says of the
    row stage. *)
Definition trace_audit (a : arguments) (s : settings) (tn : string)
    (t : list (event DataFrame)) : Prop :=
  Forall (audited a s tn (row_output t) (row_error_count t)
            (row_output_count (row_output t))) t ∧
  (str_truthy (_target_table_view s) = true →
   ∀ d, row_output t = Some d →
        CreateOrReplaceTempView d (_target_table_view s) ∈ t).

(** The counts of the context are those of the row stage. *)
Definition context_audit (c : context) (t : list (event DataFrame)) : Prop :=
  error_count c = row_error_count t ∧
  output_count c = row_output_count (row_output t).

(** The table [tn] is written at most once, with the dataframe of the row
    stage, and only when [row_dq] and [write_to_table] are set. *)
Definition writes_audit (a : arguments) (s : settings) (tn : string)
    (t : list (event DataFrame)) : Prop :=
  final_writes tn t = [] ∨
  ∃ out, final_writes tn t = [(row_output t, out)] ∧
         _row_dq s = true ∧ write_to_table a = true.

(** The three audits together. *)
Definition run_audit (a : arguments) (s : settings) (tn : string)
    (c : context) (t : list (event DataFrame)) : Prop :=
  trace_audit a s tn t ∧ context_audit c t ∧ writes_audit a s tn t.

(** What holds at the end of a run: the audits, and a run that returns
    returns the dataframe of the row stage, having written it to the table
    [tn] when [row_dq] and [write_to_table] are set. *)
Definition ledger_post (a : arguments) (s : settings) (tn : string)
    : result (option DataFrame) → state → list (event DataFrame) → Prop :=
  λ r st' t',
    run_audit a s tn (ctx st') t' ∧
    ∀ v, r = Ok v →
         v = row_output t' ∧
         final_writes tn t' =
           if _row_dq s && write_to_table a then [(v, Ok tt)] else [].

(** What holds at the end of the row stage: the audits, no write to the
    table [tn] yet, and the local variables follow the trace. *)
Definition row_post (a : arguments) (s : settings) (tn : string)
    : result (locals DataFrame) → state → list (event DataFrame) → Prop :=
  λ r st' t',
    run_audit a s tn (ctx st') t' ∧
    final_writes tn t' = [] ∧
    ∀ l, r = Ok l →
         _row_dq_df l = row_output t' ∧
         _error_count l = row_error_count t' ∧
         _output_count l = row_output_count (row_output t').

(** The counts of the context are zero. *)
Definition no_counts (c : context) : Prop :=
  error_count c = 0%Z ∧ output_count c = 0%Z.

(** The counts of the context are the given ones. *)
Definition has_counts (ec oc : Z) (c : context) : Prop :=
  error_count c = ec ∧ output_count c = oc.
End Ledger.

(** ** The temporary table *)

Section TempTable.
Context {DataFrame : Type} `{!Collaborators DataFrame}.

(** The calls that concern the temporary table of [tn]: the queries sent
    to the Spark session and the writes to [<tn>_temp]. *)
Definition temp_event (tn : string) (ev : event DataFrame) : bool :=
  match ev with
  | SparkSql _ => true
  | WriteDfToTable _ t _ => bool_decide (t = tn +:+ "_temp")
  | _ => false
  end.

Definition temp_events (tn : string) (t : list (event DataFrame))
    : list (event DataFrame) :=
  filter (λ ev, temp_event tn ev = true) t.

Definition not_temp_event (tn : string) (ev : event DataFrame) : Prop :=
  temp_event tn ev = false.

(** The round trip of the dataframe [d] through the temporary table, [out]
    being the writer's answer: the table is dropped, written and, when the
    write went through, read back. *)
Definition temp_round_trip (tn : string) (d : DataFrame) (out : result unit)
    : list (event DataFrame) :=
  [SparkSql ("drop table if exists " +:+ tn +:+ "_temp");
   WriteDfToTable (Some d) (tn +:+ "_temp") out] ++
  match out with
  | Ok _ => [SparkSql ("select * from " +:+ tn +:+ "_temp")]
  | Raised _ => []
  end.

(** What holds of the temporary table at the end of a run on [d] that
    raised [cause], if it raised: with [write_to_temp_table] the round trip
    and nothing else, and a write that failed ended the run before any
    stage; no call at all without it. *)
Definition temp_shape (a : arguments) (tn : string) (d : DataFrame)
    (cause : option exn) (t : list (event DataFrame)) : Prop :=
  if write_to_temp_table a then
    ∃ out, temp_events tn t = temp_round_trip tn d out ∧
           ∀ e, out = Raised e → evaluations t = [] ∧ cause = Some e
  else temp_events tn t = [].

Definition temp_post (a : arguments) (tn : string) (d : DataFrame) {A}
    : result A → state → list (event DataFrame) → Prop :=
  λ r _ t', temp_shape a tn d (raised_exn r) t'.

End TempTable.

(** ** A percentage that cannot be computed *)

Section Percentage.
Context {DataFrame : Type} `{!Collaborators DataFrame}.

(** What holds of the threshold check when the percentage may fail: the
    row stage did not end; or it ended and the percentage could be
    computed; or it could not, and the run ended there with the exception
    of the percentage. *)
Definition percentage_post {A}
    : result A → state → list (event DataFrame) → Prop :=
  λ r st' t',
    breach_events t' = [] ∨
    (∃ p, get_output_percentage (ctx st') = Ok p) ∨
    (∃ e t1, get_output_percentage (ctx st') = Raised e ∧
             raised_exn r = Some e ∧
             last t' = Some (SetEndTime row t1)).
End Percentage.

(** A percentage that cannot be computed on an empty input. *)
Definition strict_percentage (i o : Z) : result Q :=
  if (i =? 0)%Z
  then Raised (Exn ZeroDivisionError "division by zero")
  else Ok (o * 100 # Z.to_pos i).

(** The sample collaborators with the strict percentage. *)
Definition strict_collaborators : Collaborators (list Z) :=
  {| df_count := λ d, Z.of_nat (length d);
     spark_sql := λ _, [];
     write_df_to_table := λ _ _ _, Ok tt;
     func_process := sample_process true;
     output_percentage := strict_percentage;
     notify_on_exceeds_of_error_threshold := λ _, Ok tt |}.

(** * Properties *)

Section MonadFacts.
Context {DataFrame : Type}.
Local Abbreviation M := (M DataFrame).

Lemma bind_run {A B} (m : M A) (f : A → M B) st :
  (m ≫= f) st =
    match res (m st) with
    | Ok x =>
        MkOutcome (res (f x (final (m st)))) (final (f x (final (m st))))
          (trace (m st) ++ trace (f x (final (m st))))
    | Raised e => MkOutcome (Raised e) (final (m st)) (trace (m st))
    end.
Proof. reflexivity. Qed.

Lemma bind_ok {A B} (m : M A) (f : A → M B) st x :
  res (m st) = Ok x →
  res ((m ≫= f) st) = res (f x (final (m st))) ∧
  final ((m ≫= f) st) = final (f x (final (m st))) ∧
  trace ((m ≫= f) st) = trace (m st) ++ trace (f x (final (m st))).
Proof. intros Hm. rewrite bind_run, Hm. done. Qed.

Lemma bind_raised {A B} (m : M A) (f : A → M B) st e :
  res (m st) = Raised e →
  res ((m ≫= f) st) = Raised e ∧
  final ((m ≫= f) st) = final (m st) ∧
  trace ((m ≫= f) st) = trace (m st).
Proof. intros Hm. rewrite bind_run, Hm. done. Qed.

(** ** [faithful] *)

Lemma faithful_silent {A} (m : M A) :
  (∀ st, trace (m st) = []) → faithful m.
Proof. intros Hm st ev e _. rewrite Hm. intros Hin. inversion Hin. Qed.

Lemma faithful_lift {A} (r : result A) : faithful (lift r : M A).
Proof. destruct r; by apply faithful_silent. Qed.

Lemma faithful_emit (ev : event DataFrame) :
  event_error ev = None → faithful (emit ev).
Proof.
  intros Hev st ev' e He Hin. cbn in Hin.
  apply list_elem_of_singleton in Hin. congruence.
Qed.

Lemma faithful_bind {A B} (m : M A) (f : A → M B) :
  faithful m → (∀ x, faithful (f x)) → faithful (m ≫= f).
Proof.
  intros Hm Hf st ev e He. specialize (Hm st ev e He).
  rewrite bind_run.
  destruct (res (m st)) as [x|e0] eqn:Hres; cbn.
  - intros [Hin|Hin]%elem_of_app.
    + destruct (Hm Hin) as [? _]. congruence.
    + destruct (Hf x _ _ _ He Hin) as [-> Hlast]. split; [done|].
      by rewrite last_app, Hlast.
  - intros Hin. destruct (Hm Hin) as [? ?]. split; congruence.
Qed.

Lemma faithful_if {A} (b : bool) (m1 m2 : M A) :
  faithful m1 → faithful m2 → faithful (if b then m1 else m2).
Proof. by destruct b. Qed.

(** A call that records its own outcome and then returns or raises it. *)
Lemma faithful_call {A} (ev : event DataFrame) (out : result A) :
  event_error ev = match out with Ok _ => None | Raised e => Some e end →
  faithful (emit ev ;; lift out).
Proof.
  intros Hev st ev' e He Hin. rewrite bind_run in *. cbn in *.
  destruct out as [x|e0]; cbn in *.
  all: apply list_elem_of_singleton in Hin; subst ev'.
  - congruence.
  - split; [congruence|done].
Qed.
End MonadFacts.

(** Unfolds the wrapper down to its primitive operations and calls. *)
Ltac unfold_wrapper :=
  unfold wrapper_try, run_checks, dq_stages, reset_context, temp_table_block,
    source_agg_dq_block, source_query_dq_block, row_dq_block,
    final_agg_dq_block, final_query_dq_block, write_block,
    error_threshold_check, set_status, set_start_time, set_end_time.

Ltac faithful_step :=
  lazymatch goal with
  | |- faithful (call_func_process _ _ _) =>
      unfold call_func_process; apply faithful_bind; [|intros ?]
  | |- faithful (call_write_df_to_table _ _) =>
      unfold call_write_df_to_table; apply faithful_bind; [|intros ?]
  | |- faithful (emit ?ev ≫= λ _, lift ?out) =>
      apply (faithful_call ev out); by destruct out
  | |- faithful (mbind _ _) => apply faithful_bind; [|intros ?]
  | |- faithful (if _ then _ else _) => apply faithful_if
  | |- faithful (lift _) => apply faithful_lift
  | |- faithful (emit _) => apply faithful_emit; reflexivity
  | |- faithful (match ?x with _ => _ end) => destruct x
  | |- faithful _ => apply faithful_silent; reflexivity
  end.

Section WrapperFacts.
Context {DataFrame : Type} `{!Collaborators DataFrame}.
Variable a : arguments.
Variable s : settings.

Lemma wrapper_run func st :
  let o := wrapper_try a s func st in
  res (wrapper a s func st) =
    match res o with
    | Ok v => Ok v
    | Raised e =>
        Raised (Exn SparkExpectationsMiscException
                  (processing_error_prefix +:+ exn_str e))
    end ∧
  final (wrapper a s func st) = final o ∧
  trace (wrapper a s func st) = trace o.
Proof.
  unfold wrapper, try_except. cbn.
  destruct (res (wrapper_try a s func st)) eqn:Hres; cbn.
  - by rewrite Hres.
  - by rewrite app_nil_r.
Qed.

Lemma faithful_wrapper_try func : faithful (wrapper_try a s func).
Proof. unfold_wrapper. repeat faithful_step. Qed.

(** C8: every exception the wrapper raises is a processing error that
    quotes its cause; and an exception raised by a collaborator (a stage
    evaluation, a write or the breach notification) ends the run at that
    call, nothing is done after it, and the run raises the processing error
    that quotes it. *)
Theorem stage_errors_elevate func st :
  let o := wrapper a s func st in
  (∀ e', res o = Raised e' →
         ∃ cause, e' = Exn SparkExpectationsMiscException
                         (processing_error_prefix +:+ exn_str cause)) ∧
  (∀ ev e, event_error ev = Some e → ev ∈ trace o →
           res o = Raised (Exn SparkExpectationsMiscException
                             (processing_error_prefix +:+ exn_str e)) ∧
           last (trace o) = Some ev).
Proof.
  intros o. destruct (wrapper_run func st) as (Hres & _ & Htr).
  fold o in Hres, Htr. split.
  - intros e' He'. rewrite Hres in He'.
    destruct (res (wrapper_try a s func st)) as [|cause]; [done|].
    exists cause. congruence.
  - intros ev e Hev Hin. rewrite Htr in *.
    destruct (faithful_wrapper_try func st ev e Hev Hin) as [Hr Hl].
    by rewrite Hres, Hr.
Qed.
End WrapperFacts.

Section JudgementFacts.
Context {DataFrame : Type}.
Local Abbreviation M := (M DataFrame).

(** ** [quiet] *)

Lemma quiet_silent (P : event DataFrame → Prop) {A} (m : M A) :
  (∀ st, trace (m st) = []) → quiet P m.
Proof. intros Hm st. rewrite Hm. constructor. Qed.

Lemma quiet_lift (P : event DataFrame → Prop) {A} (r : result A) :
  quiet P (lift r : M A).
Proof. destruct r; by apply quiet_silent. Qed.

Lemma quiet_emit (P : event DataFrame → Prop) ev : P ev → quiet P (emit ev).
Proof. intros Hev st. cbn. by repeat constructor. Qed.

Lemma quiet_bind (P : event DataFrame → Prop) {A B} (m : M A) (f : A → M B) :
  quiet P m → (∀ x, quiet P (f x)) → quiet P (m ≫= f).
Proof.
  intros Hm Hf st. rewrite bind_run.
  destruct (res (m st)) as [x|e]; cbn; [|apply Hm].
  apply Forall_app. split; [apply Hm|apply Hf].
Qed.

Lemma quiet_if (P : event DataFrame → Prop) {A} (b : bool) (m1 m2 : M A) :
  quiet P m1 → quiet P m2 → quiet P (if b then m1 else m2).
Proof. by destruct b. Qed.

(** ** [keeps] *)

Lemma keeps_pure (I : context → Prop) {A} (m : M A) :
  (∀ st, ctx (final (m st)) = ctx st) → keeps I m.
Proof. intros Hm st. by rewrite Hm. Qed.

Lemma keeps_lift (I : context → Prop) {A} (r : result A) :
  keeps I (lift r : M A).
Proof. destruct r; by apply keeps_pure. Qed.

Lemma keeps_modify (I : context → Prop) (f : context → context) :
  (∀ c, I c → I (f c)) → keeps I (modify f : M unit).
Proof. intros Hf st. cbn. apply Hf. Qed.

Lemma keeps_bind (I : context → Prop) {A B} (m : M A) (f : A → M B) :
  keeps I m → (∀ x, keeps I (f x)) → keeps I (m ≫= f).
Proof.
  intros Hm Hf st HI. rewrite bind_run.
  destruct (res (m st)) as [x|e]; cbn; [|by apply Hm].
  apply Hf. by apply Hm.
Qed.

Lemma keeps_if (I : context → Prop) {A} (b : bool) (m1 m2 : M A) :
  keeps I m1 → keeps I m2 → keeps I (if b then m1 else m2).
Proof. by destruct b. Qed.

(** ** [returns] *)

Lemma returns_ret {A} (Q : A → Prop) (x : A) :
  Q x → returns Q (mret x : M A).
Proof. intros HQ st y. cbn. congruence. Qed.

Lemma returns_raise {A} (Q : A → Prop) e : returns Q (raise e : M A).
Proof. intros st y. cbn. congruence. Qed.

Lemma returns_bind_with {A B} (Q1 : A → Prop) (Q : B → Prop)
    (m : M A) (f : A → M B) :
  returns Q1 m → (∀ x, Q1 x → returns Q (f x)) → returns Q (m ≫= f).
Proof.
  intros Hm Hf st y. rewrite bind_run.
  destruct (res (m st)) as [x|e] eqn:Hres; cbn; [|congruence].
  apply (Hf x). by apply (Hm st).
Qed.

Lemma returns_bind {A B} (Q : B → Prop) (m : M A) (f : A → M B) :
  (∀ x, returns Q (f x)) → returns Q (m ≫= f).
Proof.
  intros Hf. apply (returns_bind_with (λ _, True)); [done|auto].
Qed.

Lemma returns_if {A} (Q : A → Prop) (b : bool) (m1 m2 : M A) :
  returns Q m1 → returns Q m2 → returns Q (if b then m1 else m2).
Proof. by destruct b. Qed.
End JudgementFacts.

Ltac quiet_step :=
  lazymatch goal with
  | |- quiet _ (mbind _ _) => apply quiet_bind; [|intros ?]
  | |- quiet _ (if _ then _ else _) => apply quiet_if
  | |- quiet _ (lift _) => apply quiet_lift
  | |- quiet _ (emit _) => apply quiet_emit
  | |- quiet _ (match ?x with _ => _ end) => destruct x
  | |- quiet _ _ => apply quiet_silent; reflexivity
  end.

Ltac keeps_step :=
  lazymatch goal with
  | |- keeps _ (mbind _ _) => apply keeps_bind; [|intros ?]
  | |- keeps _ (if _ then _ else _) => apply keeps_if
  | |- keeps _ (lift _) => apply keeps_lift
  | |- keeps _ (modify _) => apply keeps_modify
  | |- keeps _ (match ?x with _ => _ end) => destruct x
  | |- keeps _ _ => apply keeps_pure; reflexivity
  end.

Ltac returns_step :=
  lazymatch goal with
  | |- returns _ (mbind _ _) => apply returns_bind; intros ?
  | |- returns _ (if _ then _ else _) => apply returns_if
  | |- returns _ (mret _) => apply returns_ret
  | |- returns _ (raise _) => apply returns_raise
  | |- returns _ (match ?x with _ => _ end) => destruct x
  end.

Section RowDisabled.
Context {DataFrame : Type} `{!Collaborators DataFrame}.
Variable a : arguments.
Variable s : settings.

Hypothesis row_disabled : _row_dq s = false.

Lemma quiet_dq_stages_source_only tn d :
  quiet source_only (dq_stages a s tn d).
Proof.
  unfold_wrapper. unfold call_func_process, call_write_df_to_table.
  rewrite row_disabled. cbn [andb].
  repeat quiet_step; cbn; auto.
Qed.

Lemma quiet_dq_stages_temp_only tn d :
  quiet (temp_only tn) (dq_stages a s tn d).
Proof.
  unfold_wrapper. unfold call_func_process, call_write_df_to_table.
  rewrite row_disabled. cbn [andb].
  repeat quiet_step; cbn; auto.
Qed.

Lemma keeps_dq_stages_final_skipped tn d :
  keeps final_skipped (dq_stages a s tn d).
Proof.
  unfold_wrapper. unfold call_func_process, call_write_df_to_table.
  rewrite row_disabled. cbn [andb].
  repeat keeps_step; try (intros c Hc; exact Hc).
Qed.

Lemma returns_dq_stages_none tn d :
  returns (λ v, v = None) (dq_stages a s tn d).
Proof.
  unfold_wrapper. unfold call_func_process, call_write_df_to_table.
  rewrite row_disabled. cbn [andb].
  apply returns_bind; intros _.
  apply returns_bind; intros d'.
  do 5 (apply (returns_bind_with (λ l, _row_dq_df l = None));
        [by repeat returns_step|intros ? ?]).
  by repeat returns_step.
Qed.
End RowDisabled.

(** ** Symbolic execution *)

Section WpFacts.
Context {DataFrame : Type}.
Local Abbreviation M := (M DataFrame).

Lemma wp_ret {A} (x : A) Φ st t : Φ (Ok x) st t → wp (mret x : M A) Φ st t.
Proof. unfold wp. cbn. by rewrite app_nil_r. Qed.

Lemma wp_raise {A} e (Φ : result A → _) st t :
  Φ (Raised e) st t → wp (raise e : M A) Φ st t.
Proof. unfold wp. cbn. by rewrite app_nil_r. Qed.

Lemma wp_lift {A} (r : result A) Φ st t :
  Φ r st t → wp (lift r : M A) Φ st t.
Proof. unfold wp. destruct r; cbn; by rewrite app_nil_r. Qed.

Lemma wp_emit (ev : event DataFrame) Φ st t :
  Φ (Ok tt) st (t ++ [ev]) → wp (emit ev) Φ st t.
Proof. done. Qed.

Lemma wp_modify (g : context → context) Φ st t :
  Φ (Ok tt) (MkState (g (ctx st)) (clock st)) t →
  wp (modify g : M unit) Φ st t.
Proof. unfold wp. cbn. by rewrite app_nil_r. Qed.

Lemma wp_gets {A} (g : context → A) Φ st t :
  Φ (Ok (g (ctx st))) st t → wp (gets g : M A) Φ st t.
Proof. unfold wp. cbn. by rewrite app_nil_r. Qed.

Lemma wp_bind {A B} (m : M A) (f : A → M B) Φ st t :
  wp m (λ r st' t',
        match r with
        | Ok x => wp (f x) Φ st' t'
        | Raised e => Φ (Raised e) st' t'
        end) st t →
  wp (m ≫= f) Φ st t.
Proof.
  unfold wp. rewrite bind_run.
  destruct (res (m st)) as [x|e]; cbn; [|done]. by rewrite app_assoc.
Qed.

Lemma wp_mono {A} (m : M A) (Φ Ψ : result A → _) st t :
  wp m Φ st t → (∀ r st' t', Φ r st' t' → Ψ r st' t') → wp m Ψ st t.
Proof. unfold wp. auto. Qed.

Lemma wp_bind_ret {A B} (x : A) (f : A → M B) Φ st t :
  wp (f x) Φ st t → wp (mret x ≫= f) Φ st t.
Proof. intros Hf. apply wp_bind, wp_ret, Hf. Qed.

Lemma wp_bind_raise {A B} e (f : A → M B) Φ st t :
  Φ (Raised e) st t → wp (raise e ≫= f) Φ st t.
Proof. intros Hf. apply wp_bind, wp_raise, Hf. Qed.

Lemma wp_bind_lift {A B} (r : result A) (f : A → M B) Φ st t :
  match r with
  | Ok x => wp (f x) Φ st t
  | Raised e => Φ (Raised e) st t
  end →
  wp (lift r ≫= f) Φ st t.
Proof. intros Hf. apply wp_bind, wp_lift. by destruct r. Qed.

Lemma wp_bind_gets {A B} (g : context → A) (f : A → M B) Φ st t :
  wp (f (g (ctx st))) Φ st t → wp (gets g ≫= f) Φ st t.
Proof. intros Hf. apply wp_bind. unfold wp at 1. cbn. by rewrite app_nil_r. Qed.

Lemma wp_bind_modify {B} (g : context → context) (f : unit → M B) Φ st t :
  wp (f tt) Φ (MkState (g (ctx st)) (clock st)) t →
  wp (modify g ≫= f) Φ st t.
Proof. intros Hf. apply wp_bind. unfold wp at 1. cbn. by rewrite app_nil_r. Qed.

Lemma wp_bind_now {B} (f : nat → M B) Φ st t :
  wp (f (clock st)) Φ (MkState (ctx st) (S (clock st))) t →
  wp (now ≫= f) Φ st t.
Proof. intros Hf. apply wp_bind. unfold wp at 1. cbn. by rewrite app_nil_r. Qed.

Lemma wp_bind_emit {B} ev (f : unit → M B) Φ st t :
  wp (f tt) Φ st (t ++ [ev]) → wp (emit ev ≫= f) Φ st t.
Proof. intros Hf. by apply wp_bind. Qed.

Lemma wp_bind_assoc {A B C} (m : M A) (g : A → M B) (f : B → M C) Φ st t :
  wp (m ≫= λ x, g x ≫= f) Φ st t → wp ((m ≫= g) ≫= f) Φ st t.
Proof.
  unfold wp.
  rewrite (bind_run (m ≫= g) f), (bind_run m g),
    (bind_run m (λ x, g x ≫= f)).
  destruct (res (m st)) as [x|e]; cbn; [|done].
  rewrite (bind_run (g x) f).
  destruct (res (g x (final (m st)))) as [y|e]; cbn.
  - by rewrite !app_assoc.
  - by rewrite !app_assoc.
Qed.
End WpFacts.

(** One step of symbolic execution. *)
Ltac wp_step :=
  cbv beta iota; cbn [ctx clock];
  lazymatch goal with
  | |- wp (mbind _ (mbind _ _)) _ _ _ => apply wp_bind_assoc
  | |- wp (mbind _ (mret _)) _ _ _ => apply wp_bind_ret
  | |- wp (mbind _ (raise _)) _ _ _ => apply wp_bind_raise
  | |- wp (mbind _ (gets _)) _ _ _ => apply wp_bind_gets
  | |- wp (mbind _ (modify _)) _ _ _ => apply wp_bind_modify
  | |- wp (mbind _ (emit _)) _ _ _ => apply wp_bind_emit
  | |- wp (mbind _ now) _ _ _ => apply wp_bind_now
  | |- wp (mbind _ (lift ?r)) _ _ _ =>
      apply wp_bind_lift; destruct r as [?|?] eqn:?
  | |- wp (mbind _ (if ?b then _ else _)) _ _ _ => destruct b eqn:?
  | |- wp (mbind _ (match ?x with _ => _ end)) _ _ _ => destruct x eqn:?
  | |- wp (if ?b then _ else _) _ _ _ => destruct b eqn:?
  | |- wp (match ?x with _ => _ end) _ _ _ => destruct x eqn:?
  | |- wp (mret _) _ _ _ => apply wp_ret
  | |- wp (raise _) _ _ _ => apply wp_raise
  | |- wp (lift _) _ _ _ => apply wp_lift
  | |- wp (emit _) _ _ _ => apply wp_emit
  | |- wp (modify _) _ _ _ => apply wp_modify
  | |- wp (gets _) _ _ _ => apply wp_gets
  end.

Lemma append_temp_ne (t : string) : t +:+ "_temp" ≠ t.
Proof. induction t as [|c t IH]; cbn; [done|]. intros [=]. done. Qed.

Section BlamesFacts.
Context {DataFrame : Type}.
Local Abbreviation M := (M DataFrame).

Lemma blames_total {A} (m : M A) :
  (∀ st, is_ok (res (m st)) = true) → blames m.
Proof. intros Hm st e He. specialize (Hm st). by rewrite He in Hm. Qed.

Lemma blames_bind {A B} (m : M A) (f : A → M B) :
  blames m → (∀ x, blames (f x)) → blames (m ≫= f).
Proof.
  intros Hm Hf st e. rewrite bind_run.
  destruct (res (m st)) as [x|e0] eqn:Hres; cbn.
  - intros He. destruct (Hf x _ _ He) as (ev & Hin & Hev).
    exists ev. split; [|done]. apply elem_of_app. by right.
  - intros [= ->]. by apply Hm.
Qed.

Lemma blames_if {A} (b : bool) (m1 m2 : M A) :
  blames m1 → blames m2 → blames (if b then m1 else m2).
Proof. by destruct b. Qed.

Lemma blames_call {A} (ev : event DataFrame) (out : result A) :
  event_error ev = match out with Ok _ => None | Raised e => Some e end →
  blames (emit ev ;; lift out).
Proof.
  intros Hev st e. rewrite bind_run. cbn.
  destruct out as [x|e0]; cbn; [done|]. intros [= ->].
  exists ev. split; [|done]. apply list_elem_of_singleton. done.
Qed.
End BlamesFacts.

Ltac blames_step :=
  lazymatch goal with
  | |- blames (emit ?ev ≫= λ _, lift ?out) =>
      apply (blames_call ev out); by destruct out
  | |- blames (mbind _ _) => apply blames_bind; [|intros ?]
  | |- blames (if _ then _ else _) => apply blames_if
  | |- blames (match ?x with _ => _ end) => destruct x
  | |- blames _ => apply blames_total; reflexivity
  end.

(** ** From the judgements to symbolic execution *)

Section WpJudgements.
Context {DataFrame : Type} `{!Collaborators DataFrame}.
Variable a : arguments.
Variable s : settings.

Lemma wp_run {A} (m : M DataFrame A) Φ st :
  wp m Φ st [] → Φ (res (m st)) (final (m st)) (trace (m st)).
Proof. done. Qed.

Lemma wp_intro {A} (m : M DataFrame A) Φ st :
  Φ (res (m st)) (final (m st)) (trace (m st)) → wp m Φ st [].
Proof. done. Qed.

Lemma wp_quiet {A} (P : event DataFrame → Prop) (m : M DataFrame A) st t :
  quiet P m →
  wp m (λ _ _ t', ∃ t2, t' = t ++ t2 ∧ Forall P t2) st t.
Proof. intros Hm. unfold wp. eauto. Qed.

Lemma wp_keeps {A} (I : context → Prop) (m : M DataFrame A) st t :
  keeps I m → I (ctx st) → wp m (λ _ st' _, I (ctx st')) st t.
Proof. intros Hm Hst. by apply Hm. Qed.

Lemma wp_blames {A} (m : M DataFrame A) st t :
  blames m →
  wp m (λ r _ t', ∀ e, r = Raised e →
                       ∃ ev, ev ∈ t' ∧ event_error ev = Some e) st t.
Proof.
  intros Hm e He. destruct (Hm st e He) as (ev & Hin & Hev).
  exists ev. split; [|done]. apply elem_of_app. by right.
Qed.

Lemma wp_wrapper_try func Φ st t :
  match func with
  | Ok df =>
      match py_count df with
      | Ok n => wp (run_checks a s (table_name (ctx st)) n df) Φ st t
      | Raised e => Φ (Raised e) st t
      end
  | Raised e => Φ (Raised e) st t
  end →
  wp (wrapper_try a s func) Φ st t.
Proof.
  intros H. unfold wrapper_try. apply wp_bind_lift.
  destruct func as [df|e]; [|done]. apply wp_bind_gets, wp_bind_lift.
  by destruct (py_count df).
Qed.
End WpJudgements.

(** ** The stages that run, their order and their inputs *)

Section EvalFacts.
Context {DataFrame : Type} `{!Collaborators DataFrame}.
Variable a : arguments.
Variable s : settings.

Lemma evaluations_app (t1 t2 : list (event DataFrame)) :
  evaluations (t1 ++ t2) = evaluations t1 ++ evaluations t2.
Proof. apply omap_app. Qed.

Lemma row_result_no_evaluation (ev : event DataFrame) :
  evaluation ev = None → row_result ev = None.
Proof. by destruct ev. Qed.

Lemma no_evaluation_omap (t : list (event DataFrame)) :
  Forall no_evaluation t → evaluations t = [] ∧ omap row_result t = [].
Proof.
  induction 1 as [|ev t Hev _ [IH1 IH2]]; [done|].
  unfold evaluations in *. cbn.
  by rewrite (row_result_no_evaluation ev Hev), Hev.
Qed.

Lemma wp_no_evaluation {A} (m : M DataFrame A) st t :
  quiet no_evaluation m →
  wp m (λ _ _ t', evaluations t' = evaluations t ∧
                  omap row_result t' = omap row_result t) st t.
Proof.
  intros Hm. unfold wp.
  destruct (no_evaluation_omap _ (Hm st)) as [H1 H2].
  by rewrite evaluations_app, omap_app, H1, H2, !app_nil_r.
Qed.

Ltac trace_simpl :=
  unfold evaluations;
  rewrite ?omap_app; cbn [omap list_omap evaluation row_result app];
  rewrite ?app_nil_r.


Ltac unfold_block :=
  unfold temp_table_block, source_agg_dq_block, source_query_dq_block,
    row_dq_block, final_agg_dq_block, final_query_dq_block, write_block,
    error_threshold_check, set_status, set_start_time, set_end_time,
    call_func_process, call_write_df_to_table, block_evals, stage_enabled.

Ltac solve_evals :=
  trace_simpl; repeat split; try done;
  try (apply prefix_app_r; reflexivity).

Lemma temp_table_evaluations tn d st t :
  wp (temp_table_block a tn d)
     (λ r _ t',
        evaluations t' = evaluations t ∧
        omap row_result t' = omap row_result t ∧
        ∀ d', r = Ok d' → d' = raw_dataset a tn d) st t.
Proof.
  unfold_block. unfold raw_dataset. repeat wp_step.
  all: solve_evals; congruence.
Qed.

Lemma source_agg_evaluations l st t :
  wp (source_agg_dq_block s l)
     (λ r _ t',
        omap row_result t' = omap row_result t ∧
        match r with
        | Ok l' => l' = l ∧
            evaluations t' = evaluations t ++ block_evals s source_agg (Some (_df l))
        | Raised _ =>
            evaluations t' `prefix_of`
              evaluations t ++ block_evals s source_agg (Some (_df l))
        end) st t.
Proof. unfold_block. repeat wp_step. all: solve_evals. Qed.

Lemma source_query_evaluations l st t :
  wp (source_query_dq_block s l)
     (λ r _ t',
        omap row_result t' = omap row_result t ∧
        match r with
        | Ok l' => l' = l ∧
            evaluations t' = evaluations t ++ block_evals s source_query (Some (_df l))
        | Raised _ =>
            evaluations t' `prefix_of`
              evaluations t ++ block_evals s source_query (Some (_df l))
        end) st t.
Proof. unfold_block. repeat wp_step. all: solve_evals. Qed.

Lemma row_evaluations l st t :
  omap row_result t = [] → _row_dq_df l = None →
  wp (row_dq_block s l)
     (λ r _ t',
        match r with
        | Ok l' => _df l' = _df l ∧ row_output t' = _row_dq_df l' ∧
            evaluations t' = evaluations t ++ block_evals s row (Some (_df l))
        | Raised _ =>
            evaluations t' `prefix_of`
              evaluations t ++ block_evals s row (Some (_df l))
        end) st t.
Proof.
  intros Ht Hl. unfold_block. repeat wp_step.
  all: unfold row_output; solve_evals; rewrite ?Ht; try done.
Qed.

Lemma final_agg_evaluations l st t :
  wp (final_agg_dq_block s l)
     (λ r _ t',
        omap row_result t' = omap row_result t ∧
        match r with
        | Ok l' => l' = l ∧
            evaluations t' = evaluations t ++ block_evals s final_agg (_row_dq_df l)
        | Raised _ =>
            evaluations t' `prefix_of`
              evaluations t ++ block_evals s final_agg (_row_dq_df l)
        end) st t.
Proof. unfold_block. repeat wp_step. all: solve_evals. Qed.

Lemma final_query_evaluations l st t :
  wp (final_query_dq_block s l)
     (λ r _ t',
        omap row_result t' = omap row_result t ∧
        match r with
        | Ok l' => l' = l ∧
            evaluations t' = evaluations t ++ block_evals s final_query (_row_dq_df l)
        | Raised _ =>
            evaluations t' `prefix_of`
              evaluations t ++ block_evals s final_query (_row_dq_df l)
        end) st t.
Proof. unfold_block. repeat wp_step. all: solve_evals. Qed.

Lemma write_evaluations tn l st t :
  wp (write_block a s tn l)
     (λ r _ t',
        evaluations t' = evaluations t ∧
        omap row_result t' = omap row_result t) st t.
Proof. unfold_block. repeat wp_step. all: solve_evals. Qed.

Ltac solve_prefix :=
  rewrite <- ?app_assoc; cbn [app];
  repeat apply prefix_app;
  first [reflexivity | apply prefix_nil | by apply prefix_app_r].

Ltac raised_evaluations H :=
  split; [|intros ? [=]];
  etrans; [exact H|];
  unfold expected_evaluations, block_evals; cbn [_df _row_dq_df];
  solve_prefix.

Lemma dq_stages_evaluations tn d st t :
  evaluations t = [] → omap row_result t = [] →
  wp (dq_stages a s tn d) (evaluations_post s (raw_dataset a tn d)) st t.
Proof.
  intros He Hr. unfold dq_stages, evaluations_post. wp_step.
  apply wp_bind. eapply wp_mono; [apply temp_table_evaluations|].
  cbn [ctx clock]. intros [raw|e] st0 t0 (He0 & Hr0 & Hraw); cbv beta iota.
  2: { split; [|intros ? [=]]. rewrite He0, He. apply prefix_nil. }
  rewrite <- (Hraw _ eq_refl). rewrite He in He0. rewrite Hr in Hr0.
  clear Hraw He Hr t st.
  apply wp_bind. eapply wp_mono; [apply source_agg_evaluations|].
  intros [l1|e] st1 t1 (Hr1 & H1); cbv beta iota.
  2: { rewrite He0 in H1. raised_evaluations H1. }
  destruct H1 as [-> He1]. rewrite He0 in He1. rewrite Hr0 in Hr1.
  apply wp_bind. eapply wp_mono; [apply source_query_evaluations|].
  intros [l2|e] st2 t2 (Hr2 & H2); cbv beta iota.
  2: { rewrite He1 in H2. raised_evaluations H2. }
  destruct H2 as [-> He2]. rewrite He1 in He2. rewrite Hr1 in Hr2.
  apply wp_bind. eapply wp_mono; [by apply row_evaluations|].
  intros [l3|e] st3 t3 H3; cbv beta iota.
  2: { rewrite He2 in H3. raised_evaluations H3. }
  destruct H3 as (Hdf & Hrow & He3). rewrite He2 in He3.
  cbn [_df] in He3.
  apply wp_bind. eapply wp_mono; [apply final_agg_evaluations|].
  intros [l4|e] st4 t4 (Hr4 & H4); cbv beta iota.
  all: assert (row_output t4 = _row_dq_df l3) as Hrow4
    by (unfold row_output in *; by rewrite Hr4).
  2: { rewrite He3 in H4. rewrite Hrow4. raised_evaluations H4. }
  destruct H4 as [-> He4]. rewrite He3 in He4.
  apply wp_bind. eapply wp_mono; [apply final_query_evaluations|].
  intros [l5|e] st5 t5 (Hr5 & H5); cbv beta iota.
  all: assert (row_output t5 = _row_dq_df l3) as Hrow5
    by (unfold row_output in *; by rewrite Hr5).
  2: { rewrite He4 in H5. rewrite Hrow5. raised_evaluations H5. }
  destruct H5 as [-> He5]. rewrite He4 in He5.
  apply wp_bind. eapply wp_mono; [apply write_evaluations|].
  intros [[]|e] st6 t6 (He6 & Hr6); cbv beta iota.
  all: assert (row_output t6 = _row_dq_df l3) as Hrow6
    by (unfold row_output in *; by rewrite Hr6).
  all: rewrite He5 in He6.
  2: { rewrite Hrow6. split; [|intros ? [=]]. rewrite He6.
       unfold expected_evaluations, block_evals. solve_prefix. }
  apply wp_ret. split.
  - rewrite Hrow6, He6. unfold expected_evaluations, block_evals.
    solve_prefix.
  - intros v [= <-]. split; [done|]. rewrite He6.
    unfold expected_evaluations, block_evals.
    by rewrite <- ?app_assoc.
Qed.

Lemma quiet_reset_context_no_evaluation n :
  quiet no_evaluation (reset_context (DataFrame:=DataFrame) s n).
Proof. unfold reset_context, set_status. repeat quiet_step; done. Qed.

Lemma run_checks_evaluations tn n d st :
  wp (run_checks a s tn n (RDataFrame d))
     (evaluations_post s (raw_dataset a tn d)) st [].
Proof.
  unfold run_checks.
  apply wp_bind. eapply wp_mono;
    [apply wp_no_evaluation, quiet_reset_context_no_evaluation|].
  intros [[]|e] st0 t0 [He Hr]; cbv beta iota.
  2: { unfold evaluations_post. split; [|intros ? [=]].
       rewrite He. apply prefix_nil. }
  apply wp_bind. eapply wp_mono; [by apply dq_stages_evaluations|].
  unfold evaluations_post.
  intros [v|e] st1 t1 [Hp Hv]; cbv beta iota; [|done].
  destruct (Hv v eq_refl) as [Hrow Hev].
  repeat wp_step.
  assert (evaluations (t1 ++ [ClearCache]) = evaluations t1) as He'.
  { rewrite evaluations_app. cbn. by rewrite app_nil_r. }
  assert (row_output (t1 ++ [ClearCache]) = row_output t1) as Hr'.
  { unfold row_output. rewrite omap_app. cbn. by rewrite app_nil_r. }
  rewrite He', Hr'. split; [done|]. by intros ? [= <-].
Qed.

Lemma elem_of_expected_evaluations (raw : DataFrame) (v : option DataFrame)
    stg i :
  (stg, i) ∈ expected_evaluations s raw v ↔
  stage_enabled s stg = true ∧
  i = match stg with final_agg | final_query => v | _ => Some raw end.
Proof.
  assert (∀ (b : bool) (x y : stage * option DataFrame),
            y ∈ (if b then [x] else []) ↔ b = true ∧ y = x) as Hif.
  { intros [] x y.
    - rewrite list_elem_of_singleton. tauto.
    - rewrite elem_of_nil. split; [tauto|]. by intros [? _]. }
  unfold expected_evaluations. rewrite !elem_of_app, !Hif. split.
  - intros H. repeat destruct H as [H|H].
    all: destruct H as [He [= -> ->]]; done.
  - intros [He ->]. destruct stg; tauto.
Qed.

End EvalFacts.

(** ** A run without the row stage *)

Section RowDisabledRun.
Context {DataFrame : Type} `{!Collaborators DataFrame}.
Variable a : arguments.
Variable s : settings.

Hypothesis row_disabled : _row_dq s = false.

Lemma quiet_wrapper_try_source_only func :
  quiet source_only (wrapper_try a s func).
Proof.
  unfold_wrapper. unfold call_func_process, call_write_df_to_table.
  rewrite row_disabled. cbn [andb].
  repeat quiet_step; cbn; auto.
Qed.

Lemma keeps_wrapper_try_final_skipped func :
  keeps final_skipped (wrapper_try a s func).
Proof.
  unfold_wrapper. unfold call_func_process, call_write_df_to_table.
  rewrite row_disabled. cbn [andb].
  repeat keeps_step; try (intros c Hc; exact Hc).
  all: intros c [H1 H2]; split; assumption || reflexivity.
Qed.

Lemma reset_context_final_skipped n st t :
  wp (reset_context (DataFrame:=DataFrame) s n)
     (λ r st' _, final_skipped (ctx st')) st t.
Proof.
  unfold reset_context, set_status. repeat wp_step. split; reflexivity.
Qed.

Lemma returns_wrapper_try_none func :
  returns (λ v, v = None) (wrapper_try a s func).
Proof.
  unfold wrapper_try, run_checks.
  do 4 (apply returns_bind; intros ?).
  apply (returns_bind_with (λ v, v = None)).
  - destruct x; [apply returns_dq_stages_none; done|apply returns_raise..].
  - intros v ->. by repeat returns_step.
Qed.

Lemma blames_run_checks tn n d :
  blames (run_checks a s tn n (RDataFrame d)).
Proof.
  unfold_wrapper. unfold call_func_process, call_write_df_to_table.
  rewrite row_disabled. cbn [andb].
  repeat blames_step.
Qed.

Lemma quiet_run_checks_temp_only tn n df :
  quiet (temp_only tn) (run_checks a s tn n df).
Proof.
  unfold run_checks.
  apply quiet_bind.
  { unfold reset_context, set_status. repeat quiet_step; done. }
  intros _. apply quiet_bind.
  { destruct df; [by apply quiet_dq_stages_temp_only|..];
      by apply quiet_silent. }
  intros v. repeat quiet_step; done.
Qed.

(** C2, amended: with [row_dq] disabled, whatever the other flags, the only
    stages evaluated, started or ended are the two source stages and no
    other stage is given a status but [Skipped]. Both final stages report
    [Skipped] at the end of the run when the run got as far as the reset of
    the context (the decorated function returned a value that can be
    counted) or when they reported [Skipped] before it. A run that ends
    before the reset, the function having raised or returned a value that
    cannot be counted, leaves the context as it found it, with the statuses
    of the run before. *)
Theorem row_disabled_final_stages_skipped func st :
  let o := wrapper a s func st in
  Forall source_only (trace o) ∧
  (final_skipped (ctx st) ∨ (∃ df, func = Ok df ∧ is_ok (py_count df) = true) →
   final_skipped (ctx (final o))) ∧
  (is_ok func = false ∨ (∃ df, func = Ok df ∧ is_ok (py_count df) = false) →
   final o = st).
Proof.
  intros o. destruct (wrapper_run a s func st) as (_ & Hfin & Htr).
  fold o in Hfin, Htr. rewrite Hfin, Htr. split; [|split].
  - apply quiet_wrapper_try_source_only.
  - intros [Hst|(df & -> & Hn)].
    + by apply keeps_wrapper_try_final_skipped.
    + change (wp (wrapper_try a s (Ok df))
                (λ _ st' _, final_skipped (ctx st')) st []).
      apply wp_wrapper_try. destruct (py_count df) as [n|]; [|done].
      unfold run_checks. apply wp_bind.
      eapply wp_mono; [apply reset_context_final_skipped|].
      intros [[]|e] st0 t0 H0; [|done]. cbv beta iota.
      apply wp_keeps; [|done].
      apply keeps_bind.
      * destruct df; [by apply keeps_dq_stages_final_skipped|..];
          by apply keeps_pure.
      * intros v. by apply keeps_pure.
  - intros Hf.
    change (wp (wrapper_try a s func) (λ _ st' _, st' = st) st []).
    apply wp_wrapper_try.
    destruct Hf as [Hf|(df & -> & Hn)].
    + by destruct func.
    + by destruct (py_count df).
Qed.

Lemma wp_wrapper_try_blames d st e :
  res (wrapper_try a s (Ok (RDataFrame d)) st) = Raised e →
  ∃ ev, ev ∈ trace (wrapper_try a s (Ok (RDataFrame d)) st) ∧
        event_error ev = Some e.
Proof.
  intros Hr.
  assert (wp (wrapper_try a s (Ok (RDataFrame d)))
            (λ r _ t', ∀ e, r = Raised e →
               ∃ ev, ev ∈ t' ∧ event_error ev = Some e) st []) as Hwp.
  { apply wp_wrapper_try. apply wp_blames, blames_run_checks. }
  exact (wp_run _ _ _ Hwp e Hr).
Qed.

(** C9: with [row_dq] disabled the wrapper returns [None] when it returns,
    it writes nothing to the final table whatever [write_to_table] is, and
    it does return [None] on a dataframe when no collaborator raises. *)
Theorem row_disabled_returns_none func st :
  let o := wrapper a s func st in
  (∀ v, res o = Ok v → v = None) ∧
  (∀ d out, WriteDfToTable d (table_name (ctx st)) out ∉ trace o) ∧
  (∀ d, func = Ok (RDataFrame d) →
        (∀ ev, ev ∈ trace o → event_error ev = None) →
        res o = Ok None).
Proof.
  intros o. destruct (wrapper_run a s func st) as (Hres & _ & Htr).
  fold o in Hres, Htr. rewrite Htr, Hres.
  pose proof (returns_wrapper_try_none func st) as Hnone.
  split; [|split].
  - intros v. destruct (res (wrapper_try a s func st)) as [v'|e]; [|done].
    intros [= <-]. by apply Hnone.
  - intros d out Hin.
    assert (wp (wrapper_try a s func)
              (λ _ _ t', Forall (temp_only (table_name (ctx st))) t') st [])
      as Hwp.
    { apply wp_wrapper_try. destruct func as [df|e]; [|constructor].
      destruct (py_count df) as [n|e]; [|constructor].
      eapply wp_mono;
        [apply (wp_quiet _ _ _ _ (quiet_run_checks_temp_only _ n df))|].
      by intros r st' t' (t2 & -> & Ht2). }
    apply wp_run in Hwp. cbv beta in Hwp.
    rewrite Forall_forall in Hwp. specialize (Hwp _ Hin). cbn in Hwp.
    symmetry in Hwp. by apply append_temp_ne in Hwp.
  - intros d -> Hev.
    destruct (res (wrapper_try a s (Ok (RDataFrame d)) st)) as [v|e] eqn:Hr.
    + f_equal. exact (Hnone v eq_refl).
    + destruct (wp_wrapper_try_blames d st e Hr) as (ev & Hin & He).
      rewrite (Hev ev Hin) in He. discriminate He.
Qed.
End RowDisabledRun.

(** ** The life of a stage *)

Section ProtocolFacts.
Context {DataFrame : Type} `{!Collaborators DataFrame}.
Local Abbreviation M := (M DataFrame).

Lemma stage_events_app stg (t1 t2 : list (event DataFrame)) :
  stage_events stg (t1 ++ t2) = stage_events stg t1 ++ stage_events stg t2.
Proof. apply filter_app. Qed.

Lemma stage_protocol_weaken stg r (evs : list (event DataFrame)) v :
  stage_protocol stg None evs v → stage_protocol stg r evs v.
Proof. inversion 1; subst; by constructor. Qed.

Lemma frame_pure stg {A} (m : M A) :
  (∀ st, trace (m st) = [] ∧ ctx (final (m st)) = ctx st) → frame stg m.
Proof. intros Hm st. destruct (Hm st) as [-> ->]. done. Qed.

Lemma frame_lift stg {A} (r : result A) : frame stg (lift r : M A).
Proof. destruct r; by apply frame_pure. Qed.

Lemma frame_modify stg (f : context → context) :
  (∀ c, stage_view stg (f c) = stage_view stg c) →
  frame stg (modify f : M unit).
Proof. intros Hf st. cbn. split; [done|apply Hf]. Qed.

Lemma frame_emit stg (ev : event DataFrame) :
  event_stage ev ≠ Some stg → frame stg (emit ev).
Proof.
  intros Hev st. split; [|done].
  change (trace (emit ev st)) with [ev].
  unfold stage_events. by rewrite filter_cons_False.
Qed.

Lemma frame_bind stg {A B} (m : M A) (f : A → M B) :
  frame stg m → (∀ x, frame stg (f x)) → frame stg (m ≫= f).
Proof.
  intros Hm Hf st. rewrite bind_run. destruct (Hm st) as [Ht Hv].
  destruct (res (m st)) as [x|e]; cbn [res final trace]; [|done].
  destruct (Hf x (final (m st))) as [Ht' Hv'].
  rewrite stage_events_app, Ht, Ht', Hv', Hv. done.
Qed.

Lemma frame_if stg {A} (b : bool) (m1 m2 : M A) :
  frame stg m1 → frame stg m2 → frame stg (if b then m1 else m2).
Proof. by destruct b. Qed.

Lemma frame_protocol stg {A} (m : M A) : frame stg m → protocol stg m.
Proof.
  intros Hm st Hst. destruct (Hm st) as [-> ->]. rewrite Hst. constructor.
Qed.

Lemma protocol_after_frame stg {A B} (m : M A) (f : A → M B) :
  frame stg m → (∀ x, protocol stg (f x)) → protocol stg (m ≫= f).
Proof.
  intros Hm Hf st Hst. rewrite bind_run. destruct (Hm st) as [Ht Hv].
  destruct (res (m st)) as [x|e]; cbn [res final trace].
  - rewrite stage_events_app, Ht. cbn [app]. apply Hf. by rewrite Hv.
  - rewrite Ht, Hv, Hst. constructor.
Qed.

Lemma protocol_before_frame stg {A B} (m : M A) (f : A → M B) :
  protocol stg m → (∀ x, frame stg (f x)) → protocol stg (m ≫= f).
Proof.
  intros Hm Hf st Hst. rewrite bind_run. specialize (Hm st Hst).
  destruct (res (m st)) as [x|e]; cbn [res final trace]; [|done].
  destruct (Hf x (final (m st))) as [Ht Hv].
  rewrite stage_events_app, Ht, Hv, app_nil_r.
  by apply stage_protocol_weaken.
Qed.

Lemma protocol_wp stg {A} (m : M A) :
  (∀ st, stage_view stg (ctx st) = ("Skipped", None, None) →
         wp m (λ r st' t',
               stage_protocol stg (raised_exn r) (stage_events stg t')
                 (stage_view stg (ctx st'))) st []) →
  protocol stg m.
Proof. intros Hm st Hst. exact (wp_run _ _ _ (Hm st Hst)). Qed.
End ProtocolFacts.

Ltac frame_step :=
  lazymatch goal with
  | |- frame _ (mbind _ _) => apply frame_bind; [|intros ?]
  | |- frame _ (if _ then _ else _) => apply frame_if
  | |- frame _ (lift _) => apply frame_lift
  | |- frame _ (modify _) => apply frame_modify; intros ?; reflexivity
  | |- frame _ (emit _) => apply frame_emit; discriminate
  | |- frame _ (match ?x with _ => _ end) => destruct x
  | |- frame _ _ => apply frame_pure; intros ?; split; reflexivity
  end.

Section StageProtocol.
Context {DataFrame : Type} `{!Collaborators DataFrame}.
Variable a : arguments.
Variable s : settings.

Ltac unfold_block :=
  unfold temp_table_block, source_agg_dq_block, source_query_dq_block,
    row_dq_block, final_agg_dq_block, final_query_dq_block, write_block,
    error_threshold_check, set_status, set_start_time, set_end_time,
    call_func_process, call_write_df_to_table.

Lemma frame_temp_table stg tn d : frame stg (temp_table_block a tn d).
Proof. unfold_block. repeat frame_step. Qed.

Lemma frame_write stg tn l : frame stg (write_block a s tn l).
Proof. unfold_block. repeat frame_step. Qed.

Lemma frame_source_agg stg l :
  stg ≠ source_agg → frame stg (source_agg_dq_block s l).
Proof. intros Hne. unfold_block. destruct stg; [done|..]; repeat frame_step. Qed.

Lemma frame_source_query stg l :
  stg ≠ source_query → frame stg (source_query_dq_block s l).
Proof. intros Hne. unfold_block. destruct stg; try done; repeat frame_step. Qed.

Lemma frame_row stg l : stg ≠ row → frame stg (row_dq_block s l).
Proof. intros Hne. unfold_block. destruct stg; try done; repeat frame_step. Qed.

Lemma frame_final_agg stg l :
  stg ≠ final_agg → frame stg (final_agg_dq_block s l).
Proof. intros Hne. unfold_block. destruct stg; try done; repeat frame_step. Qed.

Lemma frame_final_query stg l :
  stg ≠ final_query → frame stg (final_query_dq_block s l).
Proof. intros Hne. unfold_block. destruct stg; try done; repeat frame_step. Qed.

Lemma stage_protocol_eq stg r (evs evs' : list (event DataFrame)) v v' :
  stage_protocol stg r evs' v' → evs = evs' → v = v' →
  stage_protocol stg r evs v.
Proof. by intros ? -> ->. Qed.

Lemma view_eq (v v' : string) (b b' e e' : option nat) :
  v = v' → b = b' → e = e' → (v, b, e) = (v', b', e').
Proof. by intros -> -> ->. Qed.

Ltac solve_view Hst :=
  unfold stage_view in Hst |- *;
  let Hs := fresh in let Hb := fresh in let He := fresh in
  injection Hst as Hs Hb He;
  apply view_eq; first [reflexivity | exact Hs | exact Hb | exact He].

Ltac solve_protocol Hst :=
  cbn [app raised_exn ctx];
  first
    [ rewrite Hst; apply stage_not_run
    | eapply stage_protocol_eq;
      [ eapply stage_completed | reflexivity | solve_view Hst ]; lia
    | eapply stage_protocol_eq;
      [ eapply stage_evaluation_raised | reflexivity | solve_view Hst ]
    | eapply stage_protocol_eq;
      [ eapply stage_not_evaluated; reflexivity
      | reflexivity | solve_view Hst ] ].

Lemma protocol_source_agg l : protocol source_agg (source_agg_dq_block s l).
Proof.
  apply protocol_wp. intros st Hst. unfold_block. repeat wp_step.
  all: solve_protocol Hst.
Qed.

Lemma protocol_source_query l :
  protocol source_query (source_query_dq_block s l).
Proof.
  apply protocol_wp. intros st Hst. unfold_block. repeat wp_step.
  all: solve_protocol Hst.
Qed.

Lemma protocol_final_agg l : protocol final_agg (final_agg_dq_block s l).
Proof.
  apply protocol_wp. intros st Hst. unfold_block. repeat wp_step.
  all: solve_protocol Hst.
Qed.

Lemma protocol_final_query l :
  protocol final_query (final_query_dq_block s l).
Proof.
  apply protocol_wp. intros st Hst. unfold_block. repeat wp_step.
  all: solve_protocol Hst.
Qed.

Lemma protocol_row l : protocol row (row_dq_block s l).
Proof.
  apply protocol_wp. intros st Hst. unfold_block. repeat wp_step.
  all: solve_protocol Hst.
Qed.

Ltac frame_blocks :=
  repeat first
    [ apply frame_temp_table
    | apply frame_write
    | apply frame_source_agg; discriminate
    | apply frame_source_query; discriminate
    | apply frame_row; discriminate
    | apply frame_final_agg; discriminate
    | apply frame_final_query; discriminate
    | frame_step ].

Ltac skip_block := apply protocol_after_frame; [frame_blocks|intros ?].
Ltac own_block H :=
  apply protocol_before_frame; [apply H|intros ?; frame_blocks].

Lemma protocol_dq_stages stg tn d : protocol stg (dq_stages a s tn d).
Proof.
  unfold dq_stages. destruct stg.
  - do 2 skip_block. own_block protocol_source_agg.
  - do 3 skip_block. own_block protocol_source_query.
  - do 4 skip_block. own_block protocol_row.
  - do 5 skip_block. own_block protocol_final_agg.
  - do 6 skip_block. own_block protocol_final_query.
Qed.

Lemma reset_context_stage stg n st :
  let o := reset_context (DataFrame:=DataFrame) s n st in
  res o = Ok tt ∧
  stage_events stg (trace o) = [SetStatus stg "Skipped"] ∧
  stage_view stg (ctx (final o)) = ("Skipped", None, None).
Proof.
  apply (wp_run (reset_context s n)
           (λ r st' t', r = Ok tt ∧
              stage_events stg t' = [SetStatus stg "Skipped"] ∧
              stage_view stg (ctx st') = ("Skipped", None, None))).
  unfold reset_context, set_status. repeat wp_step.
  destruct stg; repeat split; reflexivity.
Qed.

Lemma protocol_apply stg {A} (m : M DataFrame A) st :
  protocol stg m →
  stage_view stg (ctx st) = ("Skipped", None, None) →
  stage_protocol stg (raised_exn (res (m st)))
    (stage_events stg (trace (m st))) (stage_view stg (ctx (final (m st)))).
Proof. intros Hm. apply Hm. Qed.

Lemma run_checks_stage stg tn n df st :
  wp (run_checks a s tn n df) (stage_post stg) st [].
Proof.
  apply wp_intro. right. unfold run_checks. rewrite bind_run.
  destruct (reset_context_stage stg n st) as (-> & Hev & Hview).
  cbn [res final trace]. rewrite stage_events_app, Hev. cbn [app].
  eexists. split; [reflexivity|].
  apply protocol_apply; [|exact Hview].
  apply protocol_before_frame.
  - destruct df; [apply protocol_dq_stages|..];
      apply frame_protocol; frame_step.
  - intros v. repeat frame_step.
Qed.
End StageProtocol.

(** ** Whole runs *)

Section MoreQuiet.
Context {DataFrame : Type}.
Lemma quiet_bind_raise (P : event DataFrame → Prop) {A B} e
    (f : A → M DataFrame B) :
  quiet P (raise e ≫= f).
Proof. intros st. rewrite bind_run. cbn. constructor. Qed.
End MoreQuiet.

Ltac quiet_step' :=
  lazymatch goal with
  | |- quiet _ (mbind _ (raise _)) => apply quiet_bind_raise
  | |- quiet _ (mbind _ (match ?x with _ => _ end)) => destruct x eqn:?
  | |- _ => quiet_step
  end.

Section WrapperRuns.
Context {DataFrame : Type} `{!Collaborators DataFrame}.
Variable a : arguments.
Variable s : settings.

Lemma wrapper_try_stage stg func st :
  let o := wrapper_try a s func st in
  stage_post stg (res o) (final o) (trace o).
Proof.
  apply (wp_run (wrapper_try a s func) (stage_post stg)).
  apply wp_wrapper_try. destruct func as [df|e]; [|by left].
  destruct (py_count df) as [n|e]; [|by left].
  apply run_checks_stage.
Qed.

Lemma wrapper_try_evaluations d st :
  let o := wrapper_try a s (Ok (RDataFrame d)) st in
  evaluations_post s (raw_dataset a (table_name (ctx st)) d)
    (res o) (final o) (trace o).
Proof.
  apply (wp_run (wrapper_try a s (Ok (RDataFrame d)))
           (evaluations_post s _)).
  apply wp_wrapper_try. apply run_checks_evaluations.
Qed.

Lemma reset_context_ok n st t :
  wp (reset_context (DataFrame:=DataFrame) s n)
     (λ r _ t', r = Ok tt ∧ evaluations t' = evaluations t) st t.
Proof.
  unfold reset_context, set_status. repeat wp_step.
  unfold evaluations. rewrite !omap_app. cbn. by rewrite !app_nil_r.
Qed.

Lemma wrapper_try_not_dataframe v st :
  is_dataframe v = false →
  let o := wrapper_try a s (Ok v) st in
  evaluations (trace o) = [] ∧
  match py_count v with
  | Ok _ => res o = Raised not_returned_error
  | Raised e => res o = Raised e ∧ trace o = []
  end.
Proof.
  intros Hv.
  apply (wp_run (wrapper_try a s (Ok v))
           (λ r _ t', evaluations t' = [] ∧
              match py_count v with
              | Ok _ => r = Raised not_returned_error
              | Raised e => r = Raised e ∧ t' = []
              end)).
  apply wp_wrapper_try. destruct (py_count v) as [n|e] eqn:Hn; [|done].
  unfold run_checks. apply wp_bind.
  eapply wp_mono; [apply reset_context_ok|].
  intros r st' t' [-> Hev]. destruct v; [done|..]; by repeat wp_step.
Qed.

Lemma wrapper_try_raised_func e st :
  let o := wrapper_try a s (Raised e) st in
  res o = Raised e ∧ trace o = [].
Proof.
  apply (wp_run (wrapper_try a s (Raised e))
           (λ r _ t', r = Raised e ∧ t' = [])).
  by apply wp_wrapper_try.
Qed.

Lemma quiet_wrapper_try_final_query_guarded func :
  quiet (final_query_guarded s) (wrapper_try a s func).
Proof.
  unfold_wrapper. unfold call_func_process, call_write_df_to_table.
  repeat quiet_step'; cbn; try done.
  all: split; [assumption|by eexists].
Qed.

Lemma elem_of_evaluations (t : list (event DataFrame)) stg i :
  (stg, i) ∈ evaluations t ↔ ∃ c out, Process stg i c out ∈ t.
Proof.
  unfold evaluations. rewrite list_elem_of_omap. split.
  - intros (ev & Hin & Hev). destruct ev; try done.
    injection Hev as -> ->. eauto.
  - intros (c & out & Hin). eauto.
Qed.

Lemma wrapper_processing_error func st e :
  res (wrapper_try a s func st) = Raised e →
  res (wrapper a s func st) = Raised (processing_error e).
Proof.
  intros He. destruct (wrapper_run a s func st) as (Hres & _).
  by rewrite Hres, He.
Qed.

(** C3: what a run leaves of a stage. Either the run ended before the
    context was reset, and nothing happened to the stage, or the stage was
    reset to [Skipped] and then: it did not run; or its status was set to
    [Failed], its start time recorded, it was evaluated, its status
    overwritten by the one the evaluation returned and its end time
    recorded, in this order; or the evaluation raised (or, for the final
    query stage, was not reached for lack of a view) and the stage is left
    [Failed] with a start time and no end time, the run raising the
    processing error that quotes the cause. *)
Theorem stage_lifecycle func st stg :
  let o := wrapper a s func st in
  stage_events stg (trace o) = [] ∨
  ∃ evs cause,
    stage_events stg (trace o) = SetStatus stg "Skipped" :: evs ∧
    stage_protocol stg cause evs (stage_view stg (ctx (final o))) ∧
    raised_exn (res o) = processing_error <$> cause.
Proof.
  intros o. destruct (wrapper_run a s func st) as (Hres & Hfin & Htr).
  fold o in Hres, Hfin, Htr. rewrite Htr, Hfin, Hres.
  destruct (wrapper_try_stage stg func st) as [Hnil|(evs & Hev & Hp)];
    [by left|right].
  exists evs, (raised_exn (res (wrapper_try a s func st))).
  split; [done|]. split; [done|].
  by destruct (res (wrapper_try a s func st)).
Qed.

(** C6, as the code behaves: when the decorated function returns a value
    that is not a dataframe, no stage is evaluated and the run raises a
    [SparkExpectationsMiscException]. Its message quotes the failure of
    [count()] when the value has no such method (nothing else is done then),
    and the dataframe-not-returned error otherwise: the dedicated exception
    never reaches the caller. *)
Theorem non_dataframe_is_processing_error v st :
  is_dataframe v = false →
  let o := wrapper a s (Ok v) st in
  evaluations (trace o) = [] ∧
  res o = Raised (processing_error
                    match py_count v with
                    | Ok _ => not_returned_error
                    | Raised e => e
                    end) ∧
  (is_ok (py_count v) = false → trace o = []).
Proof.
  intros Hv o. destruct (wrapper_run a s (Ok v) st) as (Hres & _ & Htr).
  fold o in Hres, Htr. rewrite Htr.
  destruct (wrapper_try_not_dataframe v st Hv) as [Hev Hr].
  split; [done|].
  destruct (py_count v) as [n|e].
  - split; [|done]. by apply wrapper_processing_error.
  - destruct Hr as [Hr Ht]. split; [|done].
    by apply wrapper_processing_error.
Qed.

Lemma wrapper_try_cases func st :
  (∃ d, func = Ok (RDataFrame d)) ∨
  evaluations (trace (wrapper_try a s func st)) = [] ∧
  ∃ e, res (wrapper_try a s func st) = Raised e.
Proof.
  destruct func as [v|e].
  - destruct (is_dataframe v) eqn:Hv.
    + left. destruct v; try done. eauto.
    + right. destruct (wrapper_try_not_dataframe v st Hv) as [Hev Hr].
      split; [done|]. destruct (py_count v); [eauto|].
      destruct Hr. eauto.
  - right. destruct (wrapper_try_raised_func e st) as [Hr Ht].
    rewrite Ht. split; [done|eauto].
Qed.

Ltac unfold_block :=
  unfold temp_table_block, source_agg_dq_block, source_query_dq_block,
    row_dq_block, final_agg_dq_block, final_query_dq_block, write_block,
    error_threshold_check, set_status, set_start_time, set_end_time,
    call_func_process, call_write_df_to_table.

Ltac explain :=
  unfold explained; cbn [raised_exn]; intros ? [= <-];
  first
    [ right; left; eexists; split;
      [apply elem_of_app; right; apply list_elem_of_here|reflexivity]
    | right; right; split; [assumption|eassumption]
    | left; split; [reflexivity|eexists; apply last_snoc] ].

Ltac explained_block :=
  unfold_block; repeat wp_step; first [by intros ? [=]|explain].

Lemma temp_explained tn (d : DataFrame) st t :
  wp (temp_table_block a tn d) (explained s) st t.
Proof. explained_block. Qed.

Lemma source_agg_explained l st t :
  wp (source_agg_dq_block s l) (explained s) st t.
Proof. explained_block. Qed.

Lemma source_query_explained l st t :
  wp (source_query_dq_block s l) (explained s) st t.
Proof. explained_block. Qed.

Lemma row_explained l st t :
  wp (row_dq_block s l) (explained s) st t.
Proof. explained_block. Qed.

Lemma final_agg_explained l st t :
  wp (final_agg_dq_block s l) (explained s) st t.
Proof. explained_block. Qed.

Lemma final_query_explained l st t :
  wp (final_query_dq_block s l) (explained s) st t.
Proof. explained_block. Qed.

Lemma write_explained tn l st t :
  wp (write_block a s tn l) (explained s) st t.
Proof.
  unfold_block. repeat wp_step; [|by intros ? [=]].
  intros e He. right. left. eexists. split.
  - apply elem_of_app. right. apply list_elem_of_here.
  - cbn [event_error]. by destruct (write_df_to_table _ _ _).
Qed.

Lemma dq_stages_explained tn d st t :
  wp (dq_stages a s tn d) (explained s) st t.
Proof.
  unfold dq_stages. wp_step.
  apply wp_bind. eapply wp_mono; [apply temp_explained|].
  intros [d'|e] st0 t0 H0; cbv beta iota; [|exact H0].
  apply wp_bind. eapply wp_mono; [apply source_agg_explained|].
  intros [l1|e] st1 t1 H1; cbv beta iota; [|exact H1].
  apply wp_bind. eapply wp_mono; [apply source_query_explained|].
  intros [l2|e] st2 t2 H2; cbv beta iota; [|exact H2].
  apply wp_bind. eapply wp_mono; [apply row_explained|].
  intros [l3|e] st3 t3 H3; cbv beta iota; [|exact H3].
  apply wp_bind. eapply wp_mono; [apply final_agg_explained|].
  intros [l4|e] st4 t4 H4; cbv beta iota; [|exact H4].
  apply wp_bind. eapply wp_mono; [apply final_query_explained|].
  intros [l5|e] st5 t5 H5; cbv beta iota; [|exact H5].
  apply wp_bind. eapply wp_mono; [apply write_explained|].
  intros [[]|e] st6 t6 H6; cbv beta iota; [|exact H6].
  wp_step. by intros ? [=].
Qed.

Lemma wrapper_try_explained d st :
  let o := wrapper_try a s (Ok (RDataFrame d)) st in
  ∀ e, res o = Raised e → raise_cause s e (ctx (final o)) (trace o).
Proof.
  intros o e He.
  assert (wp (wrapper_try a s (Ok (RDataFrame d))) (explained s) st [])
    as Hwp.
  { apply wp_wrapper_try. cbn [py_count]. unfold run_checks.
    apply wp_bind. eapply wp_mono; [apply reset_context_ok|].
    intros r st0 t0 [-> _]. cbv beta iota.
    apply wp_bind. eapply wp_mono; [apply dq_stages_explained|].
    intros [v|e'] st1 t1 H1; cbv beta iota; [|exact H1].
    repeat wp_step. by intros ? [=]. }
  apply wp_run in Hwp. apply Hwp. fold o. by rewrite He.
Qed.

(** C5, amended: when the final query stage is to run (row_dq, query_dq and
    target_query_dq enabled) and there is no view name or the row stage
    produced no dataframe, the final query stage is never evaluated and the
    run raises a processing error. What it quotes is the configuration error
    "final table view name is not supplied to run query dq", raised right
    after the final query stage was started, unless the run failed before
    that: a call of a stage, of the writer or of the notification raised,
    the output percentage of the breach check could not be computed, the
    decorated function raised, or what it returned is not a dataframe. *)
Theorem final_query_needs_view func st :
  stage_enabled s final_query = true →
  let o := wrapper a s func st in
  str_truthy (_target_table_view s) = false ∨ row_output (trace o) = None →
  (∀ i c out, Process final_query i c out ∉ trace o) ∧
  ∃ cause,
    res o = Raised (processing_error cause) ∧
    ((cause = view_error ∧
      ∃ t, last (trace o) = Some (SetStartTime final_query t)) ∨
     (∃ ev, ev ∈ trace o ∧ event_error ev = Some cause) ∨
     (_notification_on_error_drop_exceeds_threshold_breach s = true ∧
      get_output_percentage (ctx (final o)) = Raised cause) ∨
     func = Raised cause ∨
     (∃ v, func = Ok v ∧ is_dataframe v = false ∧
           cause = match py_count v with
                   | Ok _ => not_returned_error
                   | Raised e => e
                   end)).
Proof.
  intros Hen o Hview.
  destruct (wrapper_run a s func st) as (Hres & Hfin & Htr).
  fold o in Hres, Hfin, Htr. rewrite Htr, Hfin in *. clear Htr Hfin.
  assert (∀ i c out,
            Process final_query i c out ∉ trace (wrapper_try a s func st))
    as Hno.
  { intros i c out Hin.
    pose proof (quiet_wrapper_try_final_query_guarded func st) as Hq.
    rewrite Forall_forall in Hq. destruct (Hq _ Hin) as [Hv [d' ->]].
    destruct Hview as [Hview|Hview]; [congruence|].
    assert ((final_query, Some d')
              ∈ evaluations (trace (wrapper_try a s func st))) as He
      by (apply elem_of_evaluations; eauto).
    destruct (wrapper_try_cases func st) as [[d ->]|[Hnil _]].
    - destruct (wrapper_try_evaluations d st) as [Hp _].
      rewrite Hview in Hp.
      apply (elem_of_prefix _ _ _ He) in Hp.
      apply elem_of_expected_evaluations in Hp as [_ [=]].
    - rewrite Hnil in He. inversion He. }
  split; [done|].
  destruct func as [v|e0].
  - destruct (is_dataframe v) eqn:Hv.
    + destruct v as [d| | |]; try discriminate Hv.
      destruct (res (wrapper_try a s (Ok (RDataFrame d)) st))
        as [v|e] eqn:Hr.
      * exfalso.
        destruct (wrapper_try_evaluations d st) as [_ Hev].
        destruct (Hev v Hr) as [_ Hev'].
        assert ((final_query, v)
                  ∈ evaluations
                      (trace (wrapper_try a s (Ok (RDataFrame d)) st)))
          as He.
        { rewrite Hev'. apply elem_of_expected_evaluations. done. }
        apply elem_of_evaluations in He as (c & out & Hin).
        by apply (Hno v c out).
      * exists e. split; [by apply wrapper_processing_error|].
        destruct (wrapper_try_explained d st e Hr) as [Hc|[Hc|Hc]]; tauto.
    + exists (match py_count v with
              | Ok _ => not_returned_error
              | Raised e => e
              end).
      split; [|do 4 right; by exists v].
      apply wrapper_processing_error.
      destruct (wrapper_try_not_dataframe v st Hv) as [_ Hr].
      destruct (py_count v); [done|by destruct Hr].
  - exists e0. split; [|tauto].
    apply wrapper_processing_error.
    by destruct (wrapper_try_raised_func e0 st).
Qed.
End WrapperRuns.

(** ** The threshold check *)

Section BreachFacts.
Context {DataFrame : Type} `{!Collaborators DataFrame}.
Variable a : arguments.
Variable s : settings.

Lemma breach_events_app (t1 t2 : list (event DataFrame)) :
  breach_events (t1 ++ t2) = breach_events t1 ++ breach_events t2.
Proof. apply filter_app. Qed.

Lemma breach_events_quiet (t : list (event DataFrame)) :
  Forall no_breach_event t → breach_events t = [].
Proof.
  induction 1 as [|ev t Hev _ IH]; [done|].
  unfold breach_events in *. rewrite filter_cons_False; [done|].
  unfold no_breach_event in Hev. by rewrite Hev.
Qed.

Lemma breach_check_counts c c' :
  counts c = counts c' → breach_check s c = breach_check s c'.
Proof.
  unfold counts, breach_check, get_output_percentage. by intros [= -> ->].
Qed.

Lemma wp_pending_stable {A} (m : M DataFrame A) st t :
  quiet no_breach_event m →
  breach_events t = [] →
  wp m (λ _ _ t', breach_events t' = []) st t.
Proof.
  intros Hm Ht. unfold wp.
  by rewrite breach_events_app, Ht, (breach_events_quiet _ (Hm st)).
Qed.

Lemma wp_threshold_stable {A B} (m : M DataFrame A) (r0 : result B) st t :
  quiet no_breach_event m →
  (∀ nk, keeps (λ c, counts c = nk) m) →
  threshold_post s r0 st t →
  wp m (threshold_post s) st t.
Proof.
  intros Hq Hk Hpost. unfold wp, threshold_post in *.
  rewrite breach_events_app, (breach_events_quiet _ (Hq st)), app_nil_r.
  rewrite (breach_check_counts (ctx (final (m st))) (ctx st)); [done|].
  by apply (Hk (counts (ctx st)) st).
Qed.

Ltac unfold_block :=
  unfold temp_table_block, source_agg_dq_block, source_query_dq_block,
    row_dq_block, final_agg_dq_block, final_query_dq_block, write_block,
    error_threshold_check, set_status, set_start_time, set_end_time,
    call_func_process, call_write_df_to_table.

Ltac rewrite_check :=
  cbn [ctx]; unfold id in *; unfold breach_check;
  repeat match goal with
         | H : _notification_on_error_drop_exceeds_threshold_breach s = _
           |- _ => rewrite H
         | H : get_output_percentage _ = _ |- _ => rewrite H
         | H : Qle_bool _ _ = _ |- _ => rewrite H
         end.

Lemma row_threshold l st t :
  breach_events t = [] →
  wp (row_dq_block s l) (threshold_post s) st t.
Proof.
  intros Ht. unfold_block. repeat wp_step.
  all: unfold threshold_post; rewrite ?breach_events_app, Ht; cbn [app].
  all: first [by left | right; eexists].
  all: unfold breach_shape; rewrite_check; cbn [andb].
  all: first [reflexivity | eexists; reflexivity].
Qed.

Lemma quiet_no_breach_reset n :
  quiet no_breach_event (reset_context (DataFrame:=DataFrame) s n).
Proof. unfold reset_context, set_status. repeat quiet_step; done. Qed.

Lemma quiet_no_breach_temp tn d :
  quiet no_breach_event (temp_table_block a tn d).
Proof. unfold_block. repeat quiet_step; done. Qed.

Lemma quiet_no_breach_source_agg l :
  quiet no_breach_event (source_agg_dq_block s l).
Proof. unfold_block. repeat quiet_step; done. Qed.

Lemma quiet_no_breach_source_query l :
  quiet no_breach_event (source_query_dq_block s l).
Proof. unfold_block. repeat quiet_step; done. Qed.

Lemma quiet_no_breach_after_row tn l :
  quiet no_breach_event (after_row a s tn l).
Proof.
  unfold after_row. unfold_block. repeat quiet_step'; done.
Qed.

Lemma keeps_counts_after_row nk tn l :
  keeps (λ c, counts c = nk) (after_row a s tn l).
Proof.
  unfold after_row. unfold_block.
  repeat keeps_step; try (intros c Hc; exact Hc).
Qed.

Lemma dq_stages_threshold tn d st t :
  breach_events t = [] →
  wp (dq_stages a s tn d) (threshold_post s) st t.
Proof.
  intros Ht. unfold dq_stages. wp_step.
  apply wp_bind. eapply wp_mono;
    [apply wp_pending_stable; [apply quiet_no_breach_temp|done]|].
  cbn [ctx clock]. intros [d'|e] st0 t0 Ht0; cbv beta iota; [|by left].
  apply wp_bind. eapply wp_mono;
    [apply wp_pending_stable; [apply quiet_no_breach_source_agg|done]|].
  intros [l1|e] st1 t1 Ht1; cbv beta iota; [|by left].
  apply wp_bind. eapply wp_mono;
    [apply wp_pending_stable; [apply quiet_no_breach_source_query|done]|].
  intros [l2|e] st2 t2 Ht2; cbv beta iota; [|by left].
  apply wp_bind. eapply wp_mono; [by apply row_threshold|].
  intros [l3|e] st3 t3 Ht3; cbv beta iota; [|done].
  apply (wp_threshold_stable (after_row a s tn l3) (Ok l3));
    [apply quiet_no_breach_after_row
    |intros nk; apply keeps_counts_after_row
    |done].
Qed.

Lemma run_checks_threshold tn n df st :
  wp (run_checks a s tn n df) (threshold_post s) st [].
Proof.
  unfold run_checks.
  apply wp_bind. eapply wp_mono;
    [apply wp_pending_stable; [apply quiet_no_breach_reset|done]|].
  intros [[]|e] st0 t0 Ht0; cbv beta iota; [|by left].
  apply wp_bind.
  eapply (wp_mono _ (threshold_post s)).
  { destruct df; [by apply dq_stages_threshold|..];
      apply wp_raise; by left. }
  intros [v|e] st1 t1 Ht1; cbv beta iota; [|done].
  apply (wp_threshold_stable _ (Ok v)); [| |done].
  - repeat quiet_step; done.
  - intros nk. repeat keeps_step.
Qed.

Lemma wrapper_try_threshold func st :
  let o := wrapper_try a s func st in
  threshold_post s (res o) (final o) (trace o).
Proof.
  apply (wp_run (wrapper_try a s func) (threshold_post s)).
  apply wp_wrapper_try. destruct func as [df|e]; [|by left].
  destruct (py_count df) as [n|e]; [|by left].
  apply run_checks_threshold.
Qed.

Lemma breach_check_spec c :
  breach_check s c = true ↔
  _notification_on_error_drop_exceeds_threshold_breach s = true ∧
  ∃ p, get_output_percentage c = Ok p ∧
       (inject_Z (_error_drop_threshold s) <= 100 - p)%Q.
Proof.
  unfold breach_check. rewrite andb_true_iff.
  destruct (get_output_percentage c) as [p|e].
  - rewrite Qle_bool_iff. split.
    + intros [? ?]. eauto.
    + intros [? (p' & [= <-] & ?)]. done.
  - split; [by intros [_ ?]|by intros [_ (p & ? & _)]].
Qed.
End BreachFacts.

Section SimFacts.
Context {DataFrame : Type} `{!Collaborators DataFrame}.
Local Abbreviation M := (M DataFrame).

Lemma without_notifications_app (t1 t2 : list (event DataFrame)) :
  without_notifications (t1 ++ t2)
  = without_notifications t1 ++ without_notifications t2.
Proof. apply filter_app. Qed.

Lemma without_notifications_quiet (t : list (event DataFrame)) :
  Forall not_notification t → without_notifications t = t.
Proof.
  induction 1 as [|ev t Hev _ IH]; [done|].
  unfold without_notifications in *.
  rewrite filter_cons_True by done. by rewrite IH.
Qed.

Lemma not_elem_of_quiet (t : list (event DataFrame)) out :
  Forall not_notification t → NotifyOnExceedsOfErrorThreshold out ∉ t.
Proof.
  intros Ht Hin. rewrite Forall_forall in Ht. by specialize (Ht _ Hin).
Qed.

Lemma sim_quiet {A} (m : M A) : quiet not_notification m → sim m m.
Proof.
  intros Hm st. left. repeat split.
  by apply without_notifications_quiet.
Qed.

Lemma sim_bind_quiet {A B} (m : M A) (f f' : A → M B) :
  quiet not_notification m → (∀ x, sim (f x) (f' x)) →
  sim (m ≫= f) (m ≫= f').
Proof.
  intros Hm Hf st. rewrite !bind_run.
  destruct (res (m st)) as [x|e]; cbn [res final trace].
  - destruct (Hf x (final (m st))) as [(Hr & Hfin & Ht)|[Hr Hn]].
    + left. unfold agree. cbn [res final trace].
      rewrite without_notifications_app, Ht,
        (without_notifications_quiet _ (Hm st)). done.
    + right. split; [done|]. intros u. rewrite elem_of_app.
      intros [Hin|Hin]; [|by apply (Hn u)].
      by apply (not_elem_of_quiet _ _ (Hm st)) in Hin.
  - left. unfold agree. cbn [res final trace].
    by rewrite (without_notifications_quiet _ (Hm st)).
Qed.

Lemma sim_bind_rest {A B} (m m' : M A) (f : A → M B) :
  sim m m' → (∀ x, quiet not_notification (f x)) →
  sim (m ≫= f) (m' ≫= f).
Proof.
  intros Hm Hf st. rewrite !bind_run.
  destruct (Hm st) as [(Hr & Hfin & Ht)|[Hr Hn]].
  - left. rewrite <- Hr, <- Hfin.
    destruct (res (m st)) as [x|e]; unfold agree; cbn [res final trace].
    + rewrite without_notifications_app, Ht,
        (without_notifications_quiet _ (Hf x (final (m st)))). done.
    + done.
  - right. destruct (res (m st)) as [x|e]; [done|]. done.
Qed.

Lemma sim_if {A} (b : bool) (m1 m1' m2 m2' : M A) :
  sim m1 m1' → sim m2 m2' →
  sim (if b then m1 else m2) (if b then m1' else m2').
Proof. by destruct b. Qed.

Lemma sim_check (s s' : settings) :
  _notification_on_error_drop_exceeds_threshold_breach s' = false →
  sim (error_threshold_check s) (error_threshold_check s').
Proof.
  intros Hs' st. unfold error_threshold_check. rewrite Hs'.
  destruct (_notification_on_error_drop_exceeds_threshold_breach s);
    [|by left].
  rewrite bind_run. cbn [gets res final trace]. unfold id.
  rewrite bind_run.
  destruct (get_output_percentage (ctx st)) as [p|e];
    cbn [lift ret raise res final trace app].
  - destruct (Qle_bool (inject_Z (_error_drop_threshold s)) (100 - p));
      [|by left].
    rewrite bind_run. cbn [emit res final trace].
    destruct (notify_on_exceeds_of_error_threshold (ctx st)) as [[]|e];
      cbn [lift ret raise res final trace app].
    + by left.
    + right. split; [done|]. intros u Hin.
      apply list_elem_of_singleton in Hin. discriminate Hin.
  - right. split; [done|]. by intros u ?%elem_of_nil.
Qed.
End SimFacts.

Ltac sim_step :=
  lazymatch goal with
  | |- sim (mbind _ (error_threshold_check _)) _ =>
      apply sim_bind_rest;
      [apply sim_check; reflexivity|intros ?; repeat quiet_step; done]
  | |- sim (mbind _ (row_dq_block _ _)) _ => fail
  | |- sim (mbind _ _) _ =>
      apply sim_bind_quiet; [repeat quiet_step'; done|intros ?]
  | |- sim (if ?b then _ else _) _ => destruct b
  | |- sim (match ?x with _ => _ end) _ => destruct x
  | |- sim _ _ => apply sim_quiet; repeat quiet_step'; done
  end.

Section Threshold.
Context {DataFrame : Type} `{!Collaborators DataFrame}.
Variable a : arguments.
Variable s : settings.

Ltac unfold_but_check :=
  unfold wrapper_try, run_checks, dq_stages, reset_context,
    temp_table_block, source_agg_dq_block, source_query_dq_block,
    final_agg_dq_block, final_query_dq_block, write_block,
    set_status, set_start_time, set_end_time,
    call_func_process, call_write_df_to_table.

Ltac simpl_settings :=
  unfold without_breach_notification;
  cbn [_row_dq _agg_dq _source_agg_dq _target_agg_dq _query_dq
       _source_query_dq _target_query_dq _target_table_view
       _error_drop_threshold].

Lemma sim_row l :
  sim (row_dq_block s l) (row_dq_block (without_breach_notification s) l).
Proof.
  unfold row_dq_block. unfold_but_check. simpl_settings.
  repeat sim_step.
Qed.

Lemma quiet_after_row_not_notification tn l :
  quiet not_notification (after_row a s tn l).
Proof.
  unfold after_row. unfold_but_check. repeat quiet_step'; done.
Qed.

Lemma sim_wrapper_try func :
  sim (wrapper_try a s func)
      (wrapper_try a (without_breach_notification s) func).
Proof.
  unfold wrapper_try, run_checks.
  do 4 (apply sim_bind_quiet;
        [unfold_but_check; repeat quiet_step'; done|intros ?]).
  apply sim_bind_rest; [|intros ?; repeat quiet_step'; done].
  destruct x; [|apply sim_quiet; repeat quiet_step'; done..].
  unfold dq_stages.
  do 4 (apply sim_bind_quiet;
        [unfold_but_check; repeat quiet_step'; done|intros ?]).
  apply sim_bind_rest; [apply sim_row|].
  intros l. apply (quiet_after_row_not_notification x0 l).
Qed.

Lemma elem_of_breach_events (t : list (event DataFrame)) ev :
  ev ∈ breach_events t ↔ breach_event ev = true ∧ ev ∈ t.
Proof.
  exact (list_elem_of_filter (λ ev, breach_event ev = true) t ev).
Qed.

(** C4, amended: the notification of a threshold breach is sent exactly
    when the row stage came to its end, breach notifications are enabled
    and 100 minus the output percentage of the context is at least the
    error drop threshold; it is sent at most once and after the end of the
    row stage. The breach itself raises nothing: when the notification
    returns, the run ends as the same run with breach notifications
    switched off does (the same result, the same context, the same calls
    but for the notification); when the notification raises, the run ends
    at that call with the processing error that quotes its exception. *)
Theorem threshold_breach_notification func st :
  let o := wrapper a s func st in
  let o' := wrapper a (without_breach_notification s) func st in
  ((∃ out, NotifyOnExceedsOfErrorThreshold out ∈ trace o) ↔
     (∃ t, SetEndTime row t ∈ trace o) ∧
     _notification_on_error_drop_exceeds_threshold_breach s = true ∧
     ∃ p, get_output_percentage (ctx (final o)) = Ok p ∧
          (inject_Z (_error_drop_threshold s) <= 100 - p)%Q) ∧
  (breach_events (trace o) = [] ∨
   ∃ t, if breach_check s (ctx (final o))
        then ∃ out, breach_events (trace o) =
                      [SetEndTime row t; NotifyOnExceedsOfErrorThreshold out]
        else breach_events (trace o) = [SetEndTime row t]) ∧
  (∀ u, NotifyOnExceedsOfErrorThreshold (Ok u) ∈ trace o →
        res o = res o' ∧ final o = final o' ∧
        without_notifications (trace o) = trace o') ∧
  (∀ e, NotifyOnExceedsOfErrorThreshold (Raised e) ∈ trace o →
        res o = Raised (processing_error e) ∧
        last (trace o) = Some (NotifyOnExceedsOfErrorThreshold (Raised e))).
Proof.
  intros o o'.
  destruct (wrapper_run a s func st) as (Hres & Hfin & Htr).
  destruct (wrapper_run a (without_breach_notification s) func st)
    as (Hres' & Hfin' & Htr').
  fold o in Hres, Hfin, Htr. fold o' in Hres', Hfin', Htr'.
  rewrite Hfin, Htr, Hfin', Htr'.
  pose proof (wrapper_try_threshold a s func st) as Hpost.
  unfold threshold_post, breach_shape in Hpost.
  split; [|split; [exact Hpost|split]].
  - rewrite <- breach_check_spec.
    destruct Hpost as [Hnil|[t Ht]].
    + split.
      * intros [out Hin].
        assert (NotifyOnExceedsOfErrorThreshold out
                  ∈ breach_events (trace (wrapper_try a s func st)))
          as Hin' by (by apply elem_of_breach_events).
        rewrite Hnil in Hin'. inversion Hin'.
      * intros [[t Hin] _].
        assert (SetEndTime row t
                  ∈ breach_events (trace (wrapper_try a s func st)))
          as Hin' by (by apply elem_of_breach_events).
        rewrite Hnil in Hin'. inversion Hin'.
    + destruct (breach_check s _) eqn:Hb.
      * destruct Ht as [out Ht]. split; [intros _|intros _].
        -- split; [|done]. exists t.
           apply (elem_of_breach_events _ (SetEndTime row t)).
           rewrite Ht. left.
        -- exists out.
           apply (elem_of_breach_events
                    _ (NotifyOnExceedsOfErrorThreshold out)).
           rewrite Ht. right. left.
      * split; [|by intros [_ ?]]. intros [out Hin].
        assert (NotifyOnExceedsOfErrorThreshold out
                  ∈ breach_events (trace (wrapper_try a s func st)))
          as Hin' by (by apply elem_of_breach_events).
        rewrite Ht in Hin'.
        apply list_elem_of_singleton in Hin'. discriminate Hin'.
  - intros u Hin. rewrite Hres, Hres'.
    destruct (sim_wrapper_try func st) as [(Hr & Hf & Ht)|[_ Hn]];
      [|by destruct (Hn u)].
    rewrite Hr, Hf, Ht. split; [reflexivity|]. split; reflexivity.
  - intros e Hin.
    destruct (faithful_wrapper_try a s func st
                (NotifyOnExceedsOfErrorThreshold (Raised e)) e eq_refl Hin)
      as [Hr Hl].
    split; [by apply wrapper_processing_error|done].
Qed.
End Threshold.

(** ** The notification settings *)

Section NotificationSettingsProps.
Context `{UserConfig}.

Lemma user_config_keys_ne :
  se_notifications_on_start ≠ se_notifications_on_completion ∧
  se_notifications_on_start ≠ se_notifications_on_fail ∧
  se_notifications_on_start ≠
    se_notifications_on_error_drop_exceeds_threshold_breach ∧
  se_notifications_on_start ≠ se_notifications_on_error_drop_threshold ∧
  se_notifications_on_completion ≠ se_notifications_on_fail ∧
  se_notifications_on_completion ≠
    se_notifications_on_error_drop_exceeds_threshold_breach ∧
  se_notifications_on_completion ≠
    se_notifications_on_error_drop_threshold ∧
  se_notifications_on_fail ≠
    se_notifications_on_error_drop_exceeds_threshold_breach ∧
  se_notifications_on_fail ≠ se_notifications_on_error_drop_threshold ∧
  se_notifications_on_error_drop_exceeds_threshold_breach ≠
    se_notifications_on_error_drop_threshold.
Proof.
  pose proof user_config_keys_distinct as Hd.
  repeat match goal with
         | H : NoDup (_ :: _) |- _ => apply NoDup_cons in H as [? ?]
         end.
  set_solver.
Qed.

Lemma default_notification_dict_lookup :
  _default_notification_dict !! se_notifications_on_start
    = Some (PyBool false) ∧
  _default_notification_dict !! se_notifications_on_completion
    = Some (PyBool false) ∧
  _default_notification_dict !! se_notifications_on_fail
    = Some (PyBool true) ∧
  _default_notification_dict
    !! se_notifications_on_error_drop_exceeds_threshold_breach
    = Some (PyBool false) ∧
  _default_notification_dict !! se_notifications_on_error_drop_threshold
    = Some (PyInt 100).
Proof.
  destruct user_config_keys_ne as (?&?&?&?&?&?&?&?&?&?).
  unfold _default_notification_dict.
  repeat split; by simplify_map_eq.
Qed.

Lemma notification_dict_lookup conf k :
  _notification_dict conf !! k =
    match supplied conf k with
    | Some v => Some v
    | None => _default_notification_dict !! k
    end.
Proof.
  unfold _notification_dict, supplied, dict_truthy.
  destruct conf as [c|]; [|done].
  case_bool_decide as Hc; cbn.
  - subst c. by rewrite lookup_empty.
  - rewrite lookup_union. destruct (c !! k); [|by rewrite (left_id None _)].
    by destruct (_default_notification_dict !! k).
Qed.

Lemma notification_flag_effective conf k dflt :
  _default_notification_dict !! k = Some (PyBool dflt) →
  notification_flag (_notification_dict conf) k
    = effective_flag (supplied conf k) dflt.
Proof.
  intros Hk. unfold notification_flag.
  rewrite notification_dict_lookup.
  destruct (supplied conf k) as [[]|]; [done..|].
  by rewrite Hk.
Qed.

(** C10: the notification settings are [spark_conf] merged over the
    defaults: a key of [spark_conf] wins, a key it lacks has its default.
    The flags on start, on completion and on a threshold breach default to
    false, the flag on fail to true and the threshold to 100; a supplied
    flag that is not a [bool] gives false and a supplied threshold that is
    not an [int] gives 100. *)
Theorem notification_settings a rules_execution_settings :
  let s := _except a rules_execution_settings in
  let conf := spark_conf a in
  (∀ k, _notification_dict conf !! k =
          match supplied conf k with
          | Some v => Some v
          | None => _default_notification_dict !! k
          end) ∧
  _notification_on_start s
    = effective_flag (supplied conf se_notifications_on_start) false ∧
  _notification_on_completion s
    = effective_flag (supplied conf se_notifications_on_completion) false ∧
  _notification_on_fail s
    = effective_flag (supplied conf se_notifications_on_fail) true ∧
  _notification_on_error_drop_exceeds_threshold_breach s
    = effective_flag
        (supplied conf
           se_notifications_on_error_drop_exceeds_threshold_breach) false ∧
  _error_drop_threshold s
    = effective_threshold
        (supplied conf se_notifications_on_error_drop_threshold).
Proof.
  destruct default_notification_dict_lookup as (Hs & Hc & Hf & Hb & Ht).
  cbn. split; [apply notification_dict_lookup|].
  repeat split; try by apply notification_flag_effective.
  unfold notification_threshold. rewrite notification_dict_lookup.
  destruct (supplied _ _) as [[| [] | |]|]; try done.
  by rewrite Ht.
Qed.
End NotificationSettingsProps.

(** ** The rules that exceed their threshold *)

Section WriterFacts.
Import Writer.

Lemma threshold_entries_empty_input counts rules :
  (∃ r n, r ∈ rules ∧ enable_error_drop_alert r = true ∧
          counts !! rule r = Some n) →
  threshold_entries 0 counts rules
  = Raised (Exn ZeroDivisionError "division by zero").
Proof.
  induction rules as [|r rules IH]; intros (r' & n & Hin & Hen & Hn).
  - by apply elem_of_nil in Hin.
  - cbn [threshold_entries]. unfold error_drop_percentage. cbn [Z.eqb].
    destruct (enable_error_drop_alert r) eqn:Hen';
      [destruct (counts !! rule r) as [n'|] eqn:Hn'; [done|]|].
    all: apply IH; exists r', n; split; [|done].
    all: apply elem_of_cons in Hin as [->|Hin]; [congruence|done].
Qed.

Lemma failed_counts_complete summary :
  Forall complete summary →
  ∃ counts, failed_counts summary = Ok counts ∧
    ∀ name,
      match counts !! name with
      | Some n => summarised summary name n
      | None => Some name ∉ summary_rule <$> summary
      end.
Proof.
  induction 1 as [|e rest [[r0 Hr0] [n0 Hn0]] _ (m & IH & Hm)].
  - exists ∅. split; [done|]. intros name. rewrite lookup_empty.
    by intros ?%elem_of_nil.
  - exists (<[r0 := n0]> m). cbn [failed_counts]. rewrite Hr0, Hn0, IH.
    split; [done|]. intros name.
    destruct (decide (r0 = name)) as [->|Hne].
    + rewrite lookup_insert_eq. exists [], rest. split.
      * destruct e. cbn in *. by subst.
      * by intros ?%elem_of_nil.
    + rewrite lookup_insert_ne by done. specialize (Hm name).
      destruct (m !! name) as [n|].
      * destruct Hm as (pre & post & -> & Hpre).
        exists (e :: pre), post. split; [done|].
        cbn. rewrite Hr0. intros [?|?]%elem_of_cons; [congruence|done].
      * cbn. rewrite Hr0. intros [?|?]%elem_of_cons; [congruence|done].
Qed.

Lemma failed_counts_incomplete summary :
  Exists (λ e, summary_rule e = None ∨ failed_row_count e = None) summary →
  ∃ x, failed_counts summary = Raised x.
Proof.
  induction summary as [|e rest IH]; intros Hex; [by inversion Hex|].
  cbn [failed_counts].
  destruct (summary_rule e) as [r0|] eqn:Hr0; [|eauto].
  destruct (failed_row_count e) as [n0|] eqn:Hn0; [|eauto].
  apply Exists_cons in Hex as [[?|?]|Hex]; [congruence..|].
  destruct (IH Hex) as [x ->]. eauto.
Qed.

Lemma percentage_tenths_nearest n i :
  (0 < i)%Z → one_decimal_place n i (percentage_tenths n i).
Proof.
  intros Hi. unfold one_decimal_place, percentage_tenths.
  pose proof (Z.div_mod (2000 * n + i) (2 * i) ltac:(lia)) as Hdm.
  pose proof (Z.mod_pos_bound (2000 * n + i) (2 * i) ltac:(lia)) as Hb.
  nia.
Qed.

Lemma threshold_entries_exact input_count summary counts rules :
  (0 < input_count)%Z →
  (∀ name,
     match counts !! name with
     | Some n => summarised summary name n
     | None => Some name ∉ summary_rule <$> summary
     end) →
  ∃ out, threshold_entries input_count counts rules = Ok out ∧
         Forall2 (is_entry_of input_count summary)
           (filter (alerted summary) rules) out.
Proof.
  intros Hi Hc. induction rules as [|r rules (out & IH & Hout)].
  - exists []. split; [done|]. constructor.
  - cbn [threshold_entries]. rewrite IH. unfold error_drop_percentage.
    destruct (input_count =? 0)%Z eqn:Hz; [lia|].
    pose proof (Hc (rule r)) as Hr.
    destruct (enable_error_drop_alert r) eqn:Hen;
      [destruct (counts !! rule r) as [n|] eqn:Hn|].
    + eexists. split; [reflexivity|].
      rewrite filter_cons_True.
      2: { split; [done|]. destruct Hr as (pre & post & -> & _).
           rewrite fmap_app. apply elem_of_app. right. left. }
      constructor; [|done]. repeat split; try reflexivity.
      exists n, (percentage_tenths n input_count).
      split; [done|]. split; [by apply percentage_tenths_nearest|done].
    + exists out. split; [done|].
      rewrite filter_cons_False; [done|]. by intros [_ ?].
    + exists out. split; [done|].
      rewrite filter_cons_False; [done|]. intros [? _]. congruence.
Qed.

Lemma alerted_counted summary (counts : gmap string Z) rules :
  (∀ name,
     match counts !! name with
     | Some n => summarised summary name n
     | None => Some name ∉ summary_rule <$> summary
     end) →
  Exists (alerted summary) rules →
  ∃ r n, r ∈ rules ∧ enable_error_drop_alert r = true ∧
         counts !! rule r = Some n.
Proof.
  intros Hc Hex. apply Exists_exists in Hex as (r & Hin & Hen & Hs).
  specialize (Hc (rule r)). destruct (counts !! rule r) as [n|] eqn:Hn.
  - eauto.
  - done.
Qed.

(** C7, amended: without a summary nothing is computed and no error is
    raised. With a summary whose entries all have their rule and count, and
    a positive input count, the list is, in the order of the rules, one
    entry for each rule with the alert enabled for which the summary has an
    entry: the fields of the rule, and failed_count / input_count * 100
    written with one decimal place (the nearest tenth), whatever the rule's
    own threshold. An input count of zero with such a rule, absent rules,
    and a summary entry without its rule or count are errors, raised as a
    [SparkExpectationsMiscException] whose message starts with "An error
    occurred while creating error threshold list : ". *)
Theorem rules_exceeds_threshold_entries input_count summary rules :
  (∀ rs, generate_rules_exceeds_threshold input_count None rs = Ok None) ∧
  (Forall complete summary →
   ((0 < input_count)%Z →
    ∃ out,
      generate_rules_exceeds_threshold input_count (Some summary)
        (Some rules) = Ok (Some out) ∧
      Forall2 (is_entry_of input_count summary)
        (filter (alerted summary) rules) out) ∧
   (Exists (alerted summary) rules →
    ∃ x, generate_rules_exceeds_threshold 0 (Some summary) (Some rules)
         = Raised (Exn SparkExpectationsMiscException
                     (threshold_list_message x))) ∧
   (∃ x, generate_rules_exceeds_threshold input_count (Some summary) None
         = Raised (Exn SparkExpectationsMiscException
                     (threshold_list_message x)))) ∧
  (Exists (λ e, summary_rule e = None ∨ failed_row_count e = None) summary →
   ∀ rs, ∃ x, generate_rules_exceeds_threshold input_count (Some summary) rs
              = Raised (Exn SparkExpectationsMiscException
                          (threshold_list_message x))).
Proof.
  split; [done|]. split.
  - intros Hs. destruct (failed_counts_complete summary Hs)
      as (counts & Hc & Hcounts).
    unfold generate_rules_exceeds_threshold. rewrite Hc.
    split; [|split].
    + intros Hi.
      destruct (threshold_entries_exact input_count summary counts rules
                  Hi Hcounts) as (out & -> & Hout).
      eauto.
    + intros Hex.
      rewrite (threshold_entries_empty_input counts rules
                 (alerted_counted summary counts rules Hcounts Hex)).
      eexists. reflexivity.
    + eexists. reflexivity.
  - intros Hex rs. destruct (failed_counts_incomplete summary Hex) as [x Hx].
    unfold generate_rules_exceeds_threshold. rewrite Hx.
    eexists. reflexivity.
Qed.

(** The last case of [test_generate_rules_exceeds_threshold]: a rule with
    the alert enabled, an input count of 100, no summary. *)
Lemma no_summary_no_entry_no_error :
  let rules := [test_rule "rule1" "drop" "description1"] in
  Forall (λ r, enable_error_drop_alert r = true) rules ∧
  generate_rules_exceeds_threshold 100 None (Some rules) = Ok None.
Proof. split; [by repeat constructor|reflexivity]. Qed.

Example test_generate_rules_exceeds_threshold_two_rules :
  generate_rules_exceeds_threshold 100
    (Some [test_summary "rule1" 10; test_summary "rule2" 20])
    (Some [test_rule "rule1" "drop" "description1";
           test_rule "rule2" "drop" "description2"])
  = Ok (Some [test_entry "rule1" "drop" "description1" "10.0";
              test_entry "rule2" "drop" "description2" "20.0"]).
Proof. vm_compute. reflexivity. Qed.

Example test_generate_rules_exceeds_threshold_exception :
  generate_rules_exceeds_threshold 100 (Some [MkSummaryEntry None None]) None
  = Raised (Exn SparkExpectationsMiscException
              (threshold_list_message "'rule'")).
Proof. reflexivity. Qed.
End WriterFacts.

(** ** The context after a run *)

Section ContextFacts.
Context {DataFrame : Type} `{!Collaborators DataFrame}.
Variable a : arguments.
Variable s : settings.

Lemma keeps_run_checks_untouched tn b1 b2 b3 n df :
  keeps (untouched tn b1 b2 b3) (run_checks a s tn n df).
Proof.
  unfold_wrapper. unfold call_func_process, call_write_df_to_table.
  repeat keeps_step; try (intros c Hc; exact Hc).
  intros c (_ & H1 & H2 & H3). by repeat split.
Qed.

(** X1: a run leaves the table name of the context and the three
    notification flags alone: after a run from the context [_except]
    prepared, whatever the run did, the flags are still those computed
    from [spark_conf]. *)
Theorem notification_flags_survive_run func c k :
  let o := wrapper a s func (MkState (_except_context s c) k) in
  notification_on_start (ctx (final o)) = _notification_on_start s ∧
  notification_on_completion (ctx (final o)) = _notification_on_completion s ∧
  notification_on_fail (ctx (final o)) = _notification_on_fail s ∧
  table_name (ctx (final o)) = table_name c.
Proof.
  intros o.
  destruct (wrapper_run a s func (MkState (_except_context s c) k))
    as (_ & Hfin & _).
  fold o in Hfin. rewrite Hfin.
  assert (wp (wrapper_try a s func)
            (λ _ st' _, untouched (table_name c) (_notification_on_start s)
                          (_notification_on_completion s)
                          (_notification_on_fail s) (ctx st'))
            (MkState (_except_context s c) k) []) as Hwp.
  { apply wp_wrapper_try.
    destruct func as [df|e]; [|by repeat split].
    destruct (py_count df) as [n|e]; [|by repeat split].
    apply wp_keeps; [|by repeat split].
    apply keeps_run_checks_untouched. }
  apply wp_run in Hwp. destruct Hwp as (H0 & H1 & H2 & H3). done.
Qed.

Lemma reset_context_recorded n st t :
  wp (reset_context (DataFrame:=DataFrame) s n)
     (λ r st' _, r = Ok tt ∧ recorded n (_error_drop_threshold s) (ctx st'))
     st t.
Proof. unfold reset_context, set_status. repeat wp_step. by repeat split. Qed.

Lemma keeps_dq_stages_recorded n thr tn d :
  keeps (recorded n thr) (dq_stages a s tn d).
Proof.
  unfold_wrapper. unfold call_func_process, call_write_df_to_table.
  repeat keeps_step; try (intros c Hc; exact Hc).
Qed.

(** X2: once the value returned by the decorated function has been
    counted, the run records that count as the input count of the context,
    and the error drop threshold of the settings; no stage overwrites
    them, whether the run returns or raises. The count is the one of the
    dataframe as the function returned it, taken before the round trip
    through the temporary table. *)
Theorem run_records_input_count v n st :
  py_count v = Ok n →
  let o := wrapper a s (Ok v) st in
  input_count (ctx (final o)) = n ∧
  error_drop_threshold (ctx (final o)) = _error_drop_threshold s.
Proof.
  intros Hn o.
  destruct (wrapper_run a s (Ok v) st) as (_ & Hfin & _).
  fold o in Hfin. rewrite Hfin.
  apply (wp_run (wrapper_try a s (Ok v))
           (λ _ st' _, recorded n (_error_drop_threshold s) (ctx st'))).
  apply wp_wrapper_try. rewrite Hn. unfold run_checks.
  apply wp_bind. eapply wp_mono; [apply reset_context_recorded|].
  intros r st0 t0 [-> Hrec]. cbv beta iota.
  apply wp_keeps; [|done].
  apply keeps_bind.
  - destruct v; [apply keeps_dq_stages_recorded|..]; by apply keeps_pure.
  - intros ?. by apply keeps_pure.
Qed.

(** X3: when the decorated function raises, or what it returned cannot be
    counted, the run raises the processing error that quotes the cause,
    makes no call and leaves the context untouched: the statuses of an
    earlier run are not even reset. *)
Theorem failed_start_leaves_context func e st :
  func = Raised e ∨ (∃ v, func = Ok v ∧ py_count v = Raised e) →
  let o := wrapper a s func st in
  res o = Raised (processing_error e) ∧ final o = st ∧ trace o = [].
Proof.
  intros Hf o.
  destruct (wrapper_run a s func st) as (Hres & Hfin & Htr).
  fold o in Hres, Hfin, Htr. rewrite Hfin, Htr.
  assert (wp (wrapper_try a s func)
            (λ r st' t', r = Raised e ∧ st' = st ∧ t' = []) st []) as Hwp.
  { apply wp_wrapper_try.
    destruct Hf as [->|(v & -> & Hv)]; [done|by rewrite Hv]. }
  apply wp_run in Hwp. destruct Hwp as (Hr & Hst & Ht).
  split; [|done]. rewrite Hres, Hr. done.
Qed.

Lemma quiet_reset_not_clear_cache n :
  quiet not_clear_cache (reset_context (DataFrame:=DataFrame) s n).
Proof. unfold reset_context, set_status. repeat quiet_step; done. Qed.

Lemma quiet_dq_stages_not_clear_cache tn d :
  quiet not_clear_cache (dq_stages a s tn d).
Proof.
  unfold_wrapper. unfold call_func_process, call_write_df_to_table.
  repeat quiet_step; discriminate.
Qed.

Lemma not_clear_cache_elem (t : list (event DataFrame)) :
  Forall not_clear_cache t → ClearCache ∉ t.
Proof. intros Ht Hin. rewrite Forall_forall in Ht. by apply (Ht _ Hin). Qed.

(** X4: the cache of the Spark session is cleared exactly by the runs that
    return, and it is then the last thing the run does; a run that raises
    never clears it. *)
Theorem cache_cleared_iff_returns func st :
  let o := wrapper a s func st in
  (ClearCache ∈ trace o ↔ ∃ v, res o = Ok v) ∧
  (ClearCache ∈ trace o → last (trace o) = Some ClearCache).
Proof.
  intros o.
  destruct (wrapper_run a s func st) as (Hres & _ & Htr).
  fold o in Hres, Htr. rewrite Htr.
  assert (wp (wrapper_try a s func)
            (λ r _ t',
               match r with
               | Ok _ => ∃ t0, t' = t0 ++ [ClearCache]
               | Raised _ => Forall not_clear_cache t'
               end) st []) as Hwp.
  { apply wp_wrapper_try.
    destruct func as [df|e]; [|constructor].
    destruct (py_count df) as [n|e]; [|constructor].
    unfold run_checks. apply wp_bind.
    eapply wp_mono;
      [apply (wp_quiet _ _ _ _ (quiet_reset_not_clear_cache n))|].
    intros [[]|e] st0 t0 (t2 & -> & Ht2); cbv beta iota; [|done].
    apply wp_bind.
    eapply (wp_mono _ (λ _ _ t', Forall not_clear_cache t')).
    { destruct df; [|by apply wp_raise..].
      eapply wp_mono;
        [apply (wp_quiet _ _ _ _ (quiet_dq_stages_not_clear_cache _ d))|].
      intros r st' t' (t3 & -> & Ht3). cbv beta.
      apply Forall_app. split; [done|done]. }
    intros [v|e] st1 t1 Ht1; cbv beta iota; [|done].
    repeat wp_step. eauto. }
  apply wp_run in Hwp. cbv beta in Hwp.
  destruct (res (wrapper_try a s func st)) as [v|e].
  - destruct Hwp as [t0 Ht0]. rewrite Hres, Ht0. split.
    + split; [eauto|]. intros _. apply elem_of_app. right. by left.
    + intros _. by rewrite last_snoc.
  - rewrite Hres. split.
    + split.
      * intros Hin. by apply not_clear_cache_elem in Hwp.
      * by intros [v ?].
    + intros Hin. by apply not_clear_cache_elem in Hwp.
Qed.
End ContextFacts.

Section ExceptFacts.
Context `{UserConfig}.
Context {DataFrame : Type} `{!Collaborators DataFrame}.

Lemma get_flag_true (r : gmap string bool) k :
  get_flag r k = true ↔ r !! k = Some true.
Proof.
  unfold get_flag. destruct (r !! k) as [[]|]; cbn; split; congruence.
Qed.

Lemma stage_enabled_except a r stg :
  stage_enabled (_except a r) stg = true ↔
  Forall (λ k, r !! k = Some true) (stage_keys stg).
Proof.
  destruct stg; cbn [stage_enabled stage_keys _except _row_dq _agg_dq
    _source_agg_dq _target_agg_dq _query_dq _source_query_dq _target_query_dq].
  all: rewrite ?andb_true_iff, !get_flag_true, ?Forall_cons, Forall_nil.
  all: tauto.
Qed.

(** X5: through the decorator, a stage is evaluated only if every key that
    guards it is present in the rules execution settings with the value
    [True] (a missing key counts as [False]); and a run that returns has
    evaluated every stage whose keys are all [True]. *)
Theorem stage_runs_only_with_its_keys a r func st stg :
  let o := wrapper a (_except a r) func st in
  ((∃ i, (stg, i) ∈ evaluations (trace o)) →
   Forall (λ k, r !! k = Some true) (stage_keys stg)) ∧
  ((∃ v, res o = Ok v) →
   Forall (λ k, r !! k = Some true) (stage_keys stg) →
   ∃ i, (stg, i) ∈ evaluations (trace o)).
Proof.
  intros o.
  destruct (wrapper_run a (_except a r) func st) as (Hres & _ & Htr).
  fold o in Hres, Htr. rewrite Htr. split.
  - intros [i Hin]. apply (proj1 (stage_enabled_except a r stg)).
    destruct (wrapper_try_cases a (_except a r) func st) as [[d ->]|[Hnil _]].
    + destruct (wrapper_try_evaluations a (_except a r) d st) as [Hp _].
      apply (elem_of_prefix _ _ _ Hin) in Hp.
      by apply elem_of_expected_evaluations in Hp as [? _].
    + rewrite Hnil in Hin. inversion Hin.
  - intros [v Hv] Hk. apply (proj2 (stage_enabled_except a r stg)) in Hk.
    rewrite Hres in Hv.
    destruct (wrapper_try_cases a (_except a r) func st)
      as [[d ->]|[_ [e He]]].
    + destruct (wrapper_try_evaluations a (_except a r) d st) as [_ Hev].
      destruct (res (wrapper_try a (_except a r) (Ok (RDataFrame d)) st))
        as [v'|e] eqn:Hr; [|done].
      destruct (Hev v' eq_refl) as [_ ->].
      eexists. apply elem_of_expected_evaluations. split; [done|reflexivity].
    + rewrite He in Hv. done.
Qed.
End ExceptFacts.

(** ** What a run hands on from the row stage *)

Section LedgerFacts.
Context {DataFrame : Type} `{!Collaborators DataFrame}.
Variable a : arguments.
Variable s : settings.

Lemma omap_app_quiet {X} (f : event DataFrame → option X) t t2 :
  Forall (λ ev, f ev = None) t2 → omap f (t ++ t2) = omap f t.
Proof.
  intros Ht2. rewrite omap_app.
  assert (omap f t2 = []) as ->; [|by rewrite app_nil_r].
  induction Ht2 as [|ev t2 Hev _ IH]; [done|]. cbn. by rewrite Hev.
Qed.

Lemma wp_judged {A} (P : event DataFrame → Prop) (I : context → Prop)
    (Q : A → Prop) (m : M DataFrame A) st t :
  quiet P m → keeps I m → returns Q m → I (ctx st) →
  wp m (λ r st' t', (∃ t2, t' = t ++ t2 ∧ Forall P t2) ∧ I (ctx st') ∧
                    ∀ x, r = Ok x → Q x) st t.
Proof.
  intros Hq Hk Hr HI. unfold wp. split; [eauto|]. split; [by apply Hk|].
  intros x Hx. by apply (Hr st).
Qed.

Lemma early_row_result tn (ev : event DataFrame) :
  early tn ev →
  row_result ev = None ∧ row_errors ev = None ∧ final_write tn ev = None.
Proof.
  destruct ev; cbn; try done.
  - intros [[-> | ->] _]; done.
  - intros Hne. by rewrite bool_decide_eq_false_2.
Qed.

Lemma early_quiet tn (t : list (event DataFrame)) :
  Forall (early tn) t →
  omap row_result t = [] ∧ omap row_errors t = [] ∧ final_writes tn t = [].
Proof.
  unfold final_writes.
  induction 1 as [|ev t Hev _ (IH1 & IH2 & IH3)]; [done|].
  destruct (early_row_result tn ev Hev) as (H1 & H2 & H3).
  cbn. by rewrite H1, H2, H3.
Qed.

Lemma early_audited tn row_df ec oc (ev : event DataFrame) :
  early tn ev → audited a s tn row_df ec oc ev.
Proof.
  destruct ev; cbn; try done.
  - by intros [[-> | ->] ->].
Qed.

Lemma early_suffix tn (t t2 : list (event DataFrame)) :
  Forall (early tn) t →
  row_output (t ++ t2) = row_output t2 ∧
  row_error_count (t ++ t2) = row_error_count t2 ∧
  final_writes tn (t ++ t2) = final_writes tn t2.
Proof.
  intros Ht. destruct (early_quiet tn t Ht) as (Hr & He & Hw).
  unfold row_output, row_error_count, final_writes in *.
  by rewrite !omap_app, Hr, He, Hw.
Qed.

Lemma early_suffix_audit tn c (t t2 : list (event DataFrame)) :
  Forall (early tn) t →
  Forall (audited a s tn (row_output t2) (row_error_count t2)
            (row_output_count (row_output t2))) t2 →
  (str_truthy (_target_table_view s) = true →
   ∀ d, row_output t2 = Some d →
        CreateOrReplaceTempView d (_target_table_view s) ∈ t2) →
  error_count c = row_error_count t2 →
  output_count c = row_output_count (row_output t2) →
  final_writes tn t2 = [] →
  run_audit a s tn c (t ++ t2) ∧ final_writes tn (t ++ t2) = [].
Proof.
  intros Ht Ht2 Hview Hec Hoc Hw.
  destruct (early_suffix tn t t2 Ht) as (Hr & He & Hw').
  unfold run_audit, trace_audit, context_audit, writes_audit.
  rewrite Hr, He, Hw', Hw. repeat split; try done.
  - apply Forall_app. split; [|done].
    eapply Forall_impl; [exact Ht|]. intros ev. apply early_audited.
  - intros Htr d Hd. apply elem_of_app. right. by apply Hview.
  - by left.
Qed.

Lemma early_suffix_row_post tn st' (t t2 : list (event DataFrame))
    (r : result (locals DataFrame)) :
  Forall (early tn) t →
  Forall (audited a s tn (row_output t2) (row_error_count t2)
            (row_output_count (row_output t2))) t2 →
  (str_truthy (_target_table_view s) = true →
   ∀ d, row_output t2 = Some d →
        CreateOrReplaceTempView d (_target_table_view s) ∈ t2) →
  error_count (ctx st') = row_error_count t2 →
  output_count (ctx st') = row_output_count (row_output t2) →
  final_writes tn t2 = [] →
  (∀ l, r = Ok l →
        _row_dq_df l = row_output t2 ∧
        _error_count l = row_error_count t2 ∧
        _output_count l = row_output_count (row_output t2)) →
  row_post a s tn r st' (t ++ t2).
Proof.
  intros Ht Ht2 Hview Hec Hoc Hw Hl.
  destruct (early_suffix_audit tn (ctx st') t t2 Ht Ht2 Hview Hec Hoc Hw)
    as [Haudit Hw'].
  destruct (early_suffix tn t t2 Ht) as (Hr & He & _).
  unfold row_post. rewrite Hr, He. done.
Qed.

Lemma early_run_audit tn c (t : list (event DataFrame)) :
  Forall (early tn) t → no_counts c →
  run_audit a s tn c t ∧ final_writes tn t = [] ∧ row_output t = None.
Proof.
  intros Ht [Hec Hoc].
  destruct (early_suffix_audit tn c t [] Ht) as [Haudit Hw]; try done.
  rewrite app_nil_r in *. split; [done|]. split; [done|].
  destruct (early_quiet tn t Ht) as (Hr & _). unfold row_output.
  by rewrite Hr.
Qed.

Ltac unfold_block :=
  unfold temp_table_block, source_agg_dq_block, source_query_dq_block,
    row_dq_block, final_agg_dq_block, final_query_dq_block, write_block,
    error_threshold_check, set_status, set_start_time, set_end_time,
    call_func_process, call_write_df_to_table.

Ltac solve_row_post Ht Hc :=
  rewrite <- ?app_assoc; cbn [app];
  apply early_suffix_row_post;
  [ exact Ht
  | repeat (constructor; cbn; try done)
  | intros ? ? ?; cbn in *; first [congruence | simplify_eq; rewrite ?elem_of_cons; tauto]
  | cbn; try apply Hc; done
  | cbn; try apply Hc; done
  | reflexivity
  | intros ? [= <-]; cbn; done ].

Lemma row_ledger tn d st t :
  Forall (early tn) t → no_counts (ctx st) →
  wp (row_dq_block s (MkLocals d None 0 0)) (row_post a s tn) st t.
Proof.
  intros Ht Hc. unfold_block. repeat wp_step.
  all: try (solve_row_post Ht Hc).
  rewrite <- (app_nil_r t). solve_row_post Ht Hc.
Qed.

Lemma late_quiet tn row_df ec oc (t2 : list (event DataFrame)) :
  Forall (late a s tn row_df ec oc) t2 →
  Forall (audited a s tn row_df ec oc) t2 ∧
  omap row_result t2 = [] ∧ omap row_errors t2 = [] ∧
  final_writes tn t2 = [].
Proof.
  unfold final_writes.
  induction 1 as [|ev t2 (Ha & H1 & H2 & H3) _ (IHa & IH1 & IH2 & IH3)];
    [done|].
  cbn. rewrite H1, H2, H3. split; [by constructor|done].
Qed.

Lemma late_suffix tn c c' (t t2 : list (event DataFrame)) :
  run_audit a s tn c t →
  Forall (late a s tn (row_output t) (row_error_count t)
            (row_output_count (row_output t))) t2 →
  has_counts (error_count c) (output_count c) c' →
  run_audit a s tn c' (t ++ t2) ∧
  final_writes tn (t ++ t2) = final_writes tn t ∧
  row_output (t ++ t2) = row_output t ∧
  row_error_count (t ++ t2) = row_error_count t.
Proof.
  intros ((Haud & Hview) & (Hec & Hoc) & Hw) Ht2 [Hec' Hoc'].
  destruct (late_quiet _ _ _ _ _ Ht2) as (Ha2 & Hr2 & He2 & Hw2).
  assert (row_output (t ++ t2) = row_output t) as Hr
    by (unfold row_output; by rewrite omap_app, Hr2, app_nil_r).
  assert (row_error_count (t ++ t2) = row_error_count t) as He
    by (unfold row_error_count; by rewrite omap_app, He2, app_nil_r).
  assert (final_writes tn (t ++ t2) = final_writes tn t) as Hw'
    by (unfold final_writes in *; by rewrite omap_app, Hw2, app_nil_r).
  unfold run_audit, trace_audit, context_audit, writes_audit.
  rewrite Hr, He, Hw'. repeat split; try done.
  - by apply Forall_app.
  - intros Htr d Hd. apply elem_of_app. left. by apply Hview.
  - congruence.
  - congruence.
Qed.

Lemma write_suffix tn c out (t : list (event DataFrame)) :
  run_audit a s tn c t → final_writes tn t = [] →
  _row_dq s && write_to_table a = true →
  run_audit a s tn c (t ++ [WriteDfToTable (row_output t) tn out]) ∧
  final_writes tn (t ++ [WriteDfToTable (row_output t) tn out])
  = [(row_output t, out)] ∧
  row_output (t ++ [WriteDfToTable (row_output t) tn out]) = row_output t.
Proof.
  intros ((Haud & Hview) & (Hec & Hoc) & _) Hw Hflag.
  apply andb_true_iff in Hflag as [Hrow Hwrite].
  set (ev := WriteDfToTable (row_output t) tn out).
  assert (row_output (t ++ [ev]) = row_output t) as Hr
    by (unfold row_output; rewrite omap_app; cbn; by rewrite app_nil_r).
  assert (row_error_count (t ++ [ev]) = row_error_count t) as He
    by (unfold row_error_count; rewrite omap_app; cbn; by rewrite app_nil_r).
  assert (final_writes tn (t ++ [ev]) = [(row_output t, out)]) as Hw'.
  { unfold final_writes in *. rewrite omap_app, Hw. cbn.
    by rewrite bool_decide_eq_true_2. }
  unfold run_audit, trace_audit, context_audit, writes_audit.
  rewrite Hr, He, Hw'. repeat split; try done.
  - apply Forall_app. split; [done|]. by repeat constructor.
  - intros Htr d Hd. apply elem_of_app. left. by apply Hview.
  - right. eauto.
Qed.

Ltac quiet_step2 :=
  lazymatch goal with
  | |- quiet _ (mbind _ (raise _)) => apply quiet_bind_raise
  | |- quiet _ (mbind _ (match ?x with _ => _ end)) => destruct x eqn:?
  | |- quiet _ (if ?b then _ else _) => destruct b eqn:?
  | |- _ => quiet_step
  end.

Lemma quiet_early_temp tn d : quiet (early tn) (temp_table_block a tn d).
Proof.
  unfold_block. repeat quiet_step2; cbn; try done. apply append_temp_ne.
Qed.

Lemma quiet_early_source_agg tn l :
  quiet (early tn) (source_agg_dq_block s l).
Proof. unfold_block. repeat quiet_step2; cbn; auto. Qed.

Lemma quiet_early_source_query tn l :
  quiet (early tn) (source_query_dq_block s l).
Proof. unfold_block. repeat quiet_step2; cbn; auto. Qed.

Lemma keeps_no_counts_temp tn d : keeps no_counts (temp_table_block a tn d).
Proof. unfold_block. repeat keeps_step; try (intros c Hc; exact Hc). Qed.

Lemma keeps_no_counts_source_agg l :
  keeps no_counts (source_agg_dq_block s l).
Proof. unfold_block. repeat keeps_step; try (intros c Hc; exact Hc). Qed.

Lemma keeps_no_counts_source_query l :
  keeps no_counts (source_query_dq_block s l).
Proof. unfold_block. repeat keeps_step; try (intros c Hc; exact Hc). Qed.

Lemma returns_source_agg l :
  returns (λ l', l' = l) (source_agg_dq_block s l).
Proof. unfold_block. repeat returns_step; done. Qed.

Lemma returns_source_query l :
  returns (λ l', l' = l) (source_query_dq_block s l).
Proof. unfold_block. repeat returns_step; done. Qed.

Lemma returns_final_agg l :
  returns (λ l', l' = l) (final_agg_dq_block s l).
Proof. unfold_block. repeat returns_step; done. Qed.

Lemma returns_final_query l :
  returns (λ l', l' = l) (final_query_dq_block s l).
Proof. unfold_block. repeat returns_step; done. Qed.

Lemma quiet_late_final_agg tn l :
  quiet (late a s tn (_row_dq_df l) (_error_count l) (_output_count l))
    (final_agg_dq_block s l).
Proof. unfold_block. repeat quiet_step2; by cbn. Qed.

Lemma quiet_late_final_query tn l :
  quiet (late a s tn (_row_dq_df l) (_error_count l) (_output_count l))
    (final_query_dq_block s l).
Proof. unfold_block. repeat quiet_step2; by cbn. Qed.

Lemma keeps_counts_final_agg ec oc l :
  keeps (has_counts ec oc) (final_agg_dq_block s l).
Proof. unfold_block. repeat keeps_step; try (intros c Hc; exact Hc). Qed.

Lemma keeps_counts_final_query ec oc l :
  keeps (has_counts ec oc) (final_query_dq_block s l).
Proof. unfold_block. repeat keeps_step; try (intros c Hc; exact Hc). Qed.

Lemma ledger_post_raised tn e st (t : list (event DataFrame)) :
  run_audit a s tn (ctx st) t → ledger_post a s tn (Raised e) st t.
Proof. intros Ht. split; [done|]. intros v [=]. Qed.

Lemma after_row_ledger tn l st t :
  run_audit a s tn (ctx st) t → final_writes tn t = [] →
  _row_dq_df l = row_output t →
  _error_count l = row_error_count t →
  _output_count l = row_output_count (row_output t) →
  wp (after_row a s tn l) (ledger_post a s tn) st t.
Proof.
  intros Haud Hw Hl1 Hl2 Hl3. unfold after_row.
  apply wp_bind. eapply wp_mono.
  { apply (wp_judged _ (has_counts (error_count (ctx st))
                          (output_count (ctx st))) _ _ _ _
             (quiet_late_final_agg tn l)
             (keeps_counts_final_agg _ _ l) (returns_final_agg l)).
    by split. }
  rewrite Hl1, Hl2, Hl3.
  intros r1 st1 t1 ((t2 & -> & Ht2) & Hc1 & Hr1).
  destruct (late_suffix tn _ _ t t2 Haud Ht2 Hc1) as (Haud1 & Hw1 & Hrow1 & He1).
  destruct r1 as [l1|e]; cbv beta iota; [|by apply ledger_post_raised].
  rewrite (Hr1 l1 eq_refl). clear Hr1 l1.
  apply wp_bind. eapply wp_mono.
  { apply (wp_judged _ (has_counts (error_count (ctx st1))
                          (output_count (ctx st1))) _ _ _ _
             (quiet_late_final_query tn l)
             (keeps_counts_final_query _ _ l) (returns_final_query l)).
    by split. }
  rewrite Hl1, Hl2, Hl3, <- Hrow1, <- He1.
  intros r2 st2 t3 ((t4 & -> & Ht4) & Hc2 & Hr2).
  destruct (late_suffix tn _ _ _ t4 Haud1 Ht4 Hc2)
    as (Haud2 & Hw2 & Hrow2 & He2).
  destruct r2 as [l2|e]; cbv beta iota; [|by apply ledger_post_raised].
  rewrite (Hr2 l2 eq_refl). clear Hr2 l2.
  rewrite Hw1, Hw in Hw2.
  assert (_row_dq_df l = row_output ((t ++ t2) ++ t4)) as Hl
    by congruence.
  unfold write_block, call_write_df_to_table. rewrite Hl.
  repeat wp_step.
  - destruct (write_suffix tn _ (Ok a0) _ Haud2 Hw2 Heqb) as (Ha3 & Hw3 & Hr3).
    destruct a0. split; [done|]. intros v [= <-]. by rewrite Hr3, Hw3, Heqb.
  - destruct (write_suffix tn _ (Raised e) _ Haud2 Hw2 Heqb)
      as (Ha3 & Hw3 & Hr3).
    by apply ledger_post_raised.
  - split; [done|]. intros v [= <-]. by rewrite Hw2, Heqb.
Qed.

Lemma dq_stages_ledger tn d st t :
  Forall (early tn) t → no_counts (ctx st) →
  wp (dq_stages a s tn d) (ledger_post a s tn) st t.
Proof.
  intros Ht Hc. unfold dq_stages. wp_step.
  apply wp_bind. eapply wp_mono.
  { apply (wp_judged _ no_counts (λ _, True) _ _ _
             (quiet_early_temp tn d) (keeps_no_counts_temp tn d));
      [by intros ? ? ?|exact Hc]. }
  cbn [ctx clock].
  intros r0 st0 t0 ((t2 & -> & Ht2) & Hc0 & _).
  assert (Forall (early tn) (t ++ t2)) as Ht0 by (by apply Forall_app).
  clear Ht Ht2 Hc.
  destruct r0 as [d0|e]; cbv beta iota.
  2: { apply ledger_post_raised. by apply early_run_audit. }
  apply wp_bind. eapply wp_mono.
  { apply (wp_judged _ no_counts _ _ _ _
             (quiet_early_source_agg tn _) (keeps_no_counts_source_agg _)
             (returns_source_agg _) Hc0). }
  intros r1 st1 t1 ((t3 & -> & Ht3) & Hc1 & Hr1).
  assert (Forall (early tn) ((t ++ t2) ++ t3)) as Ht1
    by (by apply Forall_app).
  clear Ht0 Ht3 Hc0.
  destruct r1 as [l1|e]; cbv beta iota.
  2: { apply ledger_post_raised. by apply early_run_audit. }
  rewrite (Hr1 l1 eq_refl). clear Hr1 l1.
  apply wp_bind. eapply wp_mono.
  { apply (wp_judged _ no_counts _ _ _ _
             (quiet_early_source_query tn _) (keeps_no_counts_source_query _)
             (returns_source_query _) Hc1). }
  intros r2 st2 t4 ((t5 & -> & Ht5) & Hc2 & Hr2).
  assert (Forall (early tn) (((t ++ t2) ++ t3) ++ t5)) as Ht2'
    by (by apply Forall_app).
  clear Ht1 Ht5 Hc1.
  destruct r2 as [l2|e]; cbv beta iota.
  2: { apply ledger_post_raised. by apply early_run_audit. }
  rewrite (Hr2 l2 eq_refl). clear Hr2 l2.
  apply wp_bind. eapply wp_mono; [by apply row_ledger|].
  intros r3 st3 t6 (Haud & Hw & Hl).
  destruct r3 as [l3|e]; cbv beta iota; [|by apply ledger_post_raised].
  destruct (Hl l3 eq_refl) as (Hl1 & Hl2 & Hl3).
  by apply after_row_ledger.
Qed.

Lemma reset_context_early tn n st :
  wp (reset_context (DataFrame:=DataFrame) s n)
     (λ r st' t', r = Ok tt ∧ Forall (early tn) t' ∧ no_counts (ctx st'))
     st [].
Proof.
  unfold reset_context, set_status. repeat wp_step.
  split; [done|]. split; [|done]. cbn [app]. by repeat constructor.
Qed.

Lemma run_checks_ledger tn n df st :
  wp (run_checks a s tn n df) (ledger_post a s tn) st [].
Proof.
  unfold run_checks.
  apply wp_bind. eapply wp_mono; [apply (reset_context_early tn)|].
  intros r st0 t0 (-> & Ht0 & Hc0). cbv beta iota.
  apply wp_bind. eapply (wp_mono _ (ledger_post a s tn)).
  { destruct df; [by apply dq_stages_ledger|..].
    all: apply wp_raise, ledger_post_raised; by apply early_run_audit. }
  intros [v|e] st1 t1 [Haud Hv]; cbv beta iota;
    [|by apply ledger_post_raised].
  destruct (Hv v eq_refl) as [-> Hw].
  repeat wp_step.
  destruct (late_suffix tn _ (ctx st1) t1 [ClearCache] Haud)
    as (Haud' & Hw' & Hr' & _); [by repeat constructor|done|].
  split; [done|]. intros v [= <-]. by rewrite Hr', Hw'.
Qed.

(** What holds of every run of [wrapper_try]. *)
Lemma wrapper_try_ledger func st :
  let o := wrapper_try a s func st in
  let tn := table_name (ctx st) in
  trace_audit a s tn (trace o) ∧ writes_audit a s tn (trace o) ∧
  (∀ v, res o = Ok v →
        v = row_output (trace o) ∧
        final_writes tn (trace o) =
          if _row_dq s && write_to_table a then [(v, Ok tt)] else []) ∧
  ((∃ v n, func = Ok v ∧ py_count v = Ok n) →
   context_audit (ctx (final o)) (trace o)).
Proof.
  intros o tn.
  apply (wp_run (wrapper_try a s func)
           (λ r st' t',
              trace_audit a s tn t' ∧ writes_audit a s tn t' ∧
              (∀ v, r = Ok v →
                    v = row_output t' ∧
                    final_writes tn t' =
                      if _row_dq s && write_to_table a
                      then [(v, Ok tt)] else []) ∧
              ((∃ v n, func = Ok v ∧ py_count v = Ok n) →
               context_audit (ctx st') t'))).
  apply wp_wrapper_try.
  assert (trace_audit a s tn ([] : list (event DataFrame)) ∧
          writes_audit a s tn ([] : list (event DataFrame))) as [Hnil1 Hnil2].
  { split; [split|by left]; [constructor|by intros _ d [=]]. }
  destruct func as [df|e].
  - destruct (py_count df) as [n|e] eqn:Hn.
    + eapply wp_mono; [apply run_checks_ledger|].
      intros r st' t' Hpost. unfold ledger_post, run_audit in Hpost.
      destruct Hpost as ((H1 & H2 & H3) & H4).
      split; [done|]. split; [done|]. split; [done|]. done.
    + split; [done|]. split; [done|]. split; [by intros v [=]|].
      intros (v & n' & [= <-] & Hv). congruence.
  - split; [done|]. split; [done|]. split; [by intros v [=]|].
    by intros (v & n & [=] & _).
Qed.
End LedgerFacts.

Section LedgerTheorems.
Context {DataFrame : Type} `{!Collaborators DataFrame}.
Variable a : arguments.
Variable s : settings.

(** X6: the table is written at most once in a run, only when [row_dq] and
    [write_to_table] are both set, and with the dataframe of the row stage;
    a run that returns has written the dataframe it returns when both are
    set, the writer having answered without an error, and has written
    nothing to the table otherwise. *)
Theorem final_table_written_once func st :
  let o := wrapper a s func st in
  let tn := table_name (ctx st) in
  (final_writes tn (trace o) = [] ∨
   ∃ out, final_writes tn (trace o) = [(row_output (trace o), out)] ∧
          _row_dq s = true ∧ write_to_table a = true) ∧
  (∀ v, res o = Ok v →
        final_writes tn (trace o) =
          if _row_dq s && write_to_table a then [(v, Ok tt)] else []).
Proof.
  intros o tn. destruct (wrapper_run a s func st) as (Hres & _ & Htr).
  fold o in Hres, Htr. rewrite Htr, Hres.
  destruct (wrapper_try_ledger a s func st) as (_ & Hw & Hv & _).
  split; [exact Hw|]. intros v Hok.
  destruct (res (wrapper_try a s func st)) as [v'|e]; [|done].
  injection Hok as ->. by destruct (Hv v eq_refl).
Qed.

(** X7: a view is only ever registered under the configured view name,
    which is then not empty, and over the dataframe the row stage produced;
    and a run that returns a dataframe has registered it, when the view
    name is not empty. *)
Theorem view_is_of_row_dataframe func st :
  let o := wrapper a s func st in
  (∀ d name, CreateOrReplaceTempView d name ∈ trace o →
             name = _target_table_view s ∧ str_truthy name = true ∧
             row_output (trace o) = Some d) ∧
  (∀ d, res o = Ok (Some d) →
        str_truthy (_target_table_view s) = true →
        CreateOrReplaceTempView d (_target_table_view s) ∈ trace o).
Proof.
  intros o. destruct (wrapper_run a s func st) as (Hres & _ & Htr).
  fold o in Hres, Htr. rewrite Htr, Hres.
  destruct (wrapper_try_ledger a s func st) as ([Haud Hview] & _ & Hv & _).
  split.
  - intros d name Hin. rewrite Forall_forall in Haud.
    destruct (Haud _ Hin) as (? & ? & ?). done.
  - intros d Hok Htr'.
    destruct (res (wrapper_try a s func st)) as [v'|e]; [|done].
    injection Hok as ->. destruct (Hv _ eq_refl) as [Hrow _].
    by apply Hview.
Qed.

(** X8: the two final stages are handed the error count the row stage
    returned and the count of the dataframe it produced (0 when it
    produced none), the source stages and the row stage are handed no
    counts; and these are the error count and the output count the context
    holds at the end of a run that got as far as its reset. *)
Theorem row_counts_reach_final_stages func st :
  let o := wrapper a s func st in
  let ec := row_error_count (trace o) in
  let oc := row_output_count (row_output (trace o)) in
  (∀ stg i c out,
     Process stg i c out ∈ trace o →
     c = match stg with
         | final_agg | final_query => Some (ec, oc)
         | _ => None
         end) ∧
  ((∃ v n, func = Ok v ∧ py_count v = Ok n) →
   error_count (ctx (final o)) = ec ∧ output_count (ctx (final o)) = oc).
Proof.
  intros o ec oc. destruct (wrapper_run a s func st) as (_ & Hfin & Htr).
  fold o in Hfin, Htr. unfold ec, oc. rewrite Htr, Hfin.
  destruct (wrapper_try_ledger a s func st) as ([Haud _] & _ & _ & Hc).
  split.
  - intros stg i c out Hin. rewrite Forall_forall in Haud.
    exact (Haud _ Hin).
  - intros Hreached. exact (Hc Hreached).
Qed.
End LedgerTheorems.

Section ExceptView.
Context `{UserConfig}.
Context {DataFrame : Type} `{!Collaborators DataFrame}.

Lemma str_truthy_append_view (t : string) : str_truthy (t +:+ "_view") = true.
Proof. by destruct t. Qed.

Lemma except_view_truthy a r : str_truthy (_target_table_view (_except a r)) = true.
Proof.
  cbn [_except _target_table_view].
  destruct (target_table_view a) as [v|]; cbn [opt_str_truthy default].
  - destruct (str_truthy v) eqn:Hv; [done|apply str_truthy_append_view].
  - apply str_truthy_append_view.
Qed.

(** X9: through the decorator the view name is never empty: it is
    [target_table_view] when that is given and not empty, and
    [<target_table>_view] when it is absent or empty; a run that returns a
    dataframe has registered it under that name. *)
Theorem decorated_run_registers_view a r func st :
  let s := _except a r in
  let o := wrapper a s func st in
  str_truthy (_target_table_view s) = true ∧
  (∀ v, target_table_view a = Some v → str_truthy v = true →
        _target_table_view s = v) ∧
  (target_table_view a = None ∨ target_table_view a = Some "" →
   _target_table_view s = target_table a +:+ "_view") ∧
  (∀ d, res o = Ok (Some d) →
        CreateOrReplaceTempView d (_target_table_view s) ∈ trace o).
Proof.
  intros s o. split; [apply except_view_truthy|]. split; [|split].
  - intros v Hv Ht. unfold s. cbn [_except _target_table_view].
    rewrite Hv. cbn [opt_str_truthy default]. by rewrite Ht.
  - unfold s. cbn [_except _target_table_view]. by intros [->| ->].
  - intros d Hd.
    destruct (wrapper_run a s func st) as (Hres & _ & Htr).
    fold o in Hres, Htr. rewrite Htr. rewrite Hres in Hd.
    destruct (wrapper_try_ledger a s func st) as ([_ Hview] & _ & Hv & _).
    destruct (res (wrapper_try a s func st)) as [v'|e]; [|done].
    injection Hd as ->. destruct (Hv _ eq_refl) as [Hrow _].
    apply Hview; [apply except_view_truthy|done].
Qed.
End ExceptView.

(** ** The temporary table and the percentage *)

Section TempTableFacts.
Context {DataFrame : Type} `{!Collaborators DataFrame}.
Variable a : arguments.
Variable s : settings.

Ltac unfold_block :=
  unfold temp_table_block, source_agg_dq_block, source_query_dq_block,
    row_dq_block, final_agg_dq_block, final_query_dq_block, write_block,
    error_threshold_check, set_status, set_start_time, set_end_time,
    call_func_process, call_write_df_to_table.

Lemma temp_events_app tn (t1 t2 : list (event DataFrame)) :
  temp_events tn (t1 ++ t2) = temp_events tn t1 ++ temp_events tn t2.
Proof. apply filter_app. Qed.

Lemma temp_events_quiet tn (t : list (event DataFrame)) :
  Forall (not_temp_event tn) t → temp_events tn t = [].
Proof.
  induction 1 as [|ev t Hev _ IH]; [done|].
  unfold temp_events in *. rewrite filter_cons_False; [done|].
  unfold not_temp_event in Hev. by rewrite Hev.
Qed.

Lemma not_temp_table tn : bool_decide (tn = tn +:+ "_temp") = false.
Proof.
  apply bool_decide_eq_false_2. intros Heq. symmetry in Heq.
  by apply append_temp_ne in Heq.
Qed.

Lemma quiet_reset_not_temp tn n :
  quiet (not_temp_event tn) (reset_context (DataFrame:=DataFrame) s n).
Proof. unfold reset_context, set_status. repeat quiet_step; done. Qed.

Lemma quiet_stages_not_temp tn d :
  quiet (not_temp_event tn)
    (l ← source_agg_dq_block s (MkLocals d None 0 0);
     l ← source_query_dq_block s l;
     l ← row_dq_block s l;
     l ← final_agg_dq_block s l;
     l ← final_query_dq_block s l;
     write_block a s tn l;;
     mret (_row_dq_df l)).
Proof.
  unfold_block. repeat quiet_step; first [reflexivity|apply not_temp_table].
Qed.

Lemma temp_events_round_trip tn (d : DataFrame) out :
  temp_events tn (temp_round_trip tn d out) = temp_round_trip tn d out.
Proof.
  unfold temp_events, temp_round_trip. cbn [app].
  rewrite filter_cons_True by done.
  rewrite filter_cons_True by (cbn; by rewrite bool_decide_eq_true_2).
  destruct out; [rewrite filter_cons_True by done|]; done.
Qed.

Lemma temp_table_temp_events tn d st t :
  temp_events tn t = [] → evaluations t = [] →
  wp (temp_table_block a tn d) (temp_post a tn d) st t.
Proof.
  intros Ht He. unfold_block. unfold temp_post, temp_shape.
  destruct (write_to_temp_table a); [|by apply wp_ret].
  repeat wp_step.
  all: rewrite <- ?app_assoc; cbn [app].
  all: rewrite temp_events_app, Ht; cbn [app].
  - exists (Ok a0). split; [|done].
    exact (temp_events_round_trip tn d (Ok a0)).
  - exists (Raised e). split; [exact (temp_events_round_trip tn d (Raised e))|].
    intros e0 [= <-]. split; [|done].
    rewrite evaluations_app, He. done.
Qed.

Lemma wp_temp_stable {A B} (m : M DataFrame A) (r0 : result B) tn d st t :
  quiet (not_temp_event tn) m →
  is_ok r0 = true →
  temp_post a tn d r0 st t →
  wp m (temp_post a tn d) st t.
Proof.
  intros Hq Hr Hpost. unfold wp, temp_post, temp_shape in *.
  rewrite temp_events_app, (temp_events_quiet _ _ (Hq st)), app_nil_r.
  destruct (write_to_temp_table a); [|done].
  destruct Hpost as (out & Hout & He). exists out. split; [done|].
  intros e ->. destruct (He e eq_refl) as [_ Hc]. by destruct r0.
Qed.

Lemma dq_stages_temp tn d st t :
  temp_events tn t = [] → evaluations t = [] →
  wp (dq_stages a s tn d) (temp_post a tn d) st t.
Proof.
  intros Ht He. unfold dq_stages. wp_step.
  apply wp_bind. eapply wp_mono; [by apply temp_table_temp_events|].
  cbn [ctx clock]. intros [d'|e] st0 t0 Hpost; cbv beta iota; [|exact Hpost].
  apply (wp_temp_stable _ (Ok d')); [apply quiet_stages_not_temp|done|done].
Qed.

Lemma reset_context_temp tn n st :
  wp (reset_context (DataFrame:=DataFrame) s n)
     (λ r _ t', r = Ok tt ∧ temp_events tn t' = [] ∧ evaluations t' = [])
     st [].
Proof.
  unfold reset_context, set_status. repeat wp_step.
  split; [done|]. cbn [app]. split; [|done].
  apply temp_events_quiet. by repeat constructor.
Qed.

Lemma run_checks_temp tn n d st :
  wp (run_checks a s tn n (RDataFrame d)) (temp_post a tn d) st [].
Proof.
  unfold run_checks. apply wp_bind.
  eapply wp_mono; [apply (reset_context_temp tn)|].
  intros r st0 t0 (-> & Ht0 & He0). cbv beta iota.
  apply wp_bind. eapply wp_mono; [by apply dq_stages_temp|].
  intros [v|e] st1 t1 Hpost; cbv beta iota; [|done].
  apply (wp_temp_stable _ (Ok v)); [|done|done].
  repeat quiet_step; done.
Qed.

(** X10: with [write_to_temp_table], a run on a dataframe drops the table
    [<table>_temp], writes the dataframe to it and, when the write went
    through, reads it back, and sends no other query and writes that table
    at no other time; a write that fails ends the run before any stage is
    evaluated, with the processing error that quotes the writer's
    exception. Without [write_to_temp_table] no query is sent and the
    temporary table is not written. *)
Theorem temp_table_round_trip d st :
  let tn := table_name (ctx st) in
  let o := wrapper a s (Ok (RDataFrame d)) st in
  if write_to_temp_table a then
    ∃ out, temp_events tn (trace o) = temp_round_trip tn d out ∧
           ∀ e, out = Raised e →
                evaluations (trace o) = [] ∧
                res o = Raised (processing_error e)
  else temp_events tn (trace o) = [].
Proof.
  intros tn o.
  destruct (wrapper_run a s (Ok (RDataFrame d)) st) as (Hres & _ & Htr).
  fold o in Hres, Htr. rewrite Htr.
  assert (wp (wrapper_try a s (Ok (RDataFrame d))) (temp_post a tn d) st [])
    as Hwp by (apply wp_wrapper_try, run_checks_temp).
  apply wp_run in Hwp. unfold temp_post, temp_shape in Hwp.
  destruct (write_to_temp_table a); [|done].
  destruct Hwp as (out & Hout & He). exists out. split; [done|].
  intros e Hraised. destruct (He e Hraised) as [Hev Hr].
  split; [done|]. apply wrapper_processing_error.
  destruct (res (wrapper_try a s (Ok (RDataFrame d)) st)); cbn in Hr;
    congruence.
Qed.
End TempTableFacts.

Section PercentageFacts.
Context {DataFrame : Type} `{!Collaborators DataFrame}.
Variable a : arguments.
Variable s : settings.

Hypothesis breach_notified :
  _notification_on_error_drop_exceeds_threshold_breach s = true.

Ltac unfold_block :=
  unfold temp_table_block, source_agg_dq_block, source_query_dq_block,
    row_dq_block, final_agg_dq_block, final_query_dq_block, write_block,
    error_threshold_check, set_status, set_start_time, set_end_time,
    call_func_process, call_write_df_to_table.

Lemma row_percentage l st t :
  breach_events t = [] →
  wp (row_dq_block s l) percentage_post st t.
Proof.
  intros Ht. unfold_block. rewrite breach_notified. repeat wp_step.
  all: unfold percentage_post.
  all: try (left; rewrite ?breach_events_app, Ht; reflexivity).
  all: try (right; left; eexists; eassumption).
  all: right; right; eexists _, _; split; [eassumption|];
    split; [reflexivity|]; apply last_snoc.
Qed.

Lemma wp_percentage_stable {A B} (m : M DataFrame A) (r0 : result B) st t :
  quiet no_breach_event m →
  (∀ nk, keeps (λ c, counts c = nk) m) →
  is_ok r0 = true →
  percentage_post r0 st t →
  wp m percentage_post st t.
Proof.
  intros Hq Hk Hr0 Hpost. unfold wp, percentage_post in *.
  rewrite breach_events_app, (breach_events_quiet _ (Hq st)), app_nil_r.
  assert (get_output_percentage (ctx (final (m st)))
          = get_output_percentage (ctx st)) as ->.
  { pose proof (Hk (counts (ctx st)) st eq_refl) as Hc.
    unfold counts in Hc. unfold get_output_percentage. by injection Hc as -> ->. }
  destruct Hpost as [Hnil|[Hp|(e & t1 & _ & Hc & _)]];
    [by left|by right; left|by destruct r0].
Qed.

Lemma dq_stages_percentage tn d st t :
  breach_events t = [] →
  wp (dq_stages a s tn d) percentage_post st t.
Proof.
  intros Ht. unfold dq_stages. wp_step.
  apply wp_bind. eapply wp_mono;
    [apply wp_pending_stable; [apply quiet_no_breach_temp|done]|].
  cbn [ctx clock]. intros [d'|e] st0 t0 Ht0; cbv beta iota; [|by left].
  apply wp_bind. eapply wp_mono;
    [apply wp_pending_stable; [apply quiet_no_breach_source_agg|done]|].
  intros [l1|e] st1 t1 Ht1; cbv beta iota; [|by left].
  apply wp_bind. eapply wp_mono;
    [apply wp_pending_stable; [apply quiet_no_breach_source_query|done]|].
  intros [l2|e] st2 t2 Ht2; cbv beta iota; [|by left].
  apply wp_bind. eapply wp_mono; [by apply row_percentage|].
  intros [l3|e] st3 t3 Ht3; cbv beta iota; [|exact Ht3].
  apply (wp_percentage_stable (after_row a s tn l3) (Ok l3));
    [apply quiet_no_breach_after_row
    |intros nk; apply keeps_counts_after_row
    |done|done].
Qed.

Lemma run_checks_percentage tn n df st :
  wp (run_checks a s tn n df) percentage_post st [].
Proof.
  unfold run_checks.
  apply wp_bind. eapply wp_mono;
    [apply wp_pending_stable; [apply quiet_no_breach_reset|done]|].
  intros [[]|e] st0 t0 Ht0; cbv beta iota; [|by left].
  apply wp_bind.
  eapply (wp_mono _ percentage_post).
  { destruct df; [by apply dq_stages_percentage|..];
      apply wp_raise; by left. }
  intros [v|e] st1 t1 Ht1; cbv beta iota; [|exact Ht1].
  apply (wp_percentage_stable _ (Ok v)); [| |done|done].
  - repeat quiet_step; done.
  - intros nk. repeat keeps_step.
Qed.

(** X11: with breach notifications enabled, when the row stage came to its
    end and the output percentage cannot be computed from the counts the
    context holds, recording the end of the row stage is the last thing
    the run does, and the run raises the processing error that quotes the
    exception of the percentage. *)
Theorem failed_percentage_ends_run func st e :
  let o := wrapper a s func st in
  (∃ t, SetEndTime row t ∈ trace o) →
  get_output_percentage (ctx (final o)) = Raised e →
  res o = Raised (processing_error e) ∧
  ∃ t, last (trace o) = Some (SetEndTime row t).
Proof.
  intros o [t Hin] Hp.
  destruct (wrapper_run a s func st) as (Hres & Hfin & Htr).
  fold o in Hres, Hfin, Htr. rewrite Htr, Hfin in *.
  assert (wp (wrapper_try a s func) percentage_post st []) as Hwp.
  { apply wp_wrapper_try. destruct func as [df|e0]; [|by left].
    destruct (py_count df) as [n|e0]; [|by left].
    apply run_checks_percentage. }
  apply wp_run in Hwp.
  destruct Hwp as [Hnil|[[p Hp']|(e' & t1 & He' & Hr & Hl)]].
  - assert (SetEndTime row t ∈ breach_events (trace (wrapper_try a s func st)))
      as Hin' by (by apply list_elem_of_filter).
    rewrite Hnil in Hin'. inversion Hin'.
  - congruence.
  - rewrite Hp in He'. injection He' as <-.
    split; [|eauto]. apply wrapper_processing_error.
    destruct (res (wrapper_try a s func st)); cbn in Hr; congruence.
Qed.
End PercentageFacts.

(** ** A stage that is not enabled *)

Section DisabledStage.
Context {DataFrame : Type} `{!Collaborators DataFrame}.
Variable a : arguments.
Variable s : settings.

Lemma frame_disabled_dq_stages stg tn d :
  stage_enabled s stg = false → frame stg (dq_stages a s tn d).
Proof.
  intros Hd. unfold dq_stages.
  destruct stg; cbn [stage_enabled] in Hd.
  all: repeat first
    [ apply frame_temp_table
    | apply frame_write
    | apply frame_source_agg; discriminate
    | apply frame_source_query; discriminate
    | apply frame_row; discriminate
    | apply frame_final_agg; discriminate
    | apply frame_final_query; discriminate
    | frame_step
    | progress (unfold source_agg_dq_block, source_query_dq_block,
                  row_dq_block, final_agg_dq_block, final_query_dq_block;
                rewrite Hd; cbv beta iota) ].
Qed.

(** X12: in a run that got as far as the reset of the context, a stage
    whose flags do not all hold is reset and never touched again: its only
    event is the reset of its status, and the context reports it [Skipped]
    with no start and no end time, whatever an earlier run had left
    there. *)
Theorem disabled_stage_is_reset v n st stg :
  py_count v = Ok n →
  stage_enabled s stg = false →
  let o := wrapper a s (Ok v) st in
  stage_events stg (trace o) = [SetStatus stg "Skipped"] ∧
  stage_view stg (ctx (final o)) = ("Skipped", None, None).
Proof.
  intros Hn Hd o.
  destruct (wrapper_run a s (Ok v) st) as (_ & Hfin & Htr).
  fold o in Hfin, Htr. rewrite Hfin, Htr.
  apply (wp_run (wrapper_try a s (Ok v))
           (λ _ st' t', stage_events stg t' = [SetStatus stg "Skipped"] ∧
                        stage_view stg (ctx st') = ("Skipped", None, None))).
  apply wp_wrapper_try. rewrite Hn.
  apply wp_intro. unfold run_checks. rewrite bind_run.
  destruct (reset_context_stage (DataFrame:=DataFrame) s stg n st) as (-> & Hev & Hview).
  cbn [res final trace]. rewrite stage_events_app, Hev.
  assert (frame stg
            (row_dq_df ←
               match v with
               | RDataFrame d => dq_stages a s (table_name (ctx st)) d
               | _ =>
                   raise
                     (Exn SparkExpectationsDataframeNotReturnedException
                        ("error occurred while processing spark " +:+
                         "expectations due to given dataframe is not type of dataframe"))
               end;
             emit ClearCache;; mret row_dq_df)) as Hframe.
  { apply frame_bind.
    - destruct v; [by apply frame_disabled_dq_stages|..]; frame_step.
    - intros ?. repeat frame_step. }
  destruct (Hframe (final (reset_context (DataFrame:=DataFrame) s n st)))
    as [Ht Hv].
  rewrite Ht, Hv. done.
Qed.
End DisabledStage.

(** ** The threshold check through the decorator *)

Section DecoratedThreshold.
Context `{UserConfig}.
Context {DataFrame : Type} `{!Collaborators DataFrame}.

Lemma effective_flag_true v :
  effective_flag v false = true ↔ v = Some (PyBool true).
Proof.
  destruct v as [[| [] | |]|]; cbn; split; congruence.
Qed.

Lemma except_breach_settings a r :
  let s := _except a r in
  (_notification_on_error_drop_exceeds_threshold_breach s = true ↔
   supplied (spark_conf a)
     se_notifications_on_error_drop_exceeds_threshold_breach
   = Some (PyBool true)) ∧
  _error_drop_threshold s
  = effective_threshold
      (supplied (spark_conf a) se_notifications_on_error_drop_threshold).
Proof.
  destruct default_notification_dict_lookup as (_ & _ & _ & Hb & Ht).
  cbn. split.
  - rewrite (notification_flag_effective _ _ false Hb).
    apply effective_flag_true.
  - unfold notification_threshold. rewrite notification_dict_lookup.
    destruct (supplied _ _) as [[| [] | |]|]; try done.
    by rewrite Ht.
Qed.

(** X13: through the decorator, the notification of a threshold breach is
    sent exactly when the row stage came to its end, [spark_conf] maps the
    breach key to the [bool] [True], and 100 minus the output percentage is
    at least the threshold [spark_conf] supplies as an [int], or 100: with
    no [spark_conf], or a flag that is merely truthy, no breach is ever
    notified. *)
Theorem decorated_breach_notification a r func st :
  let o := wrapper a (_except a r) func st in
  let conf := spark_conf a in
  (∃ out, NotifyOnExceedsOfErrorThreshold out ∈ trace o) ↔
    (∃ t, SetEndTime row t ∈ trace o) ∧
    supplied conf se_notifications_on_error_drop_exceeds_threshold_breach
    = Some (PyBool true) ∧
    ∃ p, get_output_percentage (ctx (final o)) = Ok p ∧
         (inject_Z (effective_threshold
                      (supplied conf se_notifications_on_error_drop_threshold))
          <= 100 - p)%Q.
Proof.
  intros o conf. unfold conf. clear conf.
  destruct (wrapper_run a (_except a r) func st) as (_ & Hfin & Htr).
  fold o in Hfin, Htr. rewrite Hfin, Htr.
  destruct (except_breach_settings a r) as [Hflag Hthr].
  rewrite <- Hflag, <- Hthr, <- breach_check_spec.
  pose proof (wrapper_try_threshold a (_except a r) func st) as Hpost.
  unfold threshold_post, breach_shape in Hpost.
  destruct Hpost as [Hnil|[t Ht]].
  - split.
    + intros [out Hin].
      assert (NotifyOnExceedsOfErrorThreshold out
                ∈ breach_events (trace (wrapper_try a (_except a r) func st)))
        as Hin' by (by apply elem_of_breach_events).
      rewrite Hnil in Hin'. inversion Hin'.
    + intros [[t Hin] _].
      assert (SetEndTime row t
                ∈ breach_events (trace (wrapper_try a (_except a r) func st)))
        as Hin' by (by apply elem_of_breach_events).
      rewrite Hnil in Hin'. inversion Hin'.
  - destruct (breach_check (_except a r) _) eqn:Hb.
    + destruct Ht as [out Ht]. split; [intros _|intros _].
      * split; [|done]. exists t.
        apply (elem_of_breach_events _ (SetEndTime row t)).
        rewrite Ht. left.
      * exists out.
        apply (elem_of_breach_events _ (NotifyOnExceedsOfErrorThreshold out)).
        rewrite Ht. right. left.
    + split; [|by intros [_ ?]]. intros [out Hin].
      assert (NotifyOnExceedsOfErrorThreshold out
                ∈ breach_events (trace (wrapper_try a (_except a r) func st)))
        as Hin' by (by apply elem_of_breach_events).
      rewrite Ht in Hin'.
      apply list_elem_of_singleton in Hin'. discriminate Hin'.
Qed.
End DecoratedThreshold.

(** ** Runs on the sample *)

Lemma row_disabled_final_stages_skipped_witness :
  _row_dq (sample_settings false) = false ∧
  let o := sample_run false true (Ok (RDataFrame [1; -2; 3]%Z)) in
  Forall source_only (trace o) ∧
  final_skipped (ctx (final o)) ∧
  evaluations (trace o)
  = [(source_agg, Some [1; -2; 3]%Z); (source_query, Some [1; -2; 3]%Z)].
Proof.
  split; [reflexivity|].
  destruct (@row_disabled_final_stages_skipped (list Z)
              (sample_collaborators true) sample_arguments
              (sample_settings false) eq_refl
              (Ok (RDataFrame [1; -2; 3]%Z)) sample_state) as (Hq & Hs & _).
  split; [exact Hq|]. split.
  - apply Hs. right. exists (RDataFrame [1; -2; 3]%Z). split; reflexivity.
  - vm_compute. reflexivity.
Defined.

Lemma row_disabled_returns_none_witness :
  _row_dq (sample_settings false) = false ∧
  let o := sample_run false true (Ok (RDataFrame [1; -2; 3]%Z)) in
  res o = Ok None ∧
  ∀ d out, WriteDfToTable d "orders" out ∉ trace o.
Proof.
  split; [reflexivity|].
  destruct (@row_disabled_returns_none (list Z)
              (sample_collaborators true) sample_arguments
              (sample_settings false) eq_refl
              (Ok (RDataFrame [1; -2; 3]%Z)) sample_state)
    as (_ & Hw & _).
  split; [vm_compute; reflexivity|exact Hw].
Defined.

Lemma final_query_needs_view_witness :
  let o := sample_run true false (Ok (RDataFrame [1; -2; 3]%Z)) in
  stage_enabled (sample_settings true) final_query = true ∧
  row_output (trace o) = None ∧
  (∀ i c out, Process final_query i c out ∉ trace o) ∧
  res o = Raised (processing_error view_error).
Proof.
  unfold sample_run.
  pose proof (@final_query_needs_view (list Z)
                (sample_collaborators false) sample_arguments
                (sample_settings true)
                (Ok (RDataFrame [1; -2; 3]%Z)) sample_state) as H.
  cbv zeta in H.
  assert (stage_enabled (sample_settings true) final_query = true) as He
    by reflexivity.
  specialize (H He).
  assert (row_output
            (trace (@wrapper (list Z) (sample_collaborators false)
                      sample_arguments (sample_settings true)
                      (Ok (RDataFrame [1; -2; 3]%Z)) sample_state))
          = None) as Hrow by (vm_compute; reflexivity).
  destruct (H (or_intror Hrow)) as (Hno & cause & Hres & Hcause).
  cbv zeta.
  split; [exact He|]. split; [exact Hrow|]. split; [exact Hno|].
  rewrite Hres.
  destruct Hcause
    as [[-> _]|[(ev & Hin & Hev)|[[_ Hp]|[Hf|(v & Hf & Hv & _)]]]].
  - reflexivity.
  - exfalso.
    match type of Hin with
    | _ ∈ ?t =>
        assert (Forall (λ ev, event_error ev = None) t) as Hcalls
          by (vm_compute; repeat constructor)
    end.
    rewrite Forall_forall in Hcalls. rewrite (Hcalls _ Hin) in Hev.
    discriminate Hev.
  - exfalso. vm_compute in Hp. discriminate Hp.
  - discriminate Hf.
  - injection Hf as <-. discriminate Hv.
Defined.

Lemma non_dataframe_is_processing_error_witness :
  is_dataframe (RNone : returned (list Z)) = false ∧
  let o := sample_run true true (Ok RNone) in
  evaluations (trace o) = [] ∧
  res o = Raised (processing_error
                    (Exn AttributeError
                       "'NoneType' object has no attribute 'count'")) ∧
  exn_type (processing_error
              (Exn AttributeError
                 "'NoneType' object has no attribute 'count'"))
  ≠ SparkExpectationsDataframeNotReturnedException.
Proof.
  split; [reflexivity|].
  destruct (@non_dataframe_is_processing_error (list Z)
              (sample_collaborators true) sample_arguments
              (sample_settings true) RNone sample_state eq_refl)
    as (He & Hr & _).
  split; [exact He|]. split; [exact Hr|]. discriminate.
Defined.

Lemma run_records_input_count_witness :
  @py_count (list Z) (sample_collaborators true) (RDataFrame [1; -2; 3]%Z)
  = Ok 3%Z ∧
  let o := sample_run true true (Ok (RDataFrame [1; -2; 3]%Z)) in
  input_count (ctx (final o)) = 3%Z ∧
  error_drop_threshold (ctx (final o)) = 10%Z.
Proof.
  split; [reflexivity|]. unfold sample_run.
  exact (@run_records_input_count (list Z) (sample_collaborators true)
           sample_arguments (sample_settings true)
           (RDataFrame [1; -2; 3]%Z) 3%Z sample_state eq_refl).
Defined.

Lemma failed_start_leaves_context_witness :
  let o := sample_run true true (Raised (Exn OtherException "boom")) in
  res o = Raised (processing_error (Exn OtherException "boom")) ∧
  final o = sample_state ∧ trace o = [].
Proof.
  unfold sample_run.
  exact (@failed_start_leaves_context (list Z) (sample_collaborators true)
           sample_arguments (sample_settings true)
           (Raised (Exn OtherException "boom")) (Exn OtherException "boom")
           sample_state (or_introl eq_refl)).
Defined.

Lemma disabled_stage_is_reset_witness :
  stage_enabled (sample_settings false) final_agg = false ∧
  let o := sample_run false true (Ok (RDataFrame [1; -2; 3]%Z)) in
  stage_events final_agg (trace o) = [SetStatus final_agg "Skipped"] ∧
  stage_view final_agg (ctx (final o)) = ("Skipped", None, None).
Proof.
  split; [reflexivity|]. unfold sample_run.
  exact (@disabled_stage_is_reset (list Z) (sample_collaborators true)
           sample_arguments (sample_settings false)
           (RDataFrame [1; -2; 3]%Z) 3%Z sample_state final_agg
           eq_refl eq_refl).
Defined.

Lemma failed_percentage_ends_run_witness :
  let o := @wrapper (list Z) strict_collaborators sample_arguments
             (sample_settings true) (Ok (RDataFrame [])) sample_state in
  SetEndTime row 5 ∈ trace o ∧
  @get_output_percentage (list Z) strict_collaborators (ctx (final o))
  = Raised (Exn ZeroDivisionError "division by zero") ∧
  res o = Raised (processing_error
                    (Exn ZeroDivisionError "division by zero")) ∧
  ∃ t, last (trace o) = Some (SetEndTime row t).
Proof.
  cbv zeta.
  assert (SetEndTime row 5
            ∈ trace (@wrapper (list Z) strict_collaborators sample_arguments
                       (sample_settings true) (Ok (RDataFrame []))
                       sample_state)) as Hend.
  { vm_compute.
    repeat first [apply list_elem_of_here | apply list_elem_of_further]. }
  assert (@get_output_percentage (list Z) strict_collaborators
            (ctx (final (@wrapper (list Z) strict_collaborators
                           sample_arguments (sample_settings true)
                           (Ok (RDataFrame [])) sample_state)))
          = Raised (Exn ZeroDivisionError "division by zero")) as Hp
    by (vm_compute; reflexivity).
  split; [exact Hend|]. split; [exact Hp|].
  exact (@failed_percentage_ends_run (list Z) strict_collaborators
           sample_arguments (sample_settings true) eq_refl
           (Ok (RDataFrame [])) sample_state
           (Exn ZeroDivisionError "division by zero")
           (ex_intro _ 5 Hend) Hp).
Defined.

(** C2, a run the claim misses: [row_dq] is disabled and the decorated
    function raises, or returns [None]. The context is never reset, so both
    final stages still report the [Passed] of the run before. *)
Lemma failed_start_keeps_stale_status :
  let o := @wrapper (list Z) (sample_collaborators true) sample_arguments
             (sample_settings false)
             (Raised (Exn OtherException "boom")) stale_state in
  let o' := @wrapper (list Z) (sample_collaborators true) sample_arguments
              (sample_settings false) (Ok RNone) stale_state in
  _row_dq (sample_settings false) = false ∧
  (get_final_agg_dq_status (ctx (final o)) = "Passed" ∧
   get_final_query_dq_status (ctx (final o)) = "Passed" ∧
   ¬ final_skipped (ctx (final o))) ∧
  (get_final_agg_dq_status (ctx (final o')) = "Passed" ∧
   get_final_query_dq_status (ctx (final o')) = "Passed" ∧
   ¬ final_skipped (ctx (final o'))).
Proof.
  cbv zeta. split; [reflexivity|].
  split.
  all: split; [vm_compute; reflexivity|].
  all: split; [vm_compute; reflexivity|].
  all: intros [Hs _]; vm_compute in Hs; discriminate Hs.
Qed.

(** C4, a run the claim misses: the breach is notified and the notification
    raises. The run ends there with the processing error quoting that
    exception and the two final stages, although enabled, are never
    evaluated; the same run without breach notifications returns. *)
Lemma breach_notification_can_end_run :
  let e := Exn OtherException "notification failed" in
  let df := [1; -2; 3]%Z in
  let o := @wrapper (list Z) failing_notifier_collaborators sample_arguments
             (sample_settings true) (Ok (RDataFrame df)) sample_state in
  let o' := @wrapper (list Z) failing_notifier_collaborators sample_arguments
              (without_breach_notification (sample_settings true))
              (Ok (RDataFrame df)) sample_state in
  stage_enabled (sample_settings true) final_agg = true ∧
  stage_enabled (sample_settings true) final_query = true ∧
  NotifyOnExceedsOfErrorThreshold (Raised e) ∈ trace o ∧
  res o = Raised (processing_error e) ∧
  evaluations (trace o)
  = [(source_agg, Some df); (source_query, Some df); (row, Some df)] ∧
  res o' = Ok (Some [1; 3]%Z) ∧
  evaluations (trace o')
  = [(source_agg, Some df); (source_query, Some df); (row, Some df);
     (final_agg, Some [1; 3]%Z); (final_query, Some [1; 3]%Z)].
Proof.
  cbv zeta. split; [reflexivity|]. split; [reflexivity|]. split.
  { apply (elem_of_breach_events _
             (NotifyOnExceedsOfErrorThreshold
                (Raised (Exn OtherException "notification failed")))).
    vm_compute. right. left. }
  repeat split; vm_compute; reflexivity.
Qed.

(** C5, a run the claim misses: the final query stage is to run and the row
    stage produced no dataframe, but the evaluation of the final aggregation
    stage raises first. The run raises the processing error quoting that
    exception, the final query stage is not even started and no
    configuration error is raised. *)
Lemma earlier_failure_hides_view_error :
  let o := @wrapper (list Z) failing_final_agg_collaborators sample_arguments
             (sample_settings true) (Ok (RDataFrame [1; -2; 3]%Z))
             sample_state in
  stage_enabled (sample_settings true) final_query = true ∧
  row_output (trace o) = None ∧
  res o = Raised (processing_error
                    (Exn OtherException "aggregation failed")) ∧
  res o ≠ Raised (processing_error view_error) ∧
  Forall (λ ev, ∀ t, ev ≠ SetStartTime final_query t) (trace o).
Proof.
  cbv zeta. split; [reflexivity|]. split; [vm_compute; reflexivity|].
  split; [vm_compute; reflexivity|]. split.
  - vm_compute. discriminate.
  - vm_compute. repeat constructor; discriminate.
Qed.
